(** * ws/lib/Sender.js: the HyBi frame encoder

    A shallow embedding of [lib/Sender.js] and the properties of its
    specification.  Buffers live in a store and are passed by reference,
    as in the source; the socket, the random source and the deflate stream
    are the environment. *)

From Stdlib Require Import ZArith Lia Ascii String Sorted.
From stdpp Require Import base option list gmap strings.

Local Open Scope Z_scope.

(** ** JavaScript numbers and bitwise operators

    Every number the encoder handles is an integer; the bitwise operators
    first take their operands to a signed 32-bit integer. *)

Definition ToInt32 (x : Z) : Z := (x + 2 ^ 31) mod 2 ^ 32 - 2 ^ 31.

(** [a & b] *)
Definition js_and (a b : Z) : Z := Z.land (ToInt32 a) (ToInt32 b).

(** [a | b] *)
Definition js_or (a b : Z) : Z := Z.lor (ToInt32 a) (ToInt32 b).

(** [a ^ b] *)
Definition js_xor (a b : Z) : Z := Z.lxor (ToInt32 a) (ToInt32 b).

(** [a >> k], the sign-propagating shift *)
Definition js_shr (a k : Z) : Z := Z.shiftr (ToInt32 a) k.

(** What a Buffer keeps of a number stored in one of its cells. *)
Definition ToUint8 (x : Z) : Z := x mod 256.

(** ** Buffers

    The contents of a Buffer are a list of octets.  [buffer[i] = v] keeps
    [v] modulo 256 and does nothing out of range; reading out of range
    gives [undefined], which the bitwise operators and a Buffer cell both
    take to 0. *)

Definition buf_set (i : nat) (v : Z) (b : list Z) : list Z := <[i := ToUint8 v]> b.

Definition buf_get (b : list Z) (i : nat) : Z := default 0 (b !! i).

Definition octets (b : list Z) : Prop := Forall (fun x => 0 <= x < 256) b.

(** [writeUInt16BE.call(b, value, offset)] (Sender.js, line 235) *)
Definition writeUInt16BE (value : Z) (offset : nat) (b : list Z) : list Z :=
  let b := buf_set offset (js_shr (js_and value 0xff00) 8) b in
  buf_set (offset + 1) (js_and value 0xff) b.

(** [writeUInt32BE.call(b, value, offset)] (Sender.js, line 240) *)
Definition writeUInt32BE (value : Z) (offset : nat) (b : list Z) : list Z :=
  let b := buf_set offset (js_shr (js_and value 0xff000000) 24) b in
  let b := buf_set (offset + 1) (js_shr (js_and value 0xff0000) 16) b in
  let b := buf_set (offset + 2) (js_shr (js_and value 0xff00) 8) b in
  buf_set (offset + 3) (js_and value 0xff) b.

(** [b.slice(start, end)] of Node: negative indices count from the end,
    both are clamped to the buffer, an empty range gives an empty Buffer. *)
Definition clamp_index (len i : Z) : Z :=
  if i <? 0 then Z.max 0 (len + i) else Z.min i len.

Definition Buffer_slice (b : list Z) (start end_ : Z) : list Z :=
  let len := Z.of_nat (length b) in
  let s := clamp_index len start in
  let e := clamp_index len end_ in
  take (Z.to_nat (e - s)) (drop (Z.to_nat s) b).

(** [source.copy(target, targetStart)] of Node: as many octets of [source]
    as fit into [target] from [targetStart] on. *)
Definition Buffer_copy (source target : list Z) (targetStart : nat) : list Z :=
  take targetStart target
  ++ take (length target - targetStart) source
  ++ drop (targetStart + length source) target.

(** [new Buffer(string)], [Buffer.byteLength(string)] and
    [buffer.write(string, offset)] work on the UTF-8 encoding of the
    string; a string is kept here as the sequence of its UTF-8 octets. *)
Definition utf8 (s : string) : list Z :=
  map (fun c => Z.of_N (N_of_ascii c)) (list_ascii_of_string s).

Definition Buffer_byteLength (s : string) : nat := length (utf8 s).

Definition Buffer_write (s : string) (offset : nat) (b : list Z) : list Z :=
  Buffer_copy (utf8 s) b offset.

(** ** The store, the socket and the encoder's state *)

Inductive js_error := Error (message : string).

(** The error [close] throws (line 37); the specification calls it
    InvalidCloseCode. *)
Definition InvalidCloseCode : js_error :=
  Error "first argument must be a valid error code number".

(** The TypeError of Node's [new Buffer(undefined)]. *)
Definition new_Buffer_undefined : js_error :=
  Error "First argument needs to be a number, array or string.".

(** One [socket.write(buffer, 'binary', cb)] that went through: the octets
    of the buffer at that moment and the callback handed over.  [wr_call]
    is bookkeeping of the model only: the number of the public operation
    the write belongs to. *)
Record write := { wr_call : nat; wr_bytes : list Z; wr_cb : option nat }.

(** A failure reported from a [catch] block: [cb(e)] or
    [this.emit('error', e)]. *)
Inductive report :=
  | CallbackError (cb : nat) (e : js_error)
  | ErrorEvent (e : js_error).

(** The closure of one compressed [frameAndSend]: the variables its
    deflate handlers and its [_frame_and_send] capture, and [cdata]. *)
Record Job := {
  j_call : nat;
  j_opcode : Z;
  j_finalFragment : bool;
  j_maskData : bool;
  j_cb : option nat;
  j_canModifyData : bool;
  j_input : list Z;
  j_cdata : list Z }.

Definition with_cdata (c : list Z) (j : Job) : Job :=
  {| j_call := j_call j; j_opcode := j_opcode j;
     j_finalFragment := j_finalFragment j; j_maskData := j_maskData j;
     j_cb := j_cb j; j_canModifyData := j_canModifyData j;
     j_input := j_input j; j_cdata := c |}.

Record World := {
  heap : gmap nat (list Z);        (* every Buffer, by reference *)
  firstFragment : bool;            (* this.firstFragment *)
  _randomMask : option (list Z);   (* this._randomMask *)
  draws : nat;                     (* calls of Math.random so far *)
  wire : list write;               (* what the socket accepted, in order *)
  reports : list report;           (* cb(e) and emit('error', e) *)
  jobs : gmap nat Job;             (* the deflate streams created *)
  calls : nat }.                   (* public operations invoked so far *)

Definition with_heap (h : gmap nat (list Z)) (w : World) : World :=
  {| heap := h; firstFragment := firstFragment w; _randomMask := _randomMask w;
     draws := draws w; wire := wire w; reports := reports w; jobs := jobs w;
     calls := calls w |}.

Definition with_firstFragment (b : bool) (w : World) : World :=
  {| heap := heap w; firstFragment := b; _randomMask := _randomMask w;
     draws := draws w; wire := wire w; reports := reports w; jobs := jobs w;
     calls := calls w |}.

Definition with_randomMask (m : list Z) (n : nat) (w : World) : World :=
  {| heap := heap w; firstFragment := firstFragment w; _randomMask := Some m;
     draws := n; wire := wire w; reports := reports w; jobs := jobs w;
     calls := calls w |}.

Definition with_wire (ws : list write) (w : World) : World :=
  {| heap := heap w; firstFragment := firstFragment w; _randomMask := _randomMask w;
     draws := draws w; wire := ws; reports := reports w; jobs := jobs w;
     calls := calls w |}.

Definition with_reports (rs : list report) (w : World) : World :=
  {| heap := heap w; firstFragment := firstFragment w; _randomMask := _randomMask w;
     draws := draws w; wire := wire w; reports := rs; jobs := jobs w;
     calls := calls w |}.

Definition with_jobs (js : gmap nat Job) (w : World) : World :=
  {| heap := heap w; firstFragment := firstFragment w; _randomMask := _randomMask w;
     draws := draws w; wire := wire w; reports := reports w; jobs := js;
     calls := calls w |}.

Definition with_calls (n : nat) (w : World) : World :=
  {| heap := heap w; firstFragment := firstFragment w; _randomMask := _randomMask w;
     draws := draws w; wire := wire w; reports := reports w; jobs := jobs w;
     calls := n |}.

(** A new encoder on a socket (the constructor, line 17), with the
    caller's Buffers [h] in the store. *)
Definition Sender (h : gmap nat (list Z)) : World :=
  {| heap := h; firstFragment := true; _randomMask := None; draws := 0%nat;
     wire := []; reports := []; jobs := ∅; calls := 0%nat |}.

Definition bufat (h : gmap nat (list Z)) (l : nat) : list Z := default [] (h !! l).

Definition buf (w : World) (l : nat) : list Z := bufat (heap w) l.

(** [new Buffer(...)]: a Buffer nothing else refers to.  [new Buffer(n)]
    is taken zero-filled; the encoder overwrites every cell it allocates. *)
Definition new_Buffer (contents : list Z) (w : World) : nat * World :=
  let l := fresh (dom (heap w)) in
  (l, with_heap (<[l := contents]> (heap w)) w).

Definition update_buf (l : nat) (f : list Z → list Z) (w : World) : World :=
  with_heap (<[l := f (buf w l)]> (heap w)) w.

(** [l[i] = v] *)
Definition store (l : nat) (i : nat) (v : Z) (w : World) : World :=
  update_buf l (buf_set i v) w.

(** Modelled from the spec: [bufferUtil.mask(source, mask, output, offset,
    length)] of lib/BufferUtil.js, which is not among the sources.  The
    specification has it "XOR every payload byte with mask[i % 4]", the
    result going to [output] from [offset] on.  [source] and [output] are
    references and may be the same Buffer, as on line 165. *)
Fixpoint bufferUtil_mask_from (i n : nat) (source : nat) (mask : list Z)
    (output : nat) (offset : nat) (h : gmap nat (list Z)) : gmap nat (list Z) :=
  match n with
  | O => h
  | S n' =>
      let v := js_xor (buf_get (bufat h source) i) (buf_get mask (i mod 4)%nat) in
      bufferUtil_mask_from (S i) n' source mask output offset
        (<[output := buf_set (offset + i) v (bufat h output)]> h)
  end.

Definition bufferUtil_mask (source : nat) (mask : list Z) (output : nat)
    (offset length : nat) (w : World) : World :=
  with_heap (bufferUtil_mask_from 0 length source mask output offset (heap w)) w.

(** ** What callers pass *)

(** An ArrayBuffer, or a typed array or a DataView over one: the octets
    of the underlying ArrayBuffer, [byteOffset], [byteLength], and
    [length], the number of elements, which only a typed array has. *)
Record ArrayBufferView := {
  ab_buffer : list Z;
  ab_byteOffset : nat;
  ab_byteLength : nat;
  ab_length : option nat }.

(** [data.byteLength || data.length] (line 250): a [byteLength] of 0 is
    falsy, and the [length] of an ArrayBuffer or of a DataView is
    [undefined]. *)
Definition byteLength_or_length (data : ArrayBufferView) : option nat :=
  if (ab_byteLength data =? 0)%nat then ab_length data else Some (ab_byteLength data).

Inductive message_data :=
  | DUndefined                       (* undefined or null *)
  | DString (s : string)
  | DBuffer (l : nat)                (* a Buffer of the caller *)
  | DView (v : ArrayBufferView).

(** [!message_data] *)
Definition falsy (d : message_data) : bool :=
  match d with
  | DUndefined => true
  | DString s => bool_decide (s = EmptyString)
  | DBuffer _ | DView _ => false
  end.

(** The options object of [send], [ping] and [pong]; [fin] may be absent. *)
Record send_options := {
  o_fin : option bool;
  o_mask : bool;
  o_binary : bool;
  o_compress : bool }.

(** The first argument of [close]. *)
Inductive close_code :=
  | CodeUndefined
  | CodeNumber (n : Z)
  | CodeNotNumber.

Inductive outcome :=
  | Returned (w : World)
  | Thrown (e : js_error) (w : World).

(** The encoder after an operation, whether it returned or threw. *)
Definition world_of (o : outcome) : World :=
  match o with Returned w | Thrown _ w => w end.

Coercion world_of : outcome >-> World.

(** ** The encoder *)

Section Encoder.

(** [ErrorCodes.isValidErrorCode] of lib/ErrorCodes.js, an external table. *)
Variable isValidErrorCode : Z → bool.

(** [~~(Math.random() * 255)] at the k-th call of [Math.random]. *)
Variable random255 : nat → Z.

(** Whether [socket.write] throws, given what the socket has accepted so
    far and the octets offered. *)
Variable socket_throws : list write → list Z → option js_error.

(** [getRandomMask()] (line 259) and its caching on line 149. *)
Definition getRandomMask (w : World) : list Z * World :=
  let k := draws w in
  let m := map ToUint8
    [random255 k; random255 (k + 1)%nat; random255 (k + 2)%nat; random255 (k + 3)%nat] in
  (m, with_randomMask m (k + 4)%nat w).

Definition the_mask (w : World) : list Z * World :=
  match _randomMask w with
  | Some m => (m, w)
  | None => getRandomMask w
  end.

(** [getArrayBuffer(data)] (line 247) *)
Fixpoint getArrayBuffer_from (i n : nat) (array : list Z) (o : nat)
    (buffer : list Z) : list Z :=
  match n with
  | O => buffer
  | S n' =>
      getArrayBuffer_from (S i) n' array o (buf_set i (buf_get array (o + i)) buffer)
  end.

Definition getArrayBuffer (data : ArrayBufferView) (w : World)
    : (nat * World) + js_error :=
  let array := ab_buffer data in
  let l := byteLength_or_length data in
  let o := ab_byteOffset data in
  match l with
  | None => inr new_Buffer_undefined
  | Some l => inl (new_Buffer (getArrayBuffer_from 0 l array o (replicate l 0)) w)
  end.

(** [socket.write(b, 'binary', cb)] *)
Definition socket_write (call : nat) (b : nat) (cb : option nat) (w : World)
    : World + js_error :=
  match socket_throws (wire w) (buf w b) with
  | Some e => inr e
  | None =>
      inl (with_wire (wire w ++ [{| wr_call := call; wr_bytes := buf w b; wr_cb := cb |}]) w)
  end.

(** The [catch] blocks: [if (typeof cb == 'function') cb(e); else
    self.emit('error', e);] *)
Definition report_error (cb : option nat) (e : js_error) (w : World) : World :=
  match cb with
  | Some f => with_reports (reports w ++ [CallbackError f e]) w
  | None => with_reports (reports w ++ [ErrorEvent e]) w
  end.

(** [try { write(b, cb) } catch ...] *)
Definition try_write (call : nat) (b : nat) (cb : option nat) (w : World) : World :=
  match socket_write call b cb w with
  | inl w' => w'
  | inr e => report_error cb e w
  end.

(** [try { write(header); write(data, cb) } catch ...] *)
Definition try_write2 (call : nat) (header data : nat) (cb : option nat)
    (w : World) : World :=
  match socket_write call header None w with
  | inr e => report_error cb e w
  | inl w1 =>
      match socket_write call data cb w1 with
      | inl w2 => w2
      | inr e => report_error cb e w1
      end
  end.

(** Line 130. *)
Definition mergeBuffers (dataLength : Z) (maskData canModifyData : bool) : bool :=
  (dataLength <? 32768) || (maskData && negb canModifyData).

(** [_frame_and_send(data)] (lines 116-199), with the variables of the
    enclosing [frameAndSend] it captures as arguments. *)
Definition _frame_and_send (call : nat) (opcode : Z)
    (finalFragment maskData compress : bool) (cb : option nat)
    (canModifyData : bool) (data : nat) (w : World) : World :=
  let len := length (buf w data) in
  let dataLength := Z.of_nat len in
  let dataOffset := if maskData then 6%nat else 2%nat in
  let secondByte := dataLength in
  let '(dataOffset, secondByte) :=
    if 65536 <=? dataLength then ((dataOffset + 8)%nat, 127)
    else if 125 <? dataLength then ((dataOffset + 2)%nat, 126)
    else (dataOffset, secondByte) in
  let merge := mergeBuffers dataLength maskData canModifyData in
  let totalLength := if merge then (len + dataOffset)%nat else dataOffset in
  let '(outputBuffer, w) := new_Buffer (replicate totalLength 0) w in
  let w := store outputBuffer 0 (if finalFragment then js_or opcode 0x80 else opcode) w in
  let w :=
    if compress then store outputBuffer 0 (js_or (buf_get (buf w outputBuffer) 0) 0x40) w
    else w in
  let w :=
    if secondByte =? 126 then update_buf outputBuffer (writeUInt16BE dataLength 2) w
    else if secondByte =? 127 then
      update_buf outputBuffer (writeUInt32BE dataLength 6)
        (update_buf outputBuffer (writeUInt32BE 0 2) w)
    else w in
  if maskData then
    let w := store outputBuffer 1 (js_or secondByte 0x80) w in
    let '(mask, w) := the_mask w in
    let w := store outputBuffer (dataOffset - 4) (buf_get mask 0) w in
    let w := store outputBuffer (dataOffset - 3) (buf_get mask 1) w in
    let w := store outputBuffer (dataOffset - 2) (buf_get mask 2) w in
    let w := store outputBuffer (dataOffset - 1) (buf_get mask 3) w in
    if merge then
      let w := bufferUtil_mask data mask outputBuffer dataOffset len w in
      try_write call outputBuffer cb w
    else
      let w := bufferUtil_mask data mask data 0 len w in
      try_write2 call outputBuffer data cb w
  else
    let w := store outputBuffer 1 secondByte w in
    if merge then
      let w := update_buf outputBuffer (fun out => Buffer_copy (buf w data) out dataOffset) w in
      try_write call outputBuffer cb w
    else
      try_write2 call outputBuffer data cb w.

(** [new zlib.DeflateRaw(...)] with its three handlers, then
    [deflate_stream.end(message_data)] (lines 214-227): the stream is
    registered with an empty [cdata]; its events come later. *)
Definition deflate_start (call : nat) (opcode : Z) (finalFragment maskData : bool)
    (cb : option nat) (canModifyData : bool) (data : nat) (w : World) : World :=
  let j := fresh (dom (jobs w)) in
  with_jobs (<[j := {| j_call := call; j_opcode := opcode;
                       j_finalFragment := finalFragment; j_maskData := maskData;
                       j_cb := cb; j_canModifyData := canModifyData;
                       j_input := buf w data; j_cdata := [] |}]> (jobs w)) w.

(** [Sender.prototype.frameAndSend] (line 91).  [getArrayBuffer] may
    throw (lines 105-112); nothing is caught there, so the error leaves
    [frameAndSend] before anything is written. *)
Definition frameAndSend (call : nat) (opcode : Z) (message_data : message_data)
    (finalFragment maskData compress : bool) (cb : option nat) (w : World) : outcome :=
  if falsy message_data then
    let '(b, w) :=
      new_Buffer (map ToUint8
        ([js_or opcode (if finalFragment then 0x80 else 0);
          js_or 0 (if maskData then 0x80 else 0)]
         ++ (if maskData then [0; 0; 0; 0] else []))) w in
    Returned (try_write call b cb w)
  else
    let converted :=
      match message_data with
      | DBuffer l => inl (false, l, w)
      | DView v =>
          match getArrayBuffer v w with
          | inl (l, w) => inl (true, l, w)
          | inr e => inr e
          end
      | DString s => let '(l, w) := new_Buffer (utf8 s) w in inl (true, l, w)
      | DUndefined => let '(l, w) := new_Buffer [] w in inl (true, l, w)
      end in
    match converted with
    | inr e => Thrown e w
    | inl (canModifyData, message_data, w) =>
        Returned
          (if compress then
             deflate_start call opcode finalFragment maskData cb canModifyData
               message_data w
           else
             _frame_and_send call opcode finalFragment maskData compress cb
               canModifyData message_data w)
    end.

(** The handlers of the deflate stream (lines 216-226). *)
Definition deflate_on_error (j : nat) (err : string) (w : World) : outcome :=
  match jobs w !! j with
  | Some _ => Thrown (Error err) w
  | None => Returned w
  end.

Definition deflate_on_data (j : nat) (chunk : list Z) (w : World) : World :=
  match jobs w !! j with
  | Some job => with_jobs (<[j := with_cdata (j_cdata job ++ chunk) job]> (jobs w)) w
  | None => w
  end.

Definition deflate_on_end (j : nat) (w : World) : World :=
  match jobs w !! j with
  | Some job =>
      let '(data, w) := new_Buffer (Buffer_slice (j_cdata job) 0 (-6)) w in
      _frame_and_send (j_call job) (j_opcode job) (j_finalFragment job)
        (j_maskData job) true (j_cb job) (j_canModifyData job) data w
  | None => w
  end.

(** A public operation starts: its number, for the bookkeeping of [wire]. *)
Definition begin_call (w : World) : nat * World :=
  (calls w, with_calls (S (calls w)) w).

(** [Sender.prototype.close] (line 34) *)
Definition close (code : close_code) (data : option string) (mask : bool)
    (w : World) : outcome :=
  let invalid :=
    match code with
    | CodeUndefined => false
    | CodeNumber n => negb (isValidErrorCode n)
    | CodeNotNumber => true
    end in
  if invalid then Thrown InvalidCloseCode w
  else
    let '(call, w) := begin_call w in
    let code :=
      match code with
      | CodeNumber n => if n =? 0 then 1000 else n
      | CodeUndefined | CodeNotNumber => 1000
      end in
    let reason :=
      match data with
      | Some s => if bool_decide (s = EmptyString) then 0%nat else Buffer_byteLength s
      | None => 0%nat
      end in
    let '(dataBuffer, w) := new_Buffer (replicate (2 + reason) 0) w in
    let w := update_buf dataBuffer (writeUInt16BE code 0) w in
    let w :=
      if (2 <? length (buf w dataBuffer))%nat
      then update_buf dataBuffer (Buffer_write (default EmptyString data) 2) w
      else w in
    frameAndSend call 0x8 (DBuffer dataBuffer) true mask false None w.

(** [options && options.mask] and the like *)
Definition opt (f : send_options → bool) (options : option send_options) : bool :=
  match options with Some o => f o | None => false end.

(** [data || ''] *)
Definition or_empty (data : message_data) : message_data :=
  if falsy data then DString EmptyString else data.

(** [Sender.prototype.ping] (line 52) *)
Definition ping (data : message_data) (options : option send_options)
    (w : World) : outcome :=
  let '(call, w) := begin_call w in
  let mask := opt o_mask options in
  frameAndSend call 0x9 (or_empty data) true mask false None w.

(** [Sender.prototype.pong] (line 63) *)
Definition pong (data : message_data) (options : option send_options)
    (w : World) : outcome :=
  let '(call, w) := begin_call w in
  let mask := opt o_mask options in
  frameAndSend call 0xa (or_empty data) true mask false None w.

(** [Sender.prototype.send] (line 74) *)
Definition send (data : message_data) (options : option send_options)
    (cb : option nat) (w : World) : outcome :=
  let '(call, w) := begin_call w in
  let finalFragment :=
    match options with
    | Some o => match o_fin o with Some false => false | _ => true end
    | None => true
    end in
  let mask := opt o_mask options in
  let opcode := if opt o_binary options then 2 else 1 in
  let compress := opt o_compress options in
  let '(opcode, w) :=
    if negb (firstFragment w) then (0, w) else (opcode, with_firstFragment false w) in
  let w := if finalFragment then with_firstFragment true w else w in
  frameAndSend call opcode data finalFragment mask compress cb w.

(** ** The event loop

    One turn is a public operation invoked by the application or an event
    of a deflate stream.  A turn that throws leaves the encoder as it was
    at the throw. *)

Inductive action :=
  | ASend (data : message_data) (options : option send_options) (cb : option nat)
  | APing (data : message_data) (options : option send_options)
  | APong (data : message_data) (options : option send_options)
  | AClose (code : close_code) (data : option string) (mask : bool)
  | ADeflateData (j : nat) (chunk : list Z)
  | ADeflateEnd (j : nat)
  | ADeflateError (j : nat) (err : string).

Definition step (a : action) (w : World) : outcome :=
  match a with
  | ASend d o cb => send d o cb w
  | APing d o => ping d o w
  | APong d o => pong d o w
  | AClose c d m => close c d m w
  | ADeflateData j chunk => Returned (deflate_on_data j chunk w)
  | ADeflateEnd j => Returned (deflate_on_end j w)
  | ADeflateError j err => deflate_on_error j err w
  end.

Fixpoint run (acts : list action) (w : World) : World :=
  match acts with
  | [] => w
  | a :: acts' => run acts' (world_of (step a w))
  end.

End Encoder.

(** ** The wire format, as the specification draws it (RFC 6455) *)

Record Frame := {
  f_fin : bool;
  f_rsv1 : bool;
  f_opcode : Z;
  f_masked : bool;
  f_length : Z;
  f_mask_key : list Z;
  f_payload : list Z }.

(** A big-endian unsigned integer. *)
Definition be_value (bs : list Z) : Z := fold_left (fun acc b => acc * 256 + b) bs 0.

(** Reading a frame back: FIN, RSV1 and the opcode in the first octet, the
    MASK bit and the 7-bit length in the second, then the extended length
    (2 octets after 126, 8 after 127), the masking key when MASK is set,
    and the payload region. *)
Definition decode_frame (f : list Z) : option Frame :=
  match f with
  | b0 :: b1 :: rest =>
      let len7 := Z.land b1 127 in
      let ext := if len7 =? 126 then 2%nat else if len7 =? 127 then 8%nat else 0%nat in
      let masked := Z.testbit b1 7 in
      let klen := if masked then 4%nat else 0%nat in
      if (length rest <? ext + klen)%nat then None
      else
        Some {| f_fin := Z.testbit b0 7;
                f_rsv1 := Z.testbit b0 6;
                f_opcode := Z.land b0 15;
                f_masked := masked;
                f_length := if (ext =? 0)%nat then len7 else be_value (take ext rest);
                f_mask_key := take klen (drop ext rest);
                f_payload := drop klen (drop ext rest) |}
  | _ => None
  end.

(** Unmasking: octet [i] of the payload region XOR [key[i mod 4]]. *)
Definition unmask (key payload : list Z) : list Z :=
  imap (fun i b => Z.lxor b (buf_get key (i mod 4)%nat)) payload.

(** A sequence without its last [n] octets. *)
Definition remove_last (n : nat) (l : list Z) : list Z := rev (drop n (rev l)).

(** The octets the socket accepted between two states of the encoder. *)
Definition emitted (w w' : World) : list Z :=
  concat (wr_bytes <$> drop (length (wire w)) (wire w')).

(** The public operations that have a write on the wire, in wire order. *)
Definition wire_calls (w : World) : list nat := wr_call <$> wire w.

(** ** The frame [_frame_and_send] builds, in closed form *)

Definition first_byte (opcode : Z) (finalFragment compress : bool) : Z :=
  let b := ToUint8 (if finalFragment then js_or opcode 0x80 else opcode) in
  if compress then ToUint8 (js_or b 0x40) else b.

Definition second_byte (dataLength : Z) : Z :=
  if 65536 <=? dataLength then 127
  else if 125 <? dataLength then 126
  else dataLength.

Definition length_field (dataLength : Z) : list Z :=
  if 65536 <=? dataLength then
    writeUInt32BE dataLength 4 (writeUInt32BE 0 0 (replicate 8 0))
  else if 125 <? dataLength then writeUInt16BE dataLength 0 (replicate 2 0)
  else [].

Definition key_octets (mask : list Z) : list Z :=
  (fun i => ToUint8 (buf_get mask i)) <$> [0; 1; 2; 3]%nat.

Definition header_octets (opcode : Z) (finalFragment maskData compress : bool)
    (dataLength : Z) (mask : list Z) : list Z :=
  [first_byte opcode finalFragment compress;
   ToUint8 (if maskData then js_or (second_byte dataLength) 0x80
            else second_byte dataLength)]
  ++ length_field dataLength
  ++ (if maskData then key_octets mask else []).

Definition masked_octets (mask data : list Z) : list Z :=
  imap (fun i b => ToUint8 (js_xor b (buf_get mask (i mod 4)%nat))) data.

Definition frame_octets (opcode : Z) (finalFragment maskData compress : bool)
    (mask data : list Z) : list Z :=
  header_octets opcode finalFragment maskData compress (Z.of_nat (length data)) mask
  ++ (if maskData then masked_octets mask data else data).

(** The mask the next masked frame uses: the cached one, or four new
    draws. *)
Definition next_mask (random255 : nat → Z) (w : World) : list Z :=
  (the_mask random255 w).1.

(** The state in which a masked frame leaves the encoder: the mask is
    cached. *)
Definition mask_world (random255 : nat → Z) (maskData : bool) (w : World) : World :=
  if maskData then (the_mask random255 w).2 else w.

(** The two ways [_frame_and_send] ends: one write of the merged buffer, or
    the header and then the payload buffer. *)
Definition send_buffers (socket_throws : list write → list Z → option js_error)
    (call : nat) (merge : bool) (header data : nat) (cb : option nat)
    (w : World) : World :=
  if merge then try_write socket_throws call header cb w
  else try_write2 socket_throws call header data cb w.

(** The frame of the fast path for a missing payload (line 96). *)
Definition empty_frame_octets (opcode : Z) (finalFragment maskData : bool) : list Z :=
  ToUint8 <$> ([js_or opcode (if finalFragment then 0x80 else 0);
                js_or 0 (if maskData then 0x80 else 0)]
               ++ (if maskData then [0; 0; 0; 0] else [])).

(** The octets [frameAndSend] frames for a payload argument. *)
Definition payload_octets (w : World) (data : message_data) : list Z :=
  match data with
  | DUndefined => []
  | DString s => utf8 s
  | DBuffer l => buf w l
  | DView v =>
      let l := default 0%nat (byteLength_or_length v) in
      getArrayBuffer_from 0 l (ab_buffer v) (ab_byteOffset v) (replicate l 0)
  end.

(** A Buffer handed to the encoder exists, and a view handed to it has a
    length: [getArrayBuffer] does not throw. *)
Definition valid_data (w : World) (data : message_data) : Prop :=
  match data with
  | DBuffer l => is_Some (heap w !! l)
  | DView v => is_Some (byteLength_or_length v)
  | _ => True
  end.

Definition valid_action (a : action) (w : World) : Prop :=
  match a with
  | ASend d _ _ | APing d _ | APong d _ => valid_data w d
  | _ => True
  end.

(** The length the header carries for a payload of [n] octets. *)
Definition encoded_length (n : Z) : Z := if 65536 <=? n then n mod 2 ^ 32 else n.

(** [options.fin === false ? false : true] and the opcode [send] asks for. *)
Definition fin_of (options : option send_options) : bool :=
  match options with
  | Some o => match o_fin o with Some false => false | _ => true end
  | None => true
  end.

Definition data_opcode (options : option send_options) : Z :=
  if opt o_binary options then 2 else 1.

(** The reason of [close] as octets. *)
Definition reason_octets (data : option string) : list Z :=
  match data with Some s => utf8 s | None => [] end.

(** One masked octet, and the two masking loops in closed form: into
    another Buffer from [offset] on, and in place. *)
Definition mask_octet (mask d : list Z) (i : nat) : Z :=
  ToUint8 (js_xor (buf_get d i) (buf_get mask (i mod 4)%nat)).

Fixpoint mask_into (i n : nat) (d mask : list Z) (offset : nat) (out : list Z) : list Z :=
  match n with
  | O => out
  | S n' => mask_into (S i) n' d mask offset (<[(offset + i)%nat := mask_octet mask d i]> out)
  end.

Fixpoint mask_in_place (i n : nat) (mask d : list Z) : list Z :=
  match n with
  | O => d
  | S n' => mask_in_place (S i) n' mask (<[(0 + i)%nat := mask_octet mask d i]> d)
  end.

(** ** Ordering on the wire *)

(** The writes are in the order of the operations they belong to. *)
Definition in_call_order (w : World) : Prop := Sorted le (wire_calls w).

Definition deflate_target (a : action) : option nat :=
  match a with
  | ADeflateData j _ | ADeflateEnd j | ADeflateError j _ => Some j
  | _ => None
  end.

(** An event of a deflate stream is prompt when the stream belongs to the
    operation invoked last: its compression ends before anything else is
    asked of the encoder. *)
Definition prompt (a : action) (w : World) : Prop :=
  match deflate_target a with
  | Some j => ∀ job, jobs w !! j = Some job → S (j_call job) = calls w
  | None => True
  end.

Section Runs.

Variable isValidErrorCode : Z → bool.
Variable random255 : nat → Z.
Variable socket_throws : list write → list Z → option js_error.

Fixpoint prompt_run (acts : list action) (w : World) : Prop :=
  match acts with
  | [] => True
  | a :: acts' =>
      prompt a w
      ∧ prompt_run acts' (world_of (step isValidErrorCode random255 socket_throws a w))
  end.

End Runs.


(** ** The properties of the specification *)

(** The documented width rule for a payload of [n] octets, read off the
    octets [F] of a frame, and the length decoded back from the header. *)
Definition width_rule (n : Z) (F : list Z) : Prop :=
  f_length <$> decode_frame F = Some n
  ∧ (n < 126 → Z.land (buf_get F 1) 127 = n)
  ∧ (126 <= n <= 65535 →
     Z.land (buf_get F 1) 127 = 126 ∧ be_value (take 2 (drop 2 F)) = n)
  ∧ (65536 <= n →
     Z.land (buf_get F 1) 127 = 127 ∧ be_value (take 8 (drop 2 F)) = n).

(** [F] is a masked frame, and unmasking its payload region with the four
    octets before it gives [d]. *)
Definition unmasks_to (F d : list Z) : Prop :=
  ∃ fr, decode_frame F = Some fr ∧ f_masked fr = true
        ∧ length (f_mask_key fr) = 4%nat
        ∧ unmask (f_mask_key fr) (f_payload fr) = d.

(** The payload of a frame as the receiver sees it. *)
Definition received_payload (fr : Frame) : list Z :=
  if f_masked fr then unmask (f_mask_key fr) (f_payload fr) else f_payload fr.

Definition outcome_map (f : World → World) (o : outcome) : outcome :=
  match o with
  | Returned w => Returned (f w)
  | Thrown e w => Thrown e (f w)
  end.

(** The code [close] sends: [code || 1000]. *)
Definition sent_code (code : close_code) : Z :=
  match code with
  | CodeNumber n => if n =? 0 then 1000 else n
  | CodeUndefined | CodeNotNumber => 1000
  end.

(** The chunks the deflate stream [j] delivers in a sequence of turns,
    whatever else happens in between. *)
Definition chunks_of (j : nat) (acts : list action) : list (list Z) :=
  omap (fun a => match a with
                 | ADeflateData j' chunk => if decide (j' = j) then Some chunk else None
                 | _ => None
                 end) acts.

(** What holds of the wire between turns: the writes are in call order,
    they and the deflate streams belong to operations already invoked. *)
Definition wire_invariant (w : World) : Prop :=
  in_call_order w
  ∧ Forall (fun c => (c < calls w)%nat) (wire_calls w)
  ∧ ∀ j job, jobs w !! j = Some job → (j_call job < calls w)%nat.

(** ** A concrete environment, for the examples *)

(** A socket that accepts every write. *)
Definition accepting_socket : list write → list Z → option js_error :=
  fun _ _ => None.

(** A run of [Math.random] whose draws give 17, 18, 19, ... *)
Definition counting_random (k : nat) : Z := Z.of_nat k + 17.

(** Modelled from the spec: [ErrorCodes.isValidErrorCode] of
    lib/ErrorCodes.js is not among the sources.  The specification fixes
    only that the table rejects 999 and accepts 1000; this sample table
    accepts the codes from 1000 to 4999. *)
Definition sample_isValidErrorCode (code : Z) : bool :=
  (1000 <=? code) && (code <=? 4999).

Definition masked_options : option send_options :=
  Some {| o_fin := None; o_mask := true; o_binary := false; o_compress := false |}.

Definition compress_options : option send_options :=
  Some {| o_fin := None; o_mask := false; o_binary := false; o_compress := true |}.

(** An encoder whose caller holds the Buffer "hi" at 0 and an empty Buffer
    at 1. *)
Definition sample_world : World := Sender {[0%nat := [104; 105]; 1%nat := []]}.

(** Two compressed sends, the deflate stream of the second ending first. *)
Definition overtaking : list action :=
  [ASend (DString "one") compress_options None;
   ASend (DString "two") compress_options None;
   ADeflateData 0 [1; 1; 1; 0; 0; 255; 255; 3; 0];
   ADeflateData 1 [2; 2; 0; 0; 255; 255; 3; 0];
   ADeflateEnd 1;
   ADeflateEnd 0].

(** A compressed send whose deflate stream ends before a ping is sent. *)
Definition one_at_a_time : list action :=
  [ASend (DString "one") compress_options None;
   ADeflateData 0 [1; 1; 1; 0; 0; 255; 255; 3; 0];
   ADeflateEnd 0;
   APing DUndefined None].

(** ** Further notions, for the properties beyond the specification *)

(** The octets an ArrayBuffer view shows. *)
Definition view_octets (v : ArrayBufferView) : list Z :=
  take (ab_byteLength v) (drop (ab_byteOffset v) (ab_buffer v)).

(** The view lies within its ArrayBuffer. *)
Definition view_in_range (v : ArrayBufferView) : Prop :=
  (ab_byteOffset v + ab_byteLength v ≤ length (ab_buffer v))%nat.

(** The number of octets of the extended length, and of the whole header. *)
Definition extension_octets (n : Z) : nat :=
  if 65536 <=? n then 8%nat else if 125 <? n then 2%nat else 0%nat.

Definition header_length (n : Z) (maskData : bool) : nat :=
  (2 + extension_octets n + (if maskData then 4 else 0))%nat.

(** Whether [frameAndSend] may change the Buffer it frames: not a Buffer
    of the caller (lines 92 and 105-106). *)
Definition can_modify (data : message_data) : bool :=
  match data with
  | DBuffer _ => false
  | _ => true
  end.

(** What a [catch] block records for an error. *)
Definition report_of (cb : option nat) (e : js_error) : report :=
  match cb with
  | Some f => CallbackError f e
  | None => ErrorEvent e
  end.

(** The payload region of a frame as it is written. *)
Definition wire_payload (maskData : bool) (mask d : list Z) : list Z :=
  if maskData then masked_octets mask d else d.

(** One message sent as fragments: every piece but the last with
    [fin: false], the last with [fin: true]. *)
Definition fragment_options (binary mask fin : bool) : option send_options :=
  Some {| o_fin := Some fin; o_mask := mask; o_binary := binary; o_compress := false |}.

Definition fragmented (binary mask : bool) (pieces : list message_data)
    (last : message_data) : list action :=
  ((fun d => ASend d (fragment_options binary mask false) None) <$> pieces)
  ++ [ASend last (fragment_options binary mask true) None].

(** The fragmentation flag a turn leaves. *)
Definition fin_after (a : action) (b : bool) : bool :=
  match a with
  | ASend _ options _ => fin_of options
  | _ => b
  end.

Definition last_fin (acts : list action) (b : bool) : bool :=
  fold_left (fun b a => fin_after a b) acts b.

(** Every Buffer the actions hand over exists. *)
Definition valid_actions (acts : list action) (w : World) : Prop :=
  Forall (fun a => valid_action a w) acts.

Section Traces.

Variable isValidErrorCode : Z → bool.
Variable random255 : nat → Z.
Variable socket_throws : list write → list Z → option js_error.

(** The octets each turn puts on the wire. *)
Fixpoint frames_of_run (acts : list action) (w : World) : list (list Z) :=
  match acts with
  | [] => []
  | a :: acts' =>
      let w' := world_of (step isValidErrorCode random255 socket_throws a w) in
      emitted w w' :: frames_of_run acts' w'
  end.

End Traces.

(** A socket that throws [e] at every write. *)
Definition throwing_socket (e : js_error) : list write → list Z → option js_error :=
  fun _ _ => Some e.

(** A socket that throws [e] from its [k]-th write on. *)
Definition socket_failing_after (k : nat) (e : js_error)
    : list write → list Z → option js_error :=
  fun ws _ => if (length ws <? k)%nat then None else Some e.

(** An encoder whose caller holds a Buffer of 40000 zero octets at 0. *)
Definition large_world : World := Sender {[0%nat := replicate (Z.to_nat 40000) 0]}.

(** A Uint8Array on the octets 2 and 3 of a four-octet ArrayBuffer. *)
Definition sample_view : ArrayBufferView :=
  {| ab_buffer := [10; 20; 30; 40]; ab_byteOffset := 1; ab_byteLength := 2;
     ab_length := Some 2%nat |}.

(** The writes of one frame: merged into one, or the header and then the
    payload region; the callback goes with the last write. *)
Definition frame_writes (call : nat) (merge : bool) (header payload : list Z)
    (cb : option nat) : list write :=
  if merge then [{| wr_call := call; wr_bytes := header ++ payload; wr_cb := cb |}]
  else [{| wr_call := call; wr_bytes := header; wr_cb := None |};
        {| wr_call := call; wr_bytes := payload; wr_cb := cb |}].

(** The encoder after a compressed send of "one" whose deflate stream has
    delivered one chunk and has not ended. *)
Definition deflating_world : World :=
  run sample_isValidErrorCode counting_random accepting_socket
    [ASend (DString "one") compress_options None;
     ADeflateData 0 [1; 1; 1; 0; 0; 255; 255; 3; 0]]
    sample_world.

(** The job of that send. *)
Definition deflating_job : Job :=
  {| j_call := 0;
     j_opcode := 1;
     j_finalFragment := true;
     j_maskData := false;
     j_cb := None;
     j_canModifyData := true;
     j_input := [111; 110; 101];
     j_cdata := [1; 1; 1; 0; 0; 255; 255; 3; 0] |}.

(** The encoder after one masked send of the Buffer at 0. *)
Definition masked_world : World :=
  send counting_random accepting_socket (DBuffer 0) masked_options None sample_world.

(** A text message in three fragments, sent masked. *)
Definition sample_pieces : list message_data := [DString "he"; DBuffer 0].

(** The options of a compressed binary send. *)
Definition binary_compress_options : option send_options :=
  Some {| o_fin := None; o_mask := false; o_binary := true; o_compress := true |}.

(** What happens between a compressed send, whose deflate stream is 0,
    and the end of that stream: another compressed send, whose stream 1
    delivers in between and ends, a ping, and the chunks of stream 0 in two
    pieces. *)
Definition interleaved : list action :=
  [ASend (DString "two") compress_options None;
   ADeflateData 0 [1; 1; 1; 0];
   ADeflateData 1 [2; 2; 0; 0; 255; 255; 3; 0];
   APing DUndefined None;
   ADeflateData 0 [0; 255; 255; 3; 0];
   ADeflateEnd 1].

(** An encoder in the middle of a fragmented message. *)
Definition mid_message_world : World :=
  send counting_random accepting_socket (DString "he")
    (fragment_options false false false) None sample_world.


(** ** Examples *)

Example slice_drops_six : Buffer_slice [1; 2; 3; 4; 5; 6; 7; 8] 0 (-6) = [1; 2].
Proof. reflexivity. Qed.

Example slice_short : Buffer_slice [1; 2; 3] 0 (-6) = [].
Proof. reflexivity. Qed.

Example utf8_bye : utf8 "bye" = [98; 121; 101].
Proof. reflexivity. Qed.

Example uint16_1000 : writeUInt16BE 1000 0 [0; 0] = [3; 232].
Proof. reflexivity. Qed.

Example uint32_top_bit : writeUInt32BE 0x80000001 0 [0; 0; 0; 0] = [128; 0; 0; 1].
Proof. reflexivity. Qed.


(** ** Arithmetic of the bitwise operators *)

Lemma ToInt32_small x : 0 <= x < 2 ^ 31 → ToInt32 x = x.
Proof. intros H. unfold ToInt32. rewrite Z.mod_small; lia. Qed.

Lemma ToInt32_cong x : ∃ c, ToInt32 x = x + 2 ^ 32 * c ∧ - 2 ^ 31 <= ToInt32 x < 2 ^ 31.
Proof.
  unfold ToInt32. exists (- ((x + 2 ^ 31) / 2 ^ 32)).
  pose proof (Z.div_mod (x + 2 ^ 31) (2 ^ 32) ltac:(lia)).
  pose proof (Z.mod_pos_bound (x + 2 ^ 31) (2 ^ 32) ltac:(lia)). lia.
Qed.

Lemma land_byte_range x : 0 <= Z.land x 255 < 256.
Proof.
  change 255 with (Z.ones 8). rewrite Z.land_ones by lia.
  apply Z.mod_pos_bound. lia.
Qed.

(** [(x & (0xff << k)) >> k] on integers is octet [k/8] of [x]. *)
Lemma land_shifted_byte x k :
  0 <= k → Z.shiftr (Z.land x (Z.shiftl 255 k)) k = (x / 2 ^ k) mod 256.
Proof.
  intros Hk. rewrite Z.shiftr_land, Z.shiftr_shiftl_l by lia.
  rewrite Z.sub_diag, Z.shiftl_0_r. change 255 with (Z.ones 8).
  rewrite Z.land_ones, Z.shiftr_div_pow2 by lia. reflexivity.
Qed.

Lemma land_shifted_range x k :
  0 <= k → 0 <= Z.land x (Z.shiftl 255 k) < 2 ^ (k + 8).
Proof.
  intros Hk.
  assert (Z.land x (Z.shiftl 255 k) = Z.shiftl (Z.shiftr (Z.land x (Z.shiftl 255 k)) k) k) as ->.
  { rewrite <- Z.ldiff_ones_r by lia. rewrite Z.ldiff_land, <- Z.land_assoc.
    f_equal. rewrite <- Z.ldiff_land. rewrite Z.ldiff_ones_r by lia.
    rewrite Z.shiftr_shiftl_l, Z.sub_diag, Z.shiftl_0_r by lia. reflexivity. }
  rewrite land_shifted_byte by lia. rewrite Z.shiftl_mul_pow2 by lia.
  pose proof (Z.mod_pos_bound (x / 2 ^ k) 256 ltac:(lia)).
  rewrite Z.pow_add_r by lia. change (2 ^ 8) with 256. nia.
Qed.

Lemma ToInt32_id x : - 2 ^ 31 <= x < 2 ^ 31 → ToInt32 x = x.
Proof. intros H. unfold ToInt32. rewrite Z.mod_small; lia. Qed.

Lemma div_mod_shift n c k :
  0 <= k <= 24 → ((n + 2 ^ 32 * c) / 2 ^ k) mod 256 = (n / 2 ^ k) mod 256.
Proof.
  intros Hk.
  replace (2 ^ 32 * c) with (c * 2 ^ (32 - k) * 2 ^ k).
  2:{ rewrite <- Z.mul_assoc, <- Z.pow_add_r by lia.
      replace (32 - k + k) with 32 by lia. lia. }
  rewrite Z.div_add by lia.
  replace (2 ^ (32 - k)) with (2 ^ (24 - k) * 256).
  2:{ change 256 with (2 ^ 8). rewrite <- Z.pow_add_r by lia. f_equal. lia. }
  rewrite Z.mul_assoc, Z.mod_add by lia. reflexivity.
Qed.

(** The octets [writeUInt16BE] and [writeUInt32BE] store. *)
Lemma js_octet_low n k :
  k = 0 ∨ k = 8 ∨ k = 16 →
  ToUint8 (js_shr (js_and n (Z.shiftl 255 k)) k) = (n / 2 ^ k) mod 256.
Proof.
  intros Hk. unfold ToUint8, js_shr, js_and.
  destruct (ToInt32_cong n) as (c & Hc & Hr).
  assert (ToInt32 (Z.shiftl 255 k) = Z.shiftl 255 k) as ->
    by (destruct Hk as [->|[->| ->]]; reflexivity).
  rewrite ToInt32_small.
  2:{ pose proof (land_shifted_range (ToInt32 n) k ltac:(lia)).
      assert (2 ^ (k + 8) <= 2 ^ 31) by (apply Z.pow_le_mono_r; lia). lia. }
  rewrite land_shifted_byte by lia. rewrite Z.mod_mod by lia.
  rewrite Hc. apply div_mod_shift. lia.
Qed.

Lemma js_octet0 n : ToUint8 (js_and n 0xff) = n mod 256.
Proof.
  unfold ToUint8, js_and. destruct (ToInt32_cong n) as (c & Hc & Hr).
  change (ToInt32 255) with (Z.ones 8). rewrite Z.land_ones by lia.
  rewrite Z.mod_mod by lia. rewrite Hc.
  pose proof (div_mod_shift n c 0 ltac:(lia)) as H.
  rewrite !Z.pow_0_r, !Z.div_1_r in H. exact H.
Qed.

Lemma js_octet1 n : ToUint8 (js_shr (js_and n 0xff00) 8) = (n / 2 ^ 8) mod 256.
Proof. apply (js_octet_low n 8). auto. Qed.

Lemma js_octet2 n : ToUint8 (js_shr (js_and n 0xff0000) 16) = (n / 2 ^ 16) mod 256.
Proof. apply (js_octet_low n 16). auto. Qed.

Lemma js_octet3 n : ToUint8 (js_shr (js_and n 0xff000000) 24) = (n / 2 ^ 24) mod 256.
Proof.
  unfold ToUint8, js_shr, js_and.
  destruct (ToInt32_cong n) as (c & Hc & Hr).
  change (ToInt32 4278190080) with (Z.lnot (Z.ones 24)).
  rewrite <- Z.ldiff_land, Z.ldiff_ones_r by lia.
  rewrite !Z.shiftr_div_pow2, Z.shiftl_mul_pow2 by lia.
  assert (- 2 ^ 7 <= ToInt32 n / 2 ^ 24 < 2 ^ 7).
  { split.
    - apply Z.div_le_lower_bound; lia.
    - apply Z.div_lt_upper_bound; lia. }
  rewrite ToInt32_id.
  2:{ change (2 ^ 7) with 128 in *. change (2 ^ 24) with 16777216 in *.
      change (2 ^ 31) with 2147483648. lia. }
  rewrite Z.div_mul by lia.
  rewrite Hc. apply div_mod_shift. lia.
Qed.

(** Four big-endian octets of [n] make [n] modulo 2^32. *)
Lemma be_octets32 n :
  (((n / 2 ^ 24) mod 256 * 256 + (n / 2 ^ 16) mod 256) * 256
   + (n / 2 ^ 8) mod 256) * 256 + n mod 256 = n mod 2 ^ 32.
Proof.
  change (2 ^ 8) with 256. change (2 ^ 16) with (256 * 256).
  change (2 ^ 24) with (256 * 256 * 256).
  change (2 ^ 32) with (256 * 256 * 256 * 256).
  rewrite <- !Z.div_div by lia.
  rewrite !Z.mod_eq by lia.
  rewrite !Z.div_div by lia. 
  pose proof (Z.div_mod n 256 ltac:(lia)).
  rewrite <- !Z.div_div by lia.
  set (q1 := n / 256) in *. set (q2 := q1 / 256). set (q3 := q2 / 256). set (q4 := q3 / 256).
  lia.
Qed.

(** ** The store *)

Lemma bufat_lookup (h : gmap nat (list Z)) l d : h !! l = Some d → bufat h l = d.
Proof. intros H. unfold bufat. rewrite H. reflexivity. Qed.

Lemma bufat_insert_eq (h : gmap nat (list Z)) l c : bufat (<[l := c]> h) l = c.
Proof. unfold bufat. rewrite lookup_insert_eq. reflexivity. Qed.

Lemma bufat_insert_ne (h : gmap nat (list Z)) l l' c :
  l ≠ l' → bufat (<[l := c]> h) l' = bufat h l'.
Proof. intros H. unfold bufat. rewrite lookup_insert_ne by done. reflexivity. Qed.

Lemma fresh_not_allocated (h : gmap nat (list Z)) : h !! fresh (dom h) = None.
Proof. apply not_elem_of_dom. apply is_fresh. Qed.

Lemma fresh_ne (h : gmap nat (list Z)) l : is_Some (h !! l) → fresh (dom h) ≠ l.
Proof.
  intros [d Hd] Heq. rewrite <- Heq in Hd.
  rewrite fresh_not_allocated in Hd. discriminate.
Qed.

Lemma update_buf_new l f c (h : gmap nat (list Z)) w :
  update_buf l f (with_heap (<[l := c]> h) w) = with_heap (<[l := f c]> h) w.
Proof.
  unfold update_buf, buf, with_heap. cbn.
  rewrite bufat_insert_eq, insert_insert_eq. reflexivity.
Qed.

Lemma buf_new l c (h : gmap nat (list Z)) w : buf (with_heap (<[l := c]> h) w) l = c.
Proof. unfold buf. cbn. apply bufat_insert_eq. Qed.

Lemma buf_old l l' c (h : gmap nat (list Z)) w :
  l ≠ l' → buf (with_heap (<[l := c]> h) w) l' = bufat h l'.
Proof. intros H. unfold buf. cbn. by apply bufat_insert_ne. Qed.

(** ** The masking loop *)

Lemma bufferUtil_mask_from_other n : ∀ i source mask output offset (h : gmap nat (list Z)) d out,
  source ≠ output → h !! source = Some d →
  bufferUtil_mask_from i n source mask output offset (<[output := out]> h)
  = <[output := mask_into i n d mask offset out]> h.
Proof.
  induction n as [|n IH]; intros i source mask output offset h d out Hne Hd; [done|].
  cbn [bufferUtil_mask_from mask_into].
  rewrite bufat_insert_eq, bufat_insert_ne by done.
  rewrite (bufat_lookup h source d Hd), insert_insert_eq.
  unfold buf_set. by apply IH.
Qed.

Lemma mask_into_length n : ∀ i d mask offset out,
  length (mask_into i n d mask offset out) = length out.
Proof.
  induction n as [|n IH]; intros; cbn [mask_into]; [done|].
  rewrite IH. apply length_insert.
Qed.

Lemma mask_into_lookup n : ∀ i d mask offset out (k : nat),
  mask_into i n d mask offset out !! k =
  if bool_decide (offset + i ≤ k < offset + i + n ∧ k < length out)%nat
  then Some (mask_octet mask d (k - offset)) else out !! k.
Proof.
  induction n as [|n IH]; intros i d mask offset out k; cbn [mask_into].
  - rewrite bool_decide_eq_false_2 by lia. done.
  - rewrite IH, length_insert.
    destruct (decide (k = offset + i)%nat) as [->|Hk].
    + rewrite (bool_decide_eq_false_2 (_ ∧ _)) by lia.
      case_bool_decide as Hb.
      * rewrite list_lookup_insert_eq by lia. do 2 f_equal. lia.
      * rewrite list_insert_ge by lia. done.
    + rewrite list_lookup_insert_ne by lia.
      repeat case_bool_decide; try done; lia.
Qed.

Lemma mask_into_app d mask hd :
  mask_into 0 (length d) d mask (length hd) (hd ++ replicate (length d) 0)
  = hd ++ masked_octets mask d.
Proof.
  apply list_eq. intros k. rewrite mask_into_lookup, length_app, length_replicate.
  case_bool_decide as Hk.
  - rewrite lookup_app_r by lia. unfold masked_octets.
    rewrite list_lookup_imap.
    destruct (lookup_lt_is_Some_2 d (k - length hd) ltac:(lia)) as [x Hx].
    rewrite Hx. cbn. unfold mask_octet, buf_get. rewrite Hx. done.
  - destruct (decide (k < length hd)%nat).
    + rewrite !lookup_app_l by lia. done.
    + rewrite !lookup_ge_None_2; [done| |].
      * rewrite length_app. unfold masked_octets. rewrite length_imap. lia.
      * rewrite length_app, length_replicate. lia.
Qed.

Lemma bufferUtil_mask_from_same n : ∀ i source mask (h : gmap nat (list Z)) d,
  h !! source = Some d →
  bufferUtil_mask_from i n source mask source 0 h
  = <[source := mask_in_place i n mask d]> h.
Proof.
  induction n as [|n IH]; intros i source mask h d Hd.
  - cbn. by rewrite insert_id.
  - cbn [bufferUtil_mask_from mask_in_place].
    rewrite (bufat_lookup h source d Hd). unfold buf_set.
    erewrite IH by apply lookup_insert_eq.
    by rewrite insert_insert_eq.
Qed.

Lemma mask_in_place_lookup n : ∀ i mask d (k : nat),
  mask_in_place i n mask d !! k =
  if bool_decide (i ≤ k < i + n ∧ k < length d)%nat
  then Some (mask_octet mask d k) else d !! k.
Proof.
  induction n as [|n IH]; intros i mask d k; cbn [mask_in_place].
  - rewrite bool_decide_eq_false_2 by lia. done.
  - rewrite IH, length_insert. cbn [Nat.add].
    destruct (decide (k = i)) as [->|Hk].
    + rewrite (bool_decide_eq_false_2 (_ ∧ _)) by lia.
      case_bool_decide as Hb.
      * rewrite list_lookup_insert_eq by lia. done.
      * rewrite list_insert_ge by lia. done.
    + rewrite list_lookup_insert_ne by lia.
      repeat case_bool_decide; try done; try lia.
      unfold mask_octet, buf_get. rewrite list_lookup_insert_ne by lia. done.
Qed.

Lemma mask_in_place_all mask d :
  mask_in_place 0 (length d) mask d = masked_octets mask d.
Proof.
  apply list_eq. intros k. rewrite mask_in_place_lookup.
  unfold masked_octets. rewrite list_lookup_imap.
  case_bool_decide as Hk.
  - destruct (lookup_lt_is_Some_2 d k ltac:(lia)) as [x Hx].
    rewrite Hx. cbn. unfold mask_octet, buf_get. rewrite Hx. done.
  - rewrite lookup_ge_None_2 by lia. done.
Qed.

Lemma mask_into_prefix d mask offset out :
  drop offset out = replicate (length d) 0 →
  length out = (offset + length d)%nat →
  mask_into 0 (length d) d mask offset out = take offset out ++ masked_octets mask d.
Proof.
  intros Hdrop Hlen.
  rewrite <- (take_drop offset out) at 1. rewrite Hdrop.
  assert (length (take offset out) = offset) as Hl by (rewrite length_take; lia).
  rewrite <- Hl at 1. apply mask_into_app.
Qed.

Lemma Buffer_copy_prefix d out offset :
  length out = (offset + length d)%nat →
  Buffer_copy d out offset = take offset out ++ d.
Proof.
  intros Hlen. unfold Buffer_copy.
  rewrite (take_ge d) by lia. rewrite (drop_ge out) by lia.
  by rewrite app_nil_r.
Qed.

Lemma buf_get_set_0 v x l : buf_get (buf_set 0 v (x :: l)) 0 = ToUint8 v.
Proof. reflexivity. Qed.

(** ** What [_frame_and_send] builds *)

Section Layout.

Variable random255 : nat → Z.
Variable socket_throws : list write → list Z → option js_error.

Lemma the_mask_with_heap h w :
  the_mask random255 (with_heap h w)
  = (next_mask random255 w, with_heap h (the_mask random255 w).2).
Proof. unfold next_mask, the_mask. cbn. destruct (_randomMask w); reflexivity. Qed.

Lemma bufferUtil_mask_with_heap source mask output offset len h w :
  bufferUtil_mask source mask output offset len (with_heap h w)
  = with_heap (bufferUtil_mask_from 0 len source mask output offset h) w.
Proof. reflexivity. Qed.

(** The frame is complete in the store before anything is written: the
    output buffer holds the header (and the payload when merged), the
    payload buffer is masked in place only on the unmerged masked path,
    and no other Buffer changes. *)
Lemma frame_and_send_built call opcode finalFragment maskData compress cb
    canModifyData data w d :
  heap w !! data = Some d →
  let o := fresh (dom (heap w)) in
  let merge := mergeBuffers (Z.of_nat (length d)) maskData canModifyData in
  ∃ h',
    _frame_and_send random255 socket_throws call opcode finalFragment maskData
      compress cb canModifyData data w
    = send_buffers socket_throws call merge o data cb
        (with_heap h' (mask_world random255 maskData w))
    ∧ bufat h' o ++ (if merge then [] else bufat h' data)
      = frame_octets opcode finalFragment maskData compress (next_mask random255 w) d
    ∧ ∀ l, is_Some (heap w !! l) →
        maskData && negb merge = false ∨ l ≠ data →
        h' !! l = heap w !! l.
Proof.
  intros Hd o merge. unfold _frame_and_send, new_Buffer, store.
  assert (Hb : buf w data = d) by (apply bufat_lookup, Hd). rewrite !Hb.
  assert (Hfresh := fresh_ne (heap w) data (mk_is_Some _ _ Hd)).
  assert (Hnone := fresh_not_allocated (heap w)).
  fold o in Hfresh, Hnone |- *.
  assert (Hfresh' : data ≠ o) by (intros Heq; by apply Hfresh).
  unfold frame_octets, header_octets, length_field, second_byte, first_byte.
  remember (Z.of_nat (length d)) as n eqn:Hn.
  fold merge. clearbody merge o.
  destruct (65536 <=? n) eqn:E1; [|destruct (125 <? n) eqn:E2].
  all: destruct maskData, merge, compress; cbv beta iota zeta.
  all: rewrite ?(proj2 (Z.eqb_neq n 126)), ?(proj2 (Z.eqb_neq n 127)) by lia.
  all: change (127 =? 126) with false; change (127 =? 127) with true;
       change (126 =? 126) with true; cbv beta iota zeta.
  all: repeat first [rewrite buf_new | rewrite update_buf_new
                    | rewrite the_mask_with_heap; cbv beta iota zeta
                    | rewrite buf_old by done ].
  all: rewrite ?bufferUtil_mask_with_heap.
  all: try (erewrite bufferUtil_mask_from_other by (done || exact Hd)).
  all: try (erewrite bufferUtil_mask_from_same
         by (rewrite lookup_insert_ne by done; exact Hd)).
  all: unfold mask_world, send_buffers; eexists; split; [reflexivity|].
  all: rewrite ?(bufat_insert_ne _ data o) by done.
  all: rewrite ?bufat_insert_eq, ?(bufat_insert_ne _ o data) by done.
  all: rewrite ?(bufat_lookup _ _ _ Hd).
  all: split.
  all: try (intros l Hl Hcase; rewrite ?(lookup_insert_ne _ data l)
         by (destruct Hcase; [discriminate|done]);
         apply lookup_insert_ne; intros <-; rewrite Hnone in Hl; by destruct Hl).
  all: rewrite ?(Nat.add_comm (length d)).
  all: cbn [Nat.add replicate]; rewrite ?buf_get_set_0.
  all: rewrite ?app_nil_r, ?mask_in_place_all.
  all: try (rewrite mask_into_prefix;
         [| reflexivity
          | unfold writeUInt32BE, writeUInt16BE, buf_set; rewrite ?length_insert;
            cbn [length]; rewrite length_replicate; lia]).
  all: try (rewrite Buffer_copy_prefix;
         [| unfold writeUInt32BE, writeUInt16BE, buf_set; rewrite ?length_insert;
            cbn [length]; rewrite length_replicate; lia]).
  all: reflexivity.
Qed.

End Layout.

(** ** Reading the frame back *)

Lemma Z_forall_below (P : Z → bool) (N : nat) :
  forallb P (Z.of_nat <$> seq 0 N) = true → ∀ n, 0 <= n < Z.of_nat N → P n = true.
Proof.
  intros H n Hn. rewrite forallb_forall in H. apply H.
  apply list_elem_of_In, list_elem_of_fmap. exists (Z.to_nat n). split; [lia|].
  apply elem_of_seq. lia.
Qed.

Lemma first_byte_fields opcode finalFragment compress :
  0 <= opcode < 16 →
  Z.testbit (first_byte opcode finalFragment compress) 7 = finalFragment
  ∧ Z.testbit (first_byte opcode finalFragment compress) 6 = compress
  ∧ Z.land (first_byte opcode finalFragment compress) 15 = opcode.
Proof.
  intros Hop.
  pose proof (Z_forall_below
    (fun op => forallb (fun fc : bool * bool =>
       let b := first_byte op fc.1 fc.2 in
       bool_decide (Z.testbit b 7 = fc.1) && bool_decide (Z.testbit b 6 = fc.2)
       && (Z.land b 15 =? op))
       [(true, true); (true, false); (false, true); (false, false)])
    16 eq_refl opcode Hop) as H.
  rewrite forallb_forall in H.
  specialize (H (finalFragment, compress)).
  assert (In (finalFragment, compress)
            [(true, true); (true, false); (false, true); (false, false)]) as Hin
    by (destruct finalFragment, compress; cbn; tauto).
  apply H in Hin. cbn [fst snd] in Hin.
  apply andb_prop in Hin as [Hin H3]. apply andb_prop in Hin as [H1 H2].
  apply bool_decide_eq_true in H1, H2. apply Z.eqb_eq in H3. done.
Qed.

Lemma second_byte_range n : 0 <= n → 0 <= second_byte n < 128.
Proof.
  intros Hn. unfold second_byte.
  destruct (Z.leb_spec 65536 n); [lia|]. destruct (Z.ltb_spec 125 n); lia.
Qed.

Lemma second_byte_fields (maskData : bool) s :
  0 <= s < 128 →
  Z.land (ToUint8 (if maskData then js_or s 0x80 else s)) 127 = s
  ∧ Z.testbit (ToUint8 (if maskData then js_or s 0x80 else s)) 7 = maskData.
Proof.
  intros Hs.
  pose proof (Z_forall_below
    (fun s => forallb (fun m : bool =>
       let b := ToUint8 (if m then js_or s 0x80 else s) in
       (Z.land b 127 =? s) && bool_decide (Z.testbit b 7 = m)) [true; false])
    128 eq_refl s Hs) as H.
  rewrite forallb_forall in H. specialize (H maskData).
  assert (In maskData [true; false]) as Hin by (destruct maskData; cbn; tauto).
  apply H in Hin. apply andb_prop in Hin as [H1 H2].
  apply Z.eqb_eq in H1. apply bool_decide_eq_true in H2. done.
Qed.

Lemma length_field_octets n :
  length_field n =
  if 65536 <=? n then
    [0; 0; 0; 0; (n / 2 ^ 24) mod 256; (n / 2 ^ 16) mod 256; (n / 2 ^ 8) mod 256; n mod 256]
  else if 125 <? n then [(n / 2 ^ 8) mod 256; n mod 256]
  else [].
Proof.
  unfold length_field. destruct (65536 <=? n); [|destruct (125 <? n); [|done]].
  - unfold writeUInt32BE, buf_set. cbn [replicate Nat.add insert list_insert].
    rewrite !js_octet0, !js_octet1, !js_octet2, !js_octet3. reflexivity.
  - unfold writeUInt16BE, buf_set. cbn [replicate Nat.add insert list_insert].
    rewrite js_octet0, js_octet1. reflexivity.
Qed.

Lemma be_octets16 n :
  0 <= n < 65536 → (0 * 256 + (n / 2 ^ 8) mod 256) * 256 + n mod 256 = n.
Proof.
  intros Hn. change (2 ^ 8) with 256.
  pose proof (Z.div_mod n 256 ltac:(lia)).
  assert (0 <= n / 256 < 256)
    by (split; [apply Z.div_pos; lia | apply Z.div_lt_upper_bound; lia]).
  rewrite (Z.mod_small (n / 256)) by lia. lia.
Qed.

Lemma decode_frame_octets opcode finalFragment maskData compress mask d :
  0 <= opcode < 16 →
  decode_frame (frame_octets opcode finalFragment maskData compress mask d)
  = Some {| f_fin := finalFragment; f_rsv1 := compress; f_opcode := opcode;
            f_masked := maskData;
            f_length := encoded_length (Z.of_nat (length d));
            f_mask_key := if maskData then key_octets mask else [];
            f_payload := if maskData then masked_octets mask d else d |}.
Proof.
  intros Hop. unfold frame_octets, header_octets.
  destruct (first_byte_fields opcode finalFragment compress Hop) as (F1 & F2 & F3).
  remember (Z.of_nat (length d)) as n eqn:Hn.
  assert (0 <= n) as Hn0 by lia.
  destruct (second_byte_fields maskData _ (second_byte_range n Hn0)) as (S1 & S2).
  rewrite length_field_octets. cbn [app]. unfold decode_frame.
  rewrite F1, F2, F3, S1, S2. unfold second_byte, encoded_length.
  destruct (Z.leb_spec 65536 n); [|destruct (Z.ltb_spec 125 n)].
  - change (127 =? 126) with false. change (127 =? 127) with true.
    cbv beta iota zeta. destruct maskData; cbn [app length Nat.add Nat.ltb Nat.leb take drop Nat.eqb key_octets fmap list_fmap].
    all: cbn [be_value fold_left]; rewrite <- be_octets32; reflexivity.
  - change (126 =? 126) with true. cbv beta iota zeta.
    destruct maskData; cbn [app length Nat.add Nat.ltb Nat.leb take drop Nat.eqb key_octets fmap list_fmap].
    all: cbn [be_value fold_left]; rewrite be_octets16 by lia; reflexivity.
  - rewrite !(proj2 (Z.eqb_neq n _)) by lia. cbv beta iota zeta.
    destruct maskData; reflexivity.
Qed.

(** ** What a frame leaves untouched *)

Section Frames.

Variable random255 : nat → Z.
Variable socket_throws : list write → list Z → option js_error.

(** Whatever the store holds, [_frame_and_send] works on Buffers and on the
    cached mask only, and ends in [send_buffers]. *)
Lemma frame_and_send_shape call opcode finalFragment maskData compress cb
    canModifyData data w :
  ∃ w1 merge o,
    _frame_and_send random255 socket_throws call opcode finalFragment maskData
      compress cb canModifyData data w
    = send_buffers socket_throws call merge o data cb w1
    ∧ wire w1 = wire w ∧ calls w1 = calls w ∧ jobs w1 = jobs w
    ∧ firstFragment w1 = firstFragment w ∧ reports w1 = reports w.
Proof.
  unfold _frame_and_send, new_Buffer, store.
  remember (Z.of_nat (length (buf w data))) as n eqn:Hn.
  remember (mergeBuffers n maskData canModifyData) as merge eqn:Hm.
  destruct (65536 <=? n) eqn:E1; [|destruct (125 <? n) eqn:E2].
  all: destruct maskData, merge, compress; cbv beta iota zeta.
  all: rewrite ?(proj2 (Z.eqb_neq n 126)), ?(proj2 (Z.eqb_neq n 127)) by lia.
  all: change (127 =? 126) with false; change (127 =? 127) with true;
       change (126 =? 126) with true; cbv beta iota zeta.
  all: unfold the_mask, getRandomMask.
  all: try match goal with
       | |- context [_randomMask ?X] =>
           change (_randomMask X) with (_randomMask w); destruct (_randomMask w)
       end.
  all: cbv beta iota zeta; unfold send_buffers.
  all: first [ eexists _, true, _; split; [reflexivity|done]
             | eexists _, false, _; split; [reflexivity|done] ].
Qed.

Lemma send_buffers_fields call merge o data cb w :
  let w' := send_buffers socket_throws call merge o data cb w in
  (∃ ws, wire w' = wire w ++ ws ∧ Forall (fun x => wr_call x = call) ws)
  ∧ calls w' = calls w ∧ jobs w' = jobs w ∧ firstFragment w' = firstFragment w
  ∧ heap w' = heap w.
Proof.
  unfold send_buffers, try_write, try_write2, socket_write, report_error.
  repeat case_match; simplify_eq; cbn.
  all: repeat split; try reflexivity.
  all: first [ by (exists []; rewrite app_nil_r)
             | eexists; split; [reflexivity | repeat constructor]
             | eexists; split; [rewrite <- app_assoc; reflexivity | repeat constructor] ].
Qed.

Lemma mask_world_fields maskData w :
  let w' := mask_world random255 maskData w in
  wire w' = wire w ∧ calls w' = calls w ∧ jobs w' = jobs w
  ∧ firstFragment w' = firstFragment w ∧ heap w' = heap w ∧ reports w' = reports w.
Proof.
  unfold mask_world, the_mask. destruct maskData; [|done].
  destruct (_randomMask w); done.
Qed.

Lemma frame_and_send_fields call opcode finalFragment maskData compress cb
    canModifyData data w :
  let w' := _frame_and_send random255 socket_throws call opcode finalFragment
              maskData compress cb canModifyData data w in
  (∃ ws, wire w' = wire w ++ ws ∧ Forall (fun x => wr_call x = call) ws)
  ∧ calls w' = calls w ∧ jobs w' = jobs w ∧ firstFragment w' = firstFragment w.
Proof.
  destruct (frame_and_send_shape call opcode finalFragment maskData compress cb
              canModifyData data w) as (w1 & merge & o & -> & Mw & Mc & Mj & Mf & _).
  destruct (send_buffers_fields call merge o data cb w1) as (Hw & Hc & Hj & Hf & _).
  cbn in Hw, Hc, Hj, Hf. rewrite Mw in Hw. rewrite Mc in Hc. rewrite Mj in Hj.
  rewrite Mf in Hf. done.
Qed.

End Frames.


(** ** The fragmentation flag is not an input of a frame *)

Section Independence.

Variable random255 : nat → Z.
Variable socket_throws : list write → list Z → option js_error.

Lemma with_heap_firstFragment b h w :
  with_heap h (with_firstFragment b w) = with_firstFragment b (with_heap h w).
Proof. reflexivity. Qed.

Lemma heap_firstFragment b w : heap (with_firstFragment b w) = heap w.
Proof. reflexivity. Qed.

Lemma buf_firstFragment b w l : buf (with_firstFragment b w) l = buf w l.
Proof. reflexivity. Qed.

Lemma update_buf_firstFragment b l f w :
  update_buf l f (with_firstFragment b w) = with_firstFragment b (update_buf l f w).
Proof. reflexivity. Qed.

Lemma bufferUtil_mask_firstFragment b source mask output offset len w :
  bufferUtil_mask source mask output offset len (with_firstFragment b w)
  = with_firstFragment b (bufferUtil_mask source mask output offset len w).
Proof. reflexivity. Qed.

Lemma the_mask_firstFragment b w :
  the_mask random255 (with_firstFragment b w)
  = ((the_mask random255 w).1, with_firstFragment b (the_mask random255 w).2).
Proof. unfold the_mask. cbn. destruct (_randomMask w); reflexivity. Qed.

Lemma try_write_firstFragment b call o cb w :
  try_write socket_throws call o cb (with_firstFragment b w)
  = with_firstFragment b (try_write socket_throws call o cb w).
Proof.
  unfold try_write, socket_write. cbn [wire with_firstFragment].
  rewrite buf_firstFragment.
  destruct (socket_throws (wire w) (buf w o)); [destruct cb|]; reflexivity.
Qed.

Lemma try_write2_firstFragment b call o data cb w :
  try_write2 socket_throws call o data cb (with_firstFragment b w)
  = with_firstFragment b (try_write2 socket_throws call o data cb w).
Proof.
  unfold try_write2, socket_write. cbn [wire with_firstFragment].
  rewrite !buf_firstFragment.
  destruct (socket_throws (wire w) (buf w o)); [destruct cb; reflexivity|].
  cbn [wire with_wire with_firstFragment].
  change (buf (with_wire ?ws (with_firstFragment b w)) data) with (buf w data).
  change (buf (with_wire ?ws w) data) with (buf w data).
  destruct (socket_throws _ (buf w data)); [destruct cb|]; reflexivity.
Qed.

Lemma frame_and_send_firstFragment b call opcode finalFragment maskData compress cb
    canModifyData data w :
  _frame_and_send random255 socket_throws call opcode finalFragment maskData
    compress cb canModifyData data (with_firstFragment b w)
  = with_firstFragment b
      (_frame_and_send random255 socket_throws call opcode finalFragment maskData
         compress cb canModifyData data w).
Proof.
  unfold _frame_and_send, new_Buffer, store.
  rewrite !buf_firstFragment, !heap_firstFragment.
  remember (Z.of_nat (length (buf w data))) as n eqn:Hn.
  remember (mergeBuffers n maskData canModifyData) as merge eqn:Hm.
  destruct (65536 <=? n) eqn:E1; [|destruct (125 <? n) eqn:E2].
  all: destruct maskData, merge, compress; cbv beta iota zeta.
  all: rewrite ?(proj2 (Z.eqb_neq n 126)), ?(proj2 (Z.eqb_neq n 127)) by lia.
  all: change (127 =? 126) with false; change (127 =? 127) with true;
       change (126 =? 126) with true; cbv beta iota zeta.
  all: repeat first [ rewrite with_heap_firstFragment
                    | rewrite update_buf_firstFragment
                    | rewrite buf_firstFragment
                    | rewrite the_mask_firstFragment; cbv beta iota zeta ].
  all: try match goal with
       | |- context [the_mask random255 ?W] =>
           destruct (the_mask random255 W) as [m W']; cbn [fst snd]
       end.
  all: repeat first [ rewrite update_buf_firstFragment
                    | rewrite buf_firstFragment
                    | rewrite bufferUtil_mask_firstFragment
                    | rewrite try_write_firstFragment
                    | rewrite try_write2_firstFragment ].
  all: reflexivity.
Qed.

End Independence.

(** ** [frameAndSend] *)

Lemma emitted_app w w' ws :
  wire w' = wire w ++ ws → emitted w w' = concat (wr_bytes <$> ws).
Proof. intros H. unfold emitted. by rewrite H, drop_app_length. Qed.

Lemma emitted_same_wire w0 w w' : wire w0 = wire w → emitted w0 w' = emitted w w'.
Proof. intros H. unfold emitted. by rewrite H. Qed.

Section FrameAndSend.

Variable random255 : nat → Z.
Variable socket_throws : list write → list Z → option js_error.

Lemma next_mask_with_heap h w : next_mask random255 (with_heap h w) = next_mask random255 w.
Proof. unfold next_mask. by rewrite the_mask_with_heap. Qed.

Lemma try_write_fields call b cb w :
  let w' := try_write socket_throws call b cb w in
  (∃ ws, wire w' = wire w ++ ws ∧ Forall (fun x => wr_call x = call) ws)
  ∧ calls w' = calls w ∧ jobs w' = jobs w ∧ firstFragment w' = firstFragment w
  ∧ heap w' = heap w.
Proof. apply (send_buffers_fields socket_throws call true b b cb w). Qed.

(** A frame belongs to the operation that asked for it, and only a
    compressed send leaves a deflate stream behind. *)
Lemma frameAndSend_fields call opcode data finalFragment maskData compress cb w :
  let w' := frameAndSend random255 socket_throws call opcode data finalFragment
              maskData compress cb w in
  (∃ ws, wire w' = wire w ++ ws ∧ Forall (fun x => wr_call x = call) ws)
  ∧ calls w' = calls w ∧ firstFragment w' = firstFragment w
  ∧ ∀ j job, jobs w' !! j = Some job → jobs w !! j = Some job ∨ j_call job = call.
Proof.
  unfold frameAndSend. destruct (falsy data).
  - unfold new_Buffer. cbn [world_of].
    match goal with |- context [try_write _ _ ?b _ ?W] =>
      destruct (try_write_fields call b cb W) as (Hw & Hc & Hj & Hf & _) end.
    cbn in *. rewrite Hj. auto.
  - assert (∀ canModifyData l w1,
      wire w1 = wire w → calls w1 = calls w → jobs w1 = jobs w →
      firstFragment w1 = firstFragment w →
      let w' := if compress then
                  deflate_start call opcode finalFragment maskData cb canModifyData l w1
                else _frame_and_send random255 socket_throws call opcode finalFragment
                       maskData compress cb canModifyData l w1 in
      (∃ ws, wire w' = wire w ++ ws ∧ Forall (fun x => wr_call x = call) ws)
      ∧ calls w' = calls w ∧ firstFragment w' = firstFragment w
      ∧ ∀ j job, jobs w' !! j = Some job → jobs w !! j = Some job ∨ j_call job = call)
      as Hgen.
    { intros canModifyData l w1 Hw Hc Hj Hf. destruct compress.
      - unfold deflate_start. cbn. rewrite Hw, Hc, Hf, Hj. repeat split; try done.
        + exists []. by rewrite app_nil_r.
        + intros j job. rewrite lookup_insert. case_decide; [|auto].
          intros [= <-]. by right.
      - destruct (frame_and_send_fields random255 socket_throws call opcode
                    finalFragment maskData false cb canModifyData l w1)
          as (Hw' & Hc' & Hj' & Hf').
        cbn in *. rewrite Hw in Hw'. rewrite Hc', Hf', Hj', Hc, Hf, Hj. auto. }
    destruct data as [|s|l|v]; unfold getArrayBuffer, new_Buffer; cbv zeta;
      try destruct (byteLength_or_length v); cbn [world_of]; try by apply Hgen.
    split; [exists []; by rewrite app_nil_r|auto].
Qed.

Lemma frameAndSend_firstFragment b call opcode data finalFragment maskData compress cb w :
  frameAndSend random255 socket_throws call opcode data finalFragment maskData
    compress cb (with_firstFragment b w)
  = outcome_map (with_firstFragment b)
      (frameAndSend random255 socket_throws call opcode data finalFragment maskData
         compress cb w).
Proof.
  unfold frameAndSend. destruct (falsy data).
  - unfold new_Buffer. rewrite heap_firstFragment, with_heap_firstFragment.
    cbn [outcome_map]. f_equal. apply try_write_firstFragment.
  - destruct data as [|s|l|v]; unfold getArrayBuffer, new_Buffer; cbv zeta;
      try destruct (byteLength_or_length v);
      rewrite ?heap_firstFragment, ?with_heap_firstFragment; cbn [outcome_map];
      try reflexivity.
    all: f_equal; destruct compress;
      [reflexivity | apply (frame_and_send_firstFragment random255 socket_throws b)].
Qed.



Lemma frameAndSend_Buffer call opcode l finalFragment maskData compress cb w :
  frameAndSend random255 socket_throws call opcode (DBuffer l) finalFragment maskData
    compress cb w
  = Returned
      (if compress then
         deflate_start call opcode finalFragment maskData cb false l w
       else
         _frame_and_send random255 socket_throws call opcode finalFragment maskData
           compress cb false l w).
Proof. reflexivity. Qed.

(** A deflate stream that exists stays as it is: a compressed send adds
    a stream of its own, under a number not in use. *)
Lemma frameAndSend_job_kept call opcode data finalFragment maskData compress cb w j job :
  jobs w !! j = Some job →
  jobs (frameAndSend random255 socket_throws call opcode data finalFragment maskData
          compress cb w) !! j = Some job.
Proof.
  intros Hj. unfold frameAndSend. destruct (falsy data).
  - unfold new_Buffer. cbn [world_of].
    match goal with |- context [try_write _ _ ?b _ ?W] =>
      destruct (try_write_fields call b cb W) as (_ & _ & -> & _) end.
    exact Hj.
  - assert (∀ canModifyData l w1, jobs w1 = jobs w →
      jobs (if compress then
              deflate_start call opcode finalFragment maskData cb canModifyData l w1
            else _frame_and_send random255 socket_throws call opcode finalFragment
                   maskData compress cb canModifyData l w1) !! j = Some job) as Hgen.
    { intros canModifyData l w1 Hw1. destruct compress.
      - unfold deflate_start. cbn [jobs with_jobs]. rewrite Hw1.
        rewrite lookup_insert_ne; [done|]. intros Heq.
        pose proof (is_fresh (dom (jobs w))) as Hfresh. rewrite Heq in Hfresh.
        apply Hfresh. apply elem_of_dom. by rewrite Hj.
      - destruct (frame_and_send_fields random255 socket_throws call opcode
                    finalFragment maskData false cb canModifyData l w1)
          as (_ & _ & -> & _).
        by rewrite Hw1. }
    destruct data as [|s|l|v]; unfold getArrayBuffer, new_Buffer; cbv zeta;
      try destruct (byteLength_or_length v); cbn [world_of]; try by apply Hgen.
    exact Hj.
Qed.

End FrameAndSend.

(** ** Buffers that exist before a frame is built *)

Section Heap.

Variable random255 : nat → Z.
Variable socket_throws : list write → list Z → option js_error.

Lemma frame_and_send_heap call opcode finalFragment maskData compress cb
    canModifyData data w d l x :
  heap w !! data = Some d →
  heap w !! l = Some x →
  maskData && negb (mergeBuffers (Z.of_nat (length d)) maskData canModifyData) = false
  ∨ l ≠ data →
  heap (_frame_and_send random255 socket_throws call opcode finalFragment maskData
          compress cb canModifyData data w) !! l = Some x.
Proof.
  intros Hd Hl Hcase.
  destruct (frame_and_send_built random255 socket_throws call opcode finalFragment
              maskData compress cb canModifyData data w d Hd) as (h' & -> & _ & Hkeep).
  match goal with |- heap (send_buffers _ _ ?m ?o _ _ ?W) !! _ = _ =>
    destruct (send_buffers_fields socket_throws call m o data cb W)
      as (_ & _ & _ & _ & ->) end.
  cbn [heap with_heap]. rewrite Hkeep; [done|by rewrite Hl|done].
Qed.

Lemma new_Buffer_heap c w l x :
  heap w !! l = Some x → heap (new_Buffer c w).2 !! l = Some x.
Proof.
  intros Hl. unfold new_Buffer. cbn. rewrite lookup_insert_ne; [done|].
  apply fresh_ne. by rewrite Hl.
Qed.

(** No Buffer that exists when [frameAndSend] is called is changed by it. *)
Lemma frameAndSend_heap call opcode data finalFragment maskData compress cb w l x :
  valid_data w data →
  heap w !! l = Some x →
  heap (frameAndSend random255 socket_throws call opcode data finalFragment maskData
          compress cb w) !! l = Some x.
Proof.
  intros Hv Hl. unfold frameAndSend. destruct (falsy data).
  - match goal with |- context [new_Buffer ?c w] =>
      pose proof (new_Buffer_heap c w l x Hl) as Hn;
      destruct (new_Buffer c w) as [b w1] end.
    cbn [world_of].
    destruct (try_write_fields socket_throws call b cb w1) as (_ & _ & _ & _ & ->).
    exact Hn.
  - assert (∀ c, let '(l0, w1) := new_Buffer c w in
        heap (if compress then
                deflate_start call opcode finalFragment maskData cb true l0 w1
              else _frame_and_send random255 socket_throws call opcode finalFragment
                     maskData compress cb true l0 w1) !! l = Some x) as Hnew.
    { intros c. pose proof (new_Buffer_heap c w l x Hl) as Hn.
      unfold new_Buffer in *. cbn [snd] in Hn.
      destruct compress; [exact Hn|].
      eapply frame_and_send_heap; [apply lookup_insert_eq|exact Hn|].
      right. intros ->. rewrite fresh_not_allocated in Hl. discriminate. }
    destruct data as [|s|l0|v]; unfold getArrayBuffer; cbv zeta.
    + specialize (Hnew []). by destruct (new_Buffer [] w).
    + specialize (Hnew (utf8 s)). by destruct (new_Buffer (utf8 s) w).
    + cbn [world_of]. destruct compress; [exact Hl|]. destruct Hv as [d Hd].
      eapply frame_and_send_heap; [exact Hd|exact Hl|].
      left. unfold mergeBuffers. destruct maskData; [|done].
      cbn. by rewrite orb_true_r.
    + destruct (byteLength_or_length v) as [n|]; [|exact Hl].
      match goal with |- context [new_Buffer ?c w] =>
        specialize (Hnew c); by destruct (new_Buffer c w) end.
Qed.

End Heap.

(** ** On a socket that accepts every write *)

Section Accepting.

Variable random255 : nat → Z.
Variable socket_throws : list write → list Z → option js_error.
Hypothesis socket_accepts : ∀ ws b, socket_throws ws b = None.

Lemma try_write_ok call b cb w :
  try_write socket_throws call b cb w
  = with_wire (wire w ++ [{| wr_call := call; wr_bytes := buf w b; wr_cb := cb |}]) w.
Proof. unfold try_write, socket_write. rewrite socket_accepts. reflexivity. Qed.

Lemma try_write2_ok call b data cb w :
  try_write2 socket_throws call b data cb w
  = with_wire (wire w ++ [{| wr_call := call; wr_bytes := buf w b; wr_cb := None |};
                          {| wr_call := call; wr_bytes := buf w data; wr_cb := cb |}]) w.
Proof.
  unfold try_write2, socket_write. rewrite !socket_accepts. cbn.
  rewrite <- app_assoc. reflexivity.
Qed.

Lemma send_buffers_emitted call merge o data cb w :
  let w' := send_buffers socket_throws call merge o data cb w in
  emitted w w' = buf w o ++ (if merge then [] else buf w data)
  ∧ reports w' = reports w.
Proof.
  unfold send_buffers. destruct merge.
  - rewrite try_write_ok. split; [|done].
    erewrite emitted_app by reflexivity. cbn. by rewrite app_nil_r.
  - rewrite try_write2_ok. split; [|done].
    erewrite emitted_app by reflexivity. cbn. by rewrite app_nil_r.
Qed.

(** The octets of one frame, as [_frame_and_send] hands them to the socket. *)
Lemma frame_and_send_emitted call opcode finalFragment maskData compress cb
    canModifyData data w d :
  heap w !! data = Some d →
  let w' := _frame_and_send random255 socket_throws call opcode finalFragment
              maskData compress cb canModifyData data w in
  emitted w w'
  = frame_octets opcode finalFragment maskData compress (next_mask random255 w) d
  ∧ reports w' = reports w.
Proof.
  intros Hd.
  destruct (frame_and_send_built random255 socket_throws call opcode finalFragment
              maskData compress cb canModifyData data w d Hd) as (h' & Heq & Hb & _).
  cbv zeta. rewrite Heq.
  destruct (mask_world_fields random255 maskData w) as (Mw & _ & _ & _ & _ & Mr).
  match goal with |- context [send_buffers _ _ ?m ?o _ _ ?W] =>
    destruct (send_buffers_emitted call m o data cb W) as (He & Hr);
    rewrite (emitted_same_wire w W) by (symmetry; exact Mw)
  end.
  split.
  - rewrite He. exact Hb.
  - rewrite Hr. exact Mr.
Qed.

Lemma frameAndSend_emitted call opcode data finalFragment maskData compress cb w :
  valid_data w data →
  compress = false ∨ falsy data = true →
  let w' := frameAndSend random255 socket_throws call opcode data finalFragment
              maskData compress cb w in
  emitted w w'
  = (if falsy data then empty_frame_octets opcode finalFragment maskData
     else frame_octets opcode finalFragment maskData false (next_mask random255 w)
            (payload_octets w data))
  ∧ reports w' = reports w.
Proof.
  intros Hv Hc. unfold frameAndSend. destruct (falsy data) eqn:Hf.
  - unfold new_Buffer. cbn [world_of]. rewrite try_write_ok. split; [|done].
    erewrite emitted_app by reflexivity. cbn [fmap list_fmap wr_bytes concat].
    rewrite app_nil_r. unfold buf. cbn [heap with_heap]. by rewrite bufat_insert_eq.
  - destruct Hc as [-> | ?]; [|done].
    assert (∀ c canModifyData,
      let '(l0, w1) := new_Buffer c w in
      let w' := _frame_and_send random255 socket_throws call opcode finalFragment
                  maskData false cb canModifyData l0 w1 in
      emitted w w' = frame_octets opcode finalFragment maskData false
                       (next_mask random255 w) c
      ∧ reports w' = reports w) as Hnew.
    { intros c canModifyData. unfold new_Buffer.
      match goal with |- context [_frame_and_send _ _ _ _ _ _ _ _ _ ?l0 ?w1] =>
        destruct (frame_and_send_emitted call opcode finalFragment maskData false cb
                    canModifyData l0 w1 c (lookup_insert_eq _ _ _)) as (He & Hr) end.
      rewrite next_mask_with_heap in He. split; [|exact Hr].
      rewrite <- He. by apply emitted_same_wire. }
    destruct data as [|s|l0|v]; unfold getArrayBuffer, payload_octets; cbv zeta.
    + specialize (Hnew [] true). by destruct (new_Buffer [] w).
    + specialize (Hnew (utf8 s) true). by destruct (new_Buffer (utf8 s) w).
    + cbn [world_of]. destruct Hv as [d Hd]. unfold buf. rewrite (bufat_lookup _ _ _ Hd).
      by apply frame_and_send_emitted.
    + destruct Hv as [n Hn]. rewrite Hn. cbn [default].
      match goal with |- context [new_Buffer ?c w] =>
        specialize (Hnew c true); by destruct (new_Buffer c w) end.
Qed.

End Accepting.

(** ** Masking is undone by unmasking *)

Lemma ToUint8_land x : ToUint8 x = Z.land x 255.
Proof. unfold ToUint8. change 255 with (Z.ones 8). by rewrite Z.land_ones. Qed.

Lemma ToUint8_ToInt32 x : ToUint8 (ToInt32 x) = ToUint8 x.
Proof.
  destruct (ToInt32_cong x) as (c & Hc & _). rewrite Hc. unfold ToUint8.
  pose proof (div_mod_shift x c 0 ltac:(lia)) as H.
  by rewrite !Z.pow_0_r, !Z.div_1_r in H.
Qed.

Lemma land_lxor_distr a b c : Z.land (Z.lxor a b) c = Z.lxor (Z.land a c) (Z.land b c).
Proof.
  apply Z.bits_inj'. intros i Hi.
  rewrite Z.lxor_spec, !Z.land_spec, Z.lxor_spec.
  by destruct (Z.testbit a i), (Z.testbit b i), (Z.testbit c i).
Qed.

Lemma mask_octet_involutive b k :
  0 <= b < 256 → Z.lxor (ToUint8 (js_xor b k)) (ToUint8 k) = b.
Proof.
  intros Hb. unfold js_xor. rewrite (ToInt32_small b) by lia.
  rewrite <- (ToUint8_ToInt32 k). rewrite !ToUint8_land, land_lxor_distr.
  rewrite Z.lxor_assoc, Z.lxor_nilpotent, Z.lxor_0_r.
  rewrite <- ToUint8_land. unfold ToUint8. apply Z.mod_small. lia.
Qed.

Lemma key_octets_get mask (j : nat) :
  (j < 4)%nat → buf_get (key_octets mask) j = ToUint8 (buf_get mask j).
Proof.
  intros Hj. destruct j as [|[|[|[|j]]]]; try reflexivity. lia.
Qed.

Lemma unmask_masked_octets mask d :
  octets d → unmask (key_octets mask) (masked_octets mask d) = d.
Proof.
  intros Hd. unfold unmask, masked_octets. apply list_eq. intros i.
  rewrite !list_lookup_imap. destruct (d !! i) as [x|] eqn:Hx; [|done].
  cbn -[buf_get key_octets ToUint8 js_xor Nat.modulo]. f_equal. rewrite key_octets_get by (apply Nat.mod_upper_bound; lia).
  apply mask_octet_involutive.
  eapply (proj1 (Forall_lookup _ _) Hd); eauto.
Qed.

Lemma utf8_octets s : octets (utf8 s).
Proof.
  unfold octets, utf8. apply Forall_forall. intros x Hx.
  apply list_elem_of_fmap in Hx as (c & -> & _).
  pose proof (N_ascii_bounded c). lia.
Qed.

(** ** The fast path for a missing payload *)

Lemma decode_empty_frame opcode finalFragment maskData :
  0 <= opcode < 16 →
  decode_frame (empty_frame_octets opcode finalFragment maskData)
  = Some {| f_fin := finalFragment; f_rsv1 := false; f_opcode := opcode;
            f_masked := maskData; f_length := 0;
            f_mask_key := if maskData then [0; 0; 0; 0] else [];
            f_payload := [] |}.
Proof.
  intros Hop.
  assert (opcode = 0 ∨ opcode = 1 ∨ opcode = 2 ∨ opcode = 3 ∨ opcode = 4 ∨ opcode = 5
          ∨ opcode = 6 ∨ opcode = 7 ∨ opcode = 8 ∨ opcode = 9 ∨ opcode = 10
          ∨ opcode = 11 ∨ opcode = 12 ∨ opcode = 13 ∨ opcode = 14 ∨ opcode = 15)
    as H by lia.
  destruct finalFragment, maskData;
    repeat (destruct H as [->|H]; [reflexivity|]); subst; reflexivity.
Qed.

(** ** The public operations *)

Section Operations.

Variable isValidErrorCode : Z → bool.
Variable random255 : nat → Z.
Variable socket_throws : list write → list Z → option js_error.

Lemma send_frameAndSend data options cb w :
  send random255 socket_throws data options cb w
  = frameAndSend random255 socket_throws (calls w)
      (if firstFragment w then data_opcode options else 0) data (fin_of options)
      (opt o_mask options) (opt o_compress options) cb
      (with_firstFragment (fin_of options) (with_calls (S (calls w)) w)).
Proof.
  unfold send, begin_call. fold (fin_of options). fold (data_opcode options).
  cbn [firstFragment with_calls].
  destruct (firstFragment w) eqn:Hf, (fin_of options); cbn [negb]; try reflexivity.
  f_equal. unfold with_firstFragment, with_calls. cbn. by rewrite Hf.
Qed.

Lemma close_invalid code data mask w :
  code = CodeNotNumber ∨ (∃ n, code = CodeNumber n ∧ isValidErrorCode n = false) →
  close isValidErrorCode random255 socket_throws code data mask w
  = Thrown InvalidCloseCode w.
Proof.
  intros [-> | (n & -> & Hn)]; unfold close; [done|]. by rewrite Hn.
Qed.

Lemma close_valid code data mask w :
  code = CodeUndefined ∨ (∃ n, code = CodeNumber n ∧ isValidErrorCode n = true) →
  ∃ w1,
    close isValidErrorCode random255 socket_throws code data mask w
    = frameAndSend random255 socket_throws (calls w) 0x8
        (DBuffer (fresh (dom (heap w)))) true mask false None w1
    ∧ heap w1 = <[fresh (dom (heap w)) :=
                   [(sent_code code / 2 ^ 8) mod 256; sent_code code mod 256]
                   ++ reason_octets data]> (heap w)
    ∧ wire w1 = wire w ∧ firstFragment w1 = firstFragment w
    ∧ calls w1 = S (calls w) ∧ jobs w1 = jobs w
    ∧ _randomMask w1 = _randomMask w ∧ draws w1 = draws w
    ∧ reports w1 = reports w.
Proof.
  intros Hcode. unfold close.
  assert ((match code with
           | CodeUndefined => false
           | CodeNumber n => negb (isValidErrorCode n)
           | CodeNotNumber => true
           end) = false) as ->
    by (destruct Hcode as [-> | (n & -> & Hn)]; [done | by rewrite Hn]).
  fold (sent_code code). unfold begin_call, new_Buffer.
  cbn [heap with_calls calls].
  set (l := fresh (dom (heap w))).
  set (k := match data with
            | Some s => if bool_decide (s = EmptyString) then 0%nat else Buffer_byteLength s
            | None => 0%nat
            end).
  assert (k = length (reason_octets data)) as Hk.
  { unfold k, reason_octets, Buffer_byteLength. destruct data as [s|]; [|done].
    case_bool_decide; [by subst|done]. }
  clearbody k. rewrite update_buf_new.
  assert (length (writeUInt16BE (sent_code code) 0 (replicate (2 + k) 0)) = (2 + k)%nat)
    as Hlen.
  { unfold writeUInt16BE, buf_set. by rewrite !length_insert, length_replicate. }
  rewrite buf_new, Hlen.
  assert (writeUInt16BE (sent_code code) 0 (replicate (2 + k) 0)
          = [(sent_code code / 2 ^ 8) mod 256; sent_code code mod 256]
            ++ replicate k 0) as Hw.
  { unfold writeUInt16BE, buf_set. cbn [Nat.add replicate insert list_insert].
    by rewrite js_octet0, js_octet1. }
  destruct (2 <? 2 + k)%nat eqn:Hlt.
  - rewrite update_buf_new. eexists. split; [reflexivity|].
    cbn [heap wire firstFragment calls jobs _randomMask draws reports with_heap with_calls].
    split; [|done]. f_equal. unfold Buffer_write.
    apply Nat.ltb_lt in Hlt.
    destruct data as [s|]; cbn [reason_octets default id] in Hk |- *; [|cbn in Hk; lia].
    rewrite Buffer_copy_prefix by (rewrite Hlen; lia). by rewrite Hw.
  - eexists. split; [reflexivity|].
    cbn [heap wire firstFragment calls jobs _randomMask draws reports with_heap with_calls].
    split; [|done]. f_equal. rewrite Hw.
    apply Nat.ltb_ge in Hlt. assert (k = 0%nat) as Hk0 by lia.
    rewrite Hk0 in Hk |- *. destruct (reason_octets data); [done|]. cbn in Hk. lia.
Qed.

End Operations.

(** ** Deflate streams over the turns of the event loop *)

Section Streams.

Variable isValidErrorCode : Z → bool.
Variable random255 : nat → Z.
Variable socket_throws : list write → list Z → option js_error.

Local Abbreviation step := (step isValidErrorCode random255 socket_throws).
Local Abbreviation run := (run isValidErrorCode random255 socket_throws).

Lemma close_cases code :
  (code = CodeNotNumber ∨ ∃ n, code = CodeNumber n ∧ isValidErrorCode n = false)
  ∨ (code = CodeUndefined ∨ ∃ n, code = CodeNumber n ∧ isValidErrorCode n = true).
Proof.
  destruct code as [|n|]; [right; by left| |left; by left].
  destruct (isValidErrorCode n) eqn:Hn; [right|left]; right; eauto.
Qed.

Lemma with_cdata_same job : with_cdata (j_cdata job ++ []) job = job.
Proof. rewrite app_nil_r. by destruct job. Qed.

(** One turn leaves every deflate stream its closure, and adds to its
    [cdata] only a chunk that is its own. *)
Lemma step_job a w j job :
  jobs w !! j = Some job →
  jobs (world_of (step a w)) !! j
  = Some (with_cdata (j_cdata job ++ concat (chunks_of j [a])) job).
Proof.
  intros Hj.
  destruct a as [d o cb|d o|d o|c d m|j' chunk|j'|j' err];
    cbn [step chunks_of omap list_omap concat]; rewrite ?with_cdata_same.
  - rewrite send_frameAndSend. by apply frameAndSend_job_kept.
  - unfold ping, begin_call. by apply frameAndSend_job_kept.
  - unfold pong, begin_call. by apply frameAndSend_job_kept.
  - destruct (close_cases c) as [Hc|Hc].
    + by rewrite close_invalid.
    + destruct (close_valid isValidErrorCode random255 socket_throws c d m w Hc)
        as (w1 & -> & _ & _ & _ & _ & Hj1 & _).
      apply frameAndSend_job_kept. by rewrite Hj1.
  - cbn [world_of]. unfold deflate_on_data. destruct (decide (j' = j)) as [->|Hne].
    + rewrite Hj. cbn [jobs with_jobs concat]. rewrite lookup_insert_eq.
      by rewrite app_nil_r.
    + cbn [concat]. rewrite with_cdata_same.
      destruct (jobs w !! j'); [|done].
      cbn [jobs with_jobs]. by rewrite lookup_insert_ne.
  - cbn [world_of]. unfold deflate_on_end. destruct (jobs w !! j') as [job'|]; [|done].
    unfold new_Buffer.
    match goal with |- context [_frame_and_send _ _ ?c ?op ?f ?mk ?z ?k ?cm ?l ?W] =>
      destruct (frame_and_send_fields random255 socket_throws c op f mk z k cm l W)
        as (_ & _ & -> & _) end.
    exact Hj.
  - unfold deflate_on_error. by destruct (jobs w !! j').
Qed.

Lemma chunks_of_cons j a acts :
  concat (chunks_of j (a :: acts)) = concat (chunks_of j [a]) ++ concat (chunks_of j acts).
Proof.
  unfold chunks_of. cbn [omap list_omap].
  match goal with |- context [match ?x with Some _ => _ | None => _ end] =>
    destruct x end; cbn [concat]; by rewrite ?app_nil_r.
Qed.

(** Over any sequence of turns a deflate stream keeps the opcode, the
    flags and the callback it was created with, and its [cdata] grows by
    its own chunks, in order. *)
Lemma run_job acts : ∀ w j job,
  jobs w !! j = Some job →
  jobs (run acts w) !! j
  = Some (with_cdata (j_cdata job ++ concat (chunks_of j acts)) job).
Proof.
  induction acts as [|a acts IH]; intros w j job Hj.
  - cbn [run chunks_of omap list_omap concat]. by rewrite with_cdata_same.
  - cbn [run]. rewrite (IH _ j _ (step_job a w j job Hj)).
    cbn [j_cdata with_cdata]. rewrite (chunks_of_cons j a acts), app_assoc.
    reflexivity.
Qed.

End Streams.

(** ** The header of a frame *)

Lemma falsy_payload w data : falsy data = true → payload_octets w data = [].
Proof.
  destruct data as [|s| |]; cbn; try done.
  intros H. apply bool_decide_eq_true in H. by subst.
Qed.

Lemma encoded_length_small n : 0 <= n < 2 ^ 32 → encoded_length n = n.
Proof.
  intros Hn. unfold encoded_length. destruct (65536 <=? n); [|done].
  by apply Z.mod_small.
Qed.

Lemma frame_octets_width opcode finalFragment maskData compress mask d :
  0 <= opcode < 16 →
  Z.of_nat (length d) < 2 ^ 32 →
  width_rule (Z.of_nat (length d))
    (frame_octets opcode finalFragment maskData compress mask d).
Proof.
  intros Hop Hlen. unfold width_rule.
  rewrite decode_frame_octets by done. cbn [fmap option_fmap option_map f_length].
  rewrite encoded_length_small by lia. split; [done|].
  unfold frame_octets, header_octets. rewrite length_field_octets.
  remember (Z.of_nat (length d)) as n eqn:Hn. assert (0 <= n) as Hn0 by lia.
  cbn [app]. change (buf_get (?x :: ?y :: ?l) 1) with y.
  destruct (second_byte_fields maskData _ (second_byte_range n Hn0)) as (-> & _).
  unfold second_byte.
  destruct (Z.leb_spec 65536 n); [|destruct (Z.ltb_spec 125 n)].
  - repeat split; intros; try lia. cbn [drop take firstn skipn app be_value fold_left].
    rewrite ?take_0. cbn [fold_left].
    pose proof (be_octets32 n) as Hbe. rewrite (Z.mod_small n (2 ^ 32)) in Hbe by lia.
    lia.
  - repeat split; intros; try lia. cbn [drop take firstn skipn app be_value fold_left].
    rewrite ?take_0. cbn [fold_left]. by apply be_octets16.
  - repeat split; intros; lia.
Qed.

Lemma empty_frame_width opcode finalFragment maskData :
  0 <= opcode < 16 → width_rule 0 (empty_frame_octets opcode finalFragment maskData).
Proof.
  intros Hop. unfold width_rule. rewrite decode_empty_frame by done.
  split; [done|]. repeat split; intros; try lia.
  destruct maskData; reflexivity.
Qed.

Lemma next_mask_eq random255 w w' :
  _randomMask w' = _randomMask w → draws w' = draws w →
  next_mask random255 w' = next_mask random255 w.
Proof.
  intros Hm Hd. unfold next_mask, the_mask, getRandomMask. rewrite Hm, Hd.
  by destruct (_randomMask w).
Qed.

Section Claims.

Variable isValidErrorCode : Z → bool.
Variable random255 : nat → Z.
Variable socket_throws : list write → list Z → option js_error.
Hypothesis socket_accepts : ∀ ws b, socket_throws ws b = None.

Lemma send_opcode_range options w :
  0 <= (if firstFragment w then data_opcode options else 0) < 16.
Proof. unfold data_opcode. destruct (firstFragment w), (opt o_binary options); lia. Qed.

(** The frame of a send that does not go through the deflate stream. *)
Lemma send_emitted data options cb w :
  valid_data w data →
  opt o_compress options = false ∨ falsy data = true →
  emitted w (send random255 socket_throws data options cb w)
  = if falsy data then
      empty_frame_octets (if firstFragment w then data_opcode options else 0)
        (fin_of options) (opt o_mask options)
    else
      frame_octets (if firstFragment w then data_opcode options else 0)
        (fin_of options) (opt o_mask options) false (next_mask random255 w)
        (payload_octets w data).
Proof.
  intros Hv Hc. rewrite send_frameAndSend.
  match goal with |- context [frameAndSend _ _ ?c ?op _ ?f ?m ?z _ ?W] =>
    destruct (frameAndSend_emitted random255 socket_throws socket_accepts c op data
                f m z cb W Hv Hc) as (He & _);
    rewrite (emitted_same_wire w W) by reflexivity;
    rewrite (next_mask_eq random255 w W) in He by reflexivity
  end.
  exact He.
Qed.

(** The deflate stream a compressed send creates. *)
Lemma send_deflate_job data options cb w :
  valid_data w data →
  opt o_compress options = true →
  falsy data = false →
  jobs (send random255 socket_throws data options cb w) !! fresh (dom (jobs w))
  = Some {| j_call := calls w;
            j_opcode := if firstFragment w then data_opcode options else 0;
            j_finalFragment := fin_of options;
            j_maskData := opt o_mask options;
            j_cb := cb;
            j_canModifyData := can_modify data;
            j_input := payload_octets w data;
            j_cdata := [] |}
  ∧ wire (send random255 socket_throws data options cb w) = wire w
  ∧ reports (send random255 socket_throws data options cb w) = reports w
  ∧ _randomMask (send random255 socket_throws data options cb w) = _randomMask w
  ∧ draws (send random255 socket_throws data options cb w) = draws w
  ∧ jobs (send random255 socket_throws data options cb w)
    = <[fresh (dom (jobs w)) :=
          {| j_call := calls w;
             j_opcode := if firstFragment w then data_opcode options else 0;
             j_finalFragment := fin_of options;
             j_maskData := opt o_mask options;
             j_cb := cb;
             j_canModifyData := can_modify data;
             j_input := payload_octets w data;
             j_cdata := [] |}]> (jobs w).
Proof.
  intros Hv Hc Hf. rewrite send_frameAndSend. unfold frameAndSend.
  rewrite Hf, Hc.
  destruct data as [|s|l|v]; try discriminate;
    unfold getArrayBuffer, new_Buffer, deflate_start; cbv zeta;
    cbn [payload_octets valid_data] in *;
    try match goal with Hn : is_Some (byteLength_or_length _) |- _ =>
          destruct Hn as [n Hn]; rewrite !Hn end;
    cbn [world_of wire reports _randomMask draws jobs with_jobs with_heap
         with_firstFragment with_calls can_modify default];
    rewrite ?buf_new; (split; [apply lookup_insert_eq|done]).
Qed.

(** The frame a deflate stream's end puts on the wire. *)
Lemma deflate_on_end_emitted j job w :
  jobs w !! j = Some job →
  emitted w (deflate_on_end random255 socket_throws j w)
  = frame_octets (j_opcode job) (j_finalFragment job) (j_maskData job) true
      (next_mask random255 w) (Buffer_slice (j_cdata job) 0 (-6)).
Proof.
  intros Hj. unfold deflate_on_end. rewrite Hj. unfold new_Buffer.
  match goal with |- context [_frame_and_send _ _ ?c ?op ?f ?m _ ?cb ?cm ?l ?W] =>
    destruct (frame_and_send_emitted random255 socket_throws socket_accepts c op f m
                true cb cm l W _ (lookup_insert_eq _ _ _)) as (He & _);
    rewrite (emitted_same_wire w W) by reflexivity
  end.
  rewrite He. by rewrite next_mask_with_heap.
Qed.

(** C1 (as amended): for every frame whose payload has n < 2^32 octets
    (the message of a send that does not go through the deflate stream,
    the trimmed deflate output of one that does) the header follows the
    width rule: n below
    126 sits in the low 7 bits of the second octet; from 126 to 65535 these
    bits are 126 and two big-endian octets of n follow; from 65536 on they
    are 127 and eight big-endian octets of n follow; and the length decoded
    back from the header is n.  This covers n in 0, 1, 125, 126, 65535 and
    65536. *)
Theorem C1_length_encoding :
  (∀ data options cb w,
     valid_data w data →
     opt o_compress options = false ∨ falsy data = true →
     Z.of_nat (length (payload_octets w data)) < 2 ^ 32 →
     width_rule (Z.of_nat (length (payload_octets w data)))
       (emitted w (send random255 socket_throws data options cb w)))
  ∧ (∀ j job w,
       jobs w !! j = Some job →
       0 <= j_opcode job < 16 →
       Z.of_nat (length (Buffer_slice (j_cdata job) 0 (-6))) < 2 ^ 32 →
       width_rule (Z.of_nat (length (Buffer_slice (j_cdata job) 0 (-6))))
         (emitted w (deflate_on_end random255 socket_throws j w))).
Proof.
  split.
  - intros data options cb w Hv Hc Hlen. rewrite send_emitted by auto.
    destruct (falsy data) eqn:Hf.
    + rewrite falsy_payload by done. apply empty_frame_width, send_opcode_range.
    + apply frame_octets_width; [apply send_opcode_range|done].
  - intros j job w Hj Hop Hlen. rewrite (deflate_on_end_emitted j job w Hj).
    by apply frame_octets_width.
Qed.

Lemma with_calls_firstFragment b n w :
  with_calls n (with_firstFragment b w) = with_firstFragment b (with_calls n w).
Proof. reflexivity. Qed.

Lemma ping_firstFragment b data options w :
  ping random255 socket_throws data options (with_firstFragment b w)
  = outcome_map (with_firstFragment b) (ping random255 socket_throws data options w)
  ∧ firstFragment (ping random255 socket_throws data options w) = firstFragment w.
Proof.
  unfold ping, begin_call. cbn [calls with_firstFragment]. split.
  - rewrite with_calls_firstFragment. apply frameAndSend_firstFragment.
  - match goal with |- context [frameAndSend _ _ ?c ?op ?d ?f ?m ?z ?k ?W] =>
      destruct (frameAndSend_fields random255 socket_throws c op d f m z k W)
        as (_ & _ & Hf & _) end.
    exact Hf.
Qed.

Lemma pong_firstFragment b data options w :
  pong random255 socket_throws data options (with_firstFragment b w)
  = outcome_map (with_firstFragment b) (pong random255 socket_throws data options w)
  ∧ firstFragment (pong random255 socket_throws data options w) = firstFragment w.
Proof.
  unfold pong, begin_call. cbn [calls with_firstFragment]. split.
  - rewrite with_calls_firstFragment. apply frameAndSend_firstFragment.
  - match goal with |- context [frameAndSend _ _ ?c ?op ?d ?f ?m ?z ?k ?W] =>
      destruct (frameAndSend_fields random255 socket_throws c op d f m z k W)
        as (_ & _ & Hf & _) end.
    exact Hf.
Qed.

Lemma close_firstFragment b code data mask w :
  close isValidErrorCode random255 socket_throws code data mask (with_firstFragment b w)
  = outcome_map (with_firstFragment b)
      (close isValidErrorCode random255 socket_throws code data mask w)
  ∧ firstFragment (world_of (close isValidErrorCode random255 socket_throws code data
                               mask w)) = firstFragment w.
Proof.
  unfold close.
  destruct (match code with
            | CodeUndefined => false
            | CodeNumber n => negb (isValidErrorCode n)
            | CodeNotNumber => true
            end); [done|].
  unfold begin_call, new_Buffer. cbn [calls heap with_firstFragment with_calls].
  rewrite with_calls_firstFragment, with_heap_firstFragment,
    !update_buf_firstFragment, !buf_firstFragment.
  split.
  - match goal with |- context [if ?c then _ else _] => destruct c end;
      rewrite ?update_buf_firstFragment; apply frameAndSend_firstFragment.
  - match goal with |- context [frameAndSend _ _ ?c ?op ?d ?f ?m ?z ?k ?W] =>
      destruct (frameAndSend_fields random255 socket_throws c op d f m z k W)
        as (_ & _ & Hf & _); rewrite Hf end.
    match goal with |- context [if ?c then _ else _] => destruct c end; reflexivity.
Qed.

(** C2: the frame of a send carries the data opcode (1 for text, 2 for
    binary) exactly when firstFragment was true before the call and 0
    otherwise, whether it is written during the call or, for a compressed
    send, when its deflate stream ends, whatever the encoder was asked to
    do in between; after the call firstFragment is the fin flag of the
    call; ping, pong and close give the same result whatever firstFragment
    is, and leave it as it was. *)
Theorem C2_fragmentation_state data options cb w :
  valid_data w data →
  let op := if firstFragment w then data_opcode options else 0 in
  let w' := send random255 socket_throws data options cb w in
  firstFragment w' = fin_of options
  ∧ (opt o_compress options = false ∨ falsy data = true →
     f_opcode <$> decode_frame (emitted w w') = Some op)
  ∧ (opt o_compress options = true → falsy data = false →
     ∀ acts,
       let w2 := run isValidErrorCode random255 socket_throws acts w' in
       f_opcode <$> decode_frame
         (emitted w2 (deflate_on_end random255 socket_throws (fresh (dom (jobs w))) w2))
       = Some op)
  ∧ (∀ b d o,
       ping random255 socket_throws d o (with_firstFragment b w)
       = outcome_map (with_firstFragment b) (ping random255 socket_throws d o w)
       ∧ firstFragment (ping random255 socket_throws d o w) = firstFragment w)
  ∧ (∀ b d o,
       pong random255 socket_throws d o (with_firstFragment b w)
       = outcome_map (with_firstFragment b) (pong random255 socket_throws d o w)
       ∧ firstFragment (pong random255 socket_throws d o w) = firstFragment w)
  ∧ (∀ b c d m,
       close isValidErrorCode random255 socket_throws c d m (with_firstFragment b w)
       = outcome_map (with_firstFragment b)
           (close isValidErrorCode random255 socket_throws c d m w)
       ∧ firstFragment (world_of (close isValidErrorCode random255 socket_throws c d m w))
         = firstFragment w).
Proof.
  intros Hv op w'. pose proof (send_opcode_range options w) as Hop. fold op in Hop.
  split; [|split; [|split; [|split; [|split]]]].
  - subst w'. rewrite send_frameAndSend.
    match goal with |- context [frameAndSend _ _ ?c ?o ?d ?f ?m ?z ?k ?W] =>
      destruct (frameAndSend_fields random255 socket_throws c o d f m z k W)
        as (_ & _ & Hf & _); rewrite Hf end.
    reflexivity.
  - intros Hc. subst w'. rewrite send_emitted by done. fold op.
    destruct (falsy data).
    + by rewrite decode_empty_frame.
    + by rewrite decode_frame_octets.
  - intros Hc Hf acts w2.
    destruct (send_deflate_job data options cb w Hv Hc Hf) as (Hj & _).
    fold w' op in Hj.
    pose proof (run_job isValidErrorCode random255 socket_throws acts w' _ _ Hj) as Hj2.
    fold w2 in Hj2.
    rewrite (deflate_on_end_emitted _ _ w2 Hj2). cbn [with_cdata j_opcode].
    by rewrite decode_frame_octets.
  - intros b d o. apply ping_firstFragment.
  - intros b d o. apply pong_firstFragment.
  - intros b c d m. apply close_firstFragment.
Qed.

Lemma octets_slice b s e : octets b → octets (Buffer_slice b s e).
Proof.
  unfold octets, Buffer_slice. intros H.
  apply Forall_take, Forall_drop, H.
Qed.

Lemma frame_octets_unmasks opcode finalFragment compress mask d :
  0 <= opcode < 16 → octets d →
  unmasks_to (frame_octets opcode finalFragment true compress mask d) d.
Proof.
  intros Hop Hd. eexists. split; [by apply decode_frame_octets|].
  cbn [f_masked f_mask_key f_payload]. repeat split.
  by apply unmask_masked_octets.
Qed.

(** C3: for every masked send, XOR-ing octet i of the payload region of
    the frame with octet (i mod 4) of the four octets stored just before
    that region gives back the payload the frame was built from: the
    message of a send that is not compressed, the trimmed deflate output
    of a compressed one. *)
Theorem C3_masking_roundtrip :
  (∀ data options cb w,
     valid_data w data →
     opt o_mask options = true →
     opt o_compress options = false ∨ falsy data = true →
     octets (payload_octets w data) →
     unmasks_to (emitted w (send random255 socket_throws data options cb w))
       (payload_octets w data))
  ∧ (∀ j job w,
       jobs w !! j = Some job →
       j_maskData job = true →
       0 <= j_opcode job < 16 →
       octets (j_cdata job) →
       unmasks_to (emitted w (deflate_on_end random255 socket_throws j w))
         (Buffer_slice (j_cdata job) 0 (-6))).
Proof.
  split.
  - intros data options cb w Hv Hm Hc Hd. rewrite send_emitted by done. rewrite Hm.
    destruct (falsy data) eqn:Hf.
    + rewrite falsy_payload by done. eexists.
      split; [apply decode_empty_frame, send_opcode_range|]. by cbn.
    + apply frame_octets_unmasks; [apply send_opcode_range|done].
  - intros j job w Hj Hm Hop Hd. rewrite (deflate_on_end_emitted j job w Hj), Hm.
    apply frame_octets_unmasks; [done|by apply octets_slice].
Qed.

(** The close frame of a call that passes the check of the code. *)
Lemma close_frame code data mask w :
  code = CodeUndefined ∨ (∃ n, code = CodeNumber n ∧ isValidErrorCode n = true) →
  ∃ w' fr,
    close isValidErrorCode random255 socket_throws code data mask w = Returned w'
    ∧ decode_frame (emitted w w') = Some fr
    ∧ f_opcode fr = 8 ∧ f_fin fr = true ∧ f_rsv1 fr = false
    ∧ received_payload fr
      = [(sent_code code / 2 ^ 8) mod 256; sent_code code mod 256] ++ reason_octets data
    ∧ reports w' = reports w.
Proof.
  intros Hcode.
  destruct (close_valid isValidErrorCode random255 socket_throws code data mask w Hcode)
    as (w1 & -> & Hh & Hw & _ & _ & _ & _ & _ & Hrp).
  set (l := fresh (dom (heap w))) in *.
  set (p := [(sent_code code / 2 ^ 8) mod 256; sent_code code mod 256]
            ++ reason_octets data) in *.
  assert (heap w1 !! l = Some p) as Hl by (rewrite Hh; apply lookup_insert_eq).
  destruct (frameAndSend_emitted random255 socket_throws socket_accepts (calls w) 8
              (DBuffer l) true mask false None w1 (mk_is_Some _ _ Hl) (or_introl eq_refl))
    as (He & Hr).
  cbn [falsy payload_octets] in He. unfold buf in He.
  rewrite (bufat_lookup _ _ _ Hl) in He.
  rewrite (emitted_same_wire w1 w) in He by done.
  rewrite frameAndSend_Buffer in He, Hr |- *. cbn [world_of] in He, Hr.
  eexists _, _. split; [reflexivity|]. rewrite He.
  split; [by apply decode_frame_octets|].
  cbn [f_opcode f_fin f_rsv1]. repeat split.
  - unfold received_payload. cbn [f_masked f_mask_key f_payload].
    destruct mask; [|done]. apply unmask_masked_octets.
    unfold octets, p. apply Forall_app. split; [|destruct data; [apply utf8_octets|done]].
    repeat constructor; apply Z.mod_pos_bound; lia.
  - by rewrite Hr.
Qed.

(** C4: close with a code that is not a number, or that the validity table
    rejects (999 where the table rejects it), throws InvalidCloseCode to
    the caller at once, the encoder untouched: nothing written, nothing
    reported through a callback or an event; close with the valid code 1000
    and the reason "bye" returns and its frame carries the payload
    03 E8 followed by the octets of "bye". *)
Theorem C4_close_code :
  (∀ code data mask w,
     code = CodeNotNumber ∨ (∃ n, code = CodeNumber n ∧ isValidErrorCode n = false) →
     close isValidErrorCode random255 socket_throws code data mask w
     = Thrown InvalidCloseCode w)
  ∧ (isValidErrorCode 1000 = true →
     ∀ mask w, ∃ w' fr,
       close isValidErrorCode random255 socket_throws (CodeNumber 1000)
         (Some "bye"%string) mask w = Returned w'
       ∧ decode_frame (emitted w w') = Some fr
       ∧ f_opcode fr = 8
       ∧ received_payload fr = [0x03; 0xE8] ++ utf8 "bye"
       ∧ reports w' = reports w).
Proof.
  split.
  - intros code data mask w Hcode. by apply close_invalid.
  - intros Hvalid mask w.
    destruct (close_frame (CodeNumber 1000) (Some "bye"%string) mask w)
      as (w' & fr & Hc & Hd & Hop & _ & _ & Hp & Hr); [right; eauto|].
    exists w', fr. auto.
Qed.

(** C5 (as amended): close called without a code sends the default code:
    the payload of its frame is the two octets 03 E8 of the code 1000,
    followed by the reason when there is one; where the table accepts
    1000 the call is the same as close(1000). *)
Theorem C5_close_default_code data mask w :
  (∃ w' fr,
     close isValidErrorCode random255 socket_throws CodeUndefined data mask w
     = Returned w'
     ∧ decode_frame (emitted w w') = Some fr
     ∧ f_opcode fr = 8
     ∧ received_payload fr = [0x03; 0xE8] ++ reason_octets data)
  ∧ (isValidErrorCode 1000 = true →
     close isValidErrorCode random255 socket_throws CodeUndefined data mask w
     = close isValidErrorCode random255 socket_throws (CodeNumber 1000) data mask w).
Proof.
  split.
  - destruct (close_frame CodeUndefined data mask w)
      as (w' & fr & Hc & Hd & Hop & _ & _ & Hp & _); [by left|].
    exists w', fr. auto.
  - intros Hvalid. unfold close. by rewrite Hvalid.
Qed.

Lemma send_opcode_octet options w (finalFragment : bool) :
  let op := if firstFragment w then data_opcode options else 0 in
  ToUint8 (js_or op (if finalFragment then 0x80 else 0))
  = op + (if finalFragment then 128 else 0)
  ∧ first_byte op finalFragment false = op + (if finalFragment then 128 else 0).
Proof.
  unfold data_opcode.
  destruct (firstFragment w), (opt o_binary options), finalFragment; by cbn.
Qed.

(** C8 (as amended): for every send whose payload is missing or the empty
    string, the encoder writes once, the two header octets (the opcode
    with the fin bit, the masked bit) and four zero octets when masked,
    without drawing a mask or starting a deflate stream, compressed or
    not.  An empty Buffer is not caught by this fast path.  Sent without
    compression it takes the general path: the same two header octets,
    followed when masked by the four octets of the encoder's mask.  Sent
    with compression it goes to a deflate stream like any other Buffer:
    nothing is written during the call. *)
Theorem C8_empty_payload options cb w :
  let op := if firstFragment w then data_opcode options else 0 in
  let header := [op + (if fin_of options then 128 else 0);
                 if opt o_mask options then 128 else 0] in
  (∀ data, falsy data = true →
     let w' := send random255 socket_throws data options cb w in
     wire w' = wire w ++ [{| wr_call := calls w;
                             wr_bytes := header ++ (if opt o_mask options
                                                    then [0; 0; 0; 0] else []);
                             wr_cb := cb |}]
     ∧ jobs w' = jobs w ∧ _randomMask w' = _randomMask w ∧ draws w' = draws w)
  ∧ (∀ l, heap w !! l = Some [] → opt o_compress options = false →
     emitted w (send random255 socket_throws (DBuffer l) options cb w)
     = header ++ (if opt o_mask options then key_octets (next_mask random255 w)
                  else []))
  ∧ (∀ l, heap w !! l = Some [] → opt o_compress options = true →
     let w' := send random255 socket_throws (DBuffer l) options cb w in
     emitted w w' = []
     ∧ jobs w'
       = <[fresh (dom (jobs w)) :=
             {| j_call := calls w; j_opcode := op; j_finalFragment := fin_of options;
                j_maskData := opt o_mask options; j_cb := cb;
                j_canModifyData := false; j_input := []; j_cdata := [] |}]> (jobs w)).
Proof.
  intros op header. split; [|split].
  - intros data Hf w'. subst w'. rewrite send_frameAndSend. unfold frameAndSend.
    rewrite Hf. unfold new_Buffer. cbn [world_of]. rewrite (try_write_ok _ socket_accepts).
    cbn [wire jobs _randomMask draws with_wire with_heap with_firstFragment with_calls].
    repeat split. do 3 f_equal. rewrite buf_new. subst header. fold op.
    cbn [map app].
    destruct (send_opcode_octet options w (fin_of options)) as (Hb & _).
    fold op in Hb. rewrite Hb. by destruct (opt o_mask options).
  - intros l Hl Hc. rewrite send_emitted; [|exact (mk_is_Some _ _ Hl)|by left].
    cbn [falsy payload_octets]. unfold buf. rewrite (bufat_lookup _ _ _ Hl).
    fold op. unfold frame_octets, header_octets.
    destruct (send_opcode_octet options w (fin_of options)) as (_ & Hb).
    fold op in Hb. rewrite Hb. subst header. by destruct (opt o_mask options).
  - intros l Hl Hc w'.
    destruct (send_deflate_job (DBuffer l) options cb w (mk_is_Some _ _ Hl) Hc eq_refl)
      as (_ & Hw & _ & _ & _ & Hj).
    fold w' in Hw, Hj. split.
    + rewrite (emitted_app w w' []); [reflexivity|]. by rewrite Hw, app_nil_r.
    + rewrite Hj. cbn [can_modify payload_octets]. unfold buf.
      by rewrite (bufat_lookup _ _ _ Hl).
Qed.

End Claims.

(** ** Turns of the event loop *)

Lemma Buffer_slice_remove_last b : Buffer_slice b 0 (-6) = remove_last 6 b.
Proof.
  unfold Buffer_slice, remove_last, clamp_index.
  change (0 <? 0) with false. change (-6 <? 0) with true. cbv beta iota.
  rewrite Z.min_l by lia. change (Z.to_nat 0) with 0%nat. rewrite drop_0.
  rewrite skipn_rev, rev_involutive. f_equal. lia.
Qed.

Lemma remove_last_app body trailer :
  length trailer = 6%nat → remove_last 6 (body ++ trailer) = body.
Proof.
  intros H. unfold remove_last. rewrite skipn_rev, rev_involutive, length_app, H.
  replace (length body + 6 - 6)%nat with (length body) by lia.
  by rewrite take_app_length.
Qed.

Lemma Sorted_le_snoc (l : list nat) t ts :
  Sorted le l → Forall (fun c => (c ≤ t)%nat) l → Forall (fun c => c = t) ts →
  Sorted le (l ++ ts).
Proof.
  intros Hs Hl Ht. apply StronglySorted_Sorted.
  apply Sorted_StronglySorted in Hs; [|intros x y z; lia].
  induction Hs as [|x l Hs IH Hx]; cbn.
  - induction Ht as [|y ts -> Ht IH]; constructor; [done|].
    eapply Forall_impl; [exact Ht|]. cbn. lia.
  - apply Forall_cons in Hl as [Hxt Hl]. constructor; [by apply IH|].
    apply Forall_app. split; [done|].
    eapply Forall_impl; [exact Ht|]. cbn. lia.
Qed.

Section Turns.

Variable isValidErrorCode : Z → bool.
Variable random255 : nat → Z.
Variable socket_throws : list write → list Z → option js_error.

Local Abbreviation step := (step isValidErrorCode random255 socket_throws).
Local Abbreviation run := (run isValidErrorCode random255 socket_throws).

(** *** The deflate stream *)

(** C7: for every compressed send, whatever the encoder is asked to do
    and whatever other deflate streams deliver before the stream of the
    send ends, the payload handed to [_frame_and_send] at the end is the
    concatenation of the chunks this stream emitted, in order, without its
    last 6 octets, and it is framed with the opcode, the flags and the
    callback of the send; when the stream's output ends with the 6 octets
    of the sync-flush trailer, the payload is the output before the
    trailer. *)
Theorem C7_deflate_trailer data options cb acts w :
  valid_data w data →
  opt o_compress options = true →
  falsy data = false →
  let j := fresh (dom (jobs w)) in
  let w1 := run acts (send random255 socket_throws data options cb w) in
  let cdata := concat (chunks_of j acts) in
  deflate_on_end random255 socket_throws j w1
  = (let '(payload, w2) := new_Buffer (remove_last 6 cdata) w1 in
     _frame_and_send random255 socket_throws (calls w)
       (if firstFragment w then data_opcode options else 0) (fin_of options)
       (opt o_mask options) true cb (can_modify data) payload w2)
  ∧ (∀ body trailer, cdata = body ++ trailer → length trailer = 6%nat →
       remove_last 6 cdata = body).
Proof.
  intros Hv Hc Hf j w1 cdata. split.
  - destruct (send_deflate_job random255 socket_throws data options cb w Hv Hc Hf)
      as (Hj & _).
    pose proof (run_job isValidErrorCode random255 socket_throws acts _ _ _ Hj) as Hj1.
    fold j w1 in Hj1. cbn [j_cdata app] in Hj1. fold cdata in Hj1.
    unfold deflate_on_end. rewrite Hj1.
    cbn [with_cdata j_call j_opcode j_finalFragment j_maskData j_cb j_canModifyData
         j_cdata].
    by rewrite Buffer_slice_remove_last.
  - intros body trailer -> Ht. by apply remove_last_app.
Qed.

(** *** No Buffer of the caller is written *)

Lemma valid_or_empty w data : valid_data w data → valid_data w (or_empty data).
Proof. unfold or_empty. by destruct (falsy data). Qed.

Lemma step_heap a w l x :
  valid_action a w → heap w !! l = Some x → heap (world_of (step a w)) !! l = Some x.
Proof.
  intros Hv Hl. destruct a as [d o cb|d o|d o|c d m|j chunk|j|j err]; cbn [step world_of].
  - rewrite send_frameAndSend. by apply frameAndSend_heap.
  - unfold ping, begin_call. apply frameAndSend_heap; [|done].
    by apply valid_or_empty.
  - unfold pong, begin_call. apply frameAndSend_heap; [|done].
    by apply valid_or_empty.
  - destruct (close_cases isValidErrorCode c) as [Hc|Hc].
    + by rewrite close_invalid.
    + destruct (close_valid isValidErrorCode random255 socket_throws c d m w Hc)
        as (w1 & -> & Hh & _). cbn [world_of].
      apply frameAndSend_heap.
      * cbn. rewrite Hh, lookup_insert_eq. eauto.
      * rewrite Hh, lookup_insert_ne; [done|]. apply fresh_ne. by rewrite Hl.
  - unfold deflate_on_data. by destruct (jobs w !! j).
  - unfold deflate_on_end. destruct (jobs w !! j) as [job|]; [|done].
    unfold new_Buffer.
    eapply frame_and_send_heap; [apply lookup_insert_eq| |].
    + cbn [heap with_heap]. rewrite lookup_insert_ne; [done|].
      apply fresh_ne. by rewrite Hl.
    + right. intros ->. rewrite fresh_not_allocated in Hl. discriminate.
  - unfold deflate_on_error. by destruct (jobs w !! j).
Qed.

(** C10: a Buffer of the caller handed to send, ping or pong holds the
    same octets after the call, and after every later event of the deflate
    stream of a compressed send; close, which builds its own payload,
    changes no Buffer of the caller either.  With canModifyData false, as
    it is for every Buffer of the caller, a masked frame is always merged:
    masking in place is left to Buffers the encoder made itself. *)
Theorem C10_caller_buffer_unchanged l d w :
  heap w !! l = Some d →
  (∀ options cb,
     heap (send random255 socket_throws (DBuffer l) options cb w) !! l = Some d)
  ∧ (∀ options, heap (ping random255 socket_throws (DBuffer l) options w) !! l = Some d)
  ∧ (∀ options, heap (pong random255 socket_throws (DBuffer l) options w) !! l = Some d)
  ∧ (∀ code data mask,
       heap (world_of (close isValidErrorCode random255 socket_throws code data mask w))
         !! l = Some d)
  ∧ (∀ j chunk, heap (deflate_on_data j chunk w) !! l = Some d)
  ∧ (∀ j, heap (deflate_on_end random255 socket_throws j w) !! l = Some d)
  ∧ (∀ n, mergeBuffers n true false = true).
Proof.
  intros Hl. assert (is_Some (heap w !! l)) as Hs by eauto.
  repeat split.
  - intros o cb. by apply (step_heap (ASend (DBuffer l) o cb)).
  - intros o. by apply (step_heap (APing (DBuffer l) o)).
  - intros o. by apply (step_heap (APong (DBuffer l) o)).
  - intros c dd m. by apply (step_heap (AClose c dd m)).
  - intros j chunk. by apply (step_heap (ADeflateData j chunk)).
  - intros j. by apply (step_heap (ADeflateEnd j)).
  - intros n. unfold mergeBuffers. cbn. apply orb_true_r.
Qed.

(** *** The order of the writes *)

Lemma wire_invariant_frame w w1 w' t :
  wire_invariant w →
  wire w1 = wire w →
  (∃ ws, wire w' = wire w1 ++ ws ∧ Forall (fun x => wr_call x = t) ws) →
  Forall (fun c => (c ≤ t)%nat) (wire_calls w) →
  (t < calls w')%nat → (calls w ≤ calls w')%nat →
  (∀ j job, jobs w' !! j = Some job →
     (∃ job0, jobs w !! j = Some job0 ∧ j_call job = j_call job0) ∨ j_call job = t) →
  wire_invariant w'.
Proof.
  intros (Hs & Hlt & Hj) Hw1 (ws & Hw & Ht) Hle Htc Hcc Hjobs.
  assert (wire_calls w' = wire_calls w ++ (wr_call <$> ws)) as Hwc.
  { unfold wire_calls. by rewrite Hw, Hw1, fmap_app. }
  assert (Forall (fun c => c = t) (wr_call <$> ws)) as Hts.
  { apply Forall_fmap. eapply Forall_impl; [exact Ht|done]. }
  split; [|split].
  - unfold in_call_order. rewrite Hwc. by eapply Sorted_le_snoc.
  - rewrite Hwc. apply Forall_app. split.
    + eapply Forall_impl; [exact Hlt|]. cbn. lia.
    + eapply Forall_impl; [exact Hts|]. cbn. lia.
  - intros j job Hjob. destruct (Hjobs j job Hjob) as [(job0 & Hj0 & ->)| ->]; [|done].
    specialize (Hj j job0 Hj0). lia.
Qed.

Lemma wire_invariant_below w :
  wire_invariant w → Forall (fun c => (c ≤ calls w)%nat) (wire_calls w).
Proof. intros (_ & Hlt & _). eapply Forall_impl; [exact Hlt|]. cbn. lia. Qed.

(** A public operation: its frame, or its deflate stream, carries its
    number, which no earlier write has. *)
Lemma wire_invariant_operation w w1 opcode data finalFragment maskData compress cb :
  wire_invariant w →
  wire w1 = wire w → calls w1 = S (calls w) → jobs w1 = jobs w →
  wire_invariant (frameAndSend random255 socket_throws (calls w) opcode data
                    finalFragment maskData compress cb w1).
Proof.
  intros Hinv Hw Hc Hj.
  destruct (frameAndSend_fields random255 socket_throws (calls w) opcode data
              finalFragment maskData compress cb w1) as (Hws & Hcs & _ & Hjs).
  cbn in Hws, Hcs, Hjs.
  eapply (wire_invariant_frame w w1); try done.
  - by apply wire_invariant_below.
  - rewrite Hcs, Hc. lia.
  - rewrite Hcs, Hc. lia.
  - intros j job Hjob. destruct (Hjs j job Hjob) as [Hold| ->]; [left|by right].
    rewrite Hj in Hold. eauto.
Qed.

Lemma step_wire_invariant a w :
  wire_invariant w → prompt a w → wire_invariant (world_of (step a w)).
Proof.
  intros Hinv Hp. destruct a as [d o cb|d o|d o|c d m|j chunk|j|j err]; cbn [step world_of].
  - rewrite send_frameAndSend. by apply wire_invariant_operation.
  - unfold ping, begin_call. by apply wire_invariant_operation.
  - unfold pong, begin_call. by apply wire_invariant_operation.
  - destruct (close_cases isValidErrorCode c) as [Hc|Hc].
    + by rewrite close_invalid.
    + destruct (close_valid isValidErrorCode random255 socket_throws c d m w Hc)
        as (w1 & -> & _ & Hw & _ & Hcs & Hj & _). cbn [world_of].
      by apply wire_invariant_operation.
  - unfold deflate_on_data. destruct (jobs w !! j) as [job|] eqn:Hj; [|done].
    destruct Hinv as (Hs & Hlt & Hjobs). split; [done|split; [done|]].
    intros j' job'. cbn [jobs with_jobs calls]. rewrite lookup_insert.
    case_decide as Hjj; [|by apply Hjobs].
    intros [= <-]. cbn [j_call with_cdata]. by apply (Hjobs j).
  - unfold deflate_on_end. destruct (jobs w !! j) as [job|] eqn:Hj; [|done].
    specialize (Hp job Hj). unfold new_Buffer.
    match goal with |- context [_frame_and_send _ _ ?c ?op ?f ?m ?z ?cb ?cm ?l ?W] =>
      destruct (frame_and_send_fields random255 socket_throws c op f m z cb cm l W)
        as (Hws & Hcs & Hjs & _);
      eapply (wire_invariant_frame w W _ (j_call job)) end; try done.
    + destruct Hinv as (_ & Hlt & _). eapply Forall_impl; [exact Hlt|]. cbn. lia.
    + rewrite Hcs. cbn [calls with_heap]. lia.
    + rewrite Hcs. cbn [calls with_heap]. lia.
    + intros j' job' Hjob'. left. rewrite Hjs in Hjob'. eauto.
  - unfold deflate_on_error. by destruct (jobs w !! j).
Qed.

Lemma run_wire_invariant acts : ∀ w,
  wire_invariant w →
  prompt_run isValidErrorCode random255 socket_throws acts w →
  wire_invariant (run acts w).
Proof.
  induction acts as [|a acts IH]; intros w Hinv Hp; [done|].
  destruct Hp as [Hpa Hp]. cbn [run]. apply IH; [|done].
  by apply step_wire_invariant.
Qed.

Lemma Sender_wire_invariant h : wire_invariant (Sender h).
Proof.
  split; [constructor|split; [constructor|]]. intros j job Hj.
  cbn in Hj. by rewrite lookup_empty in Hj.
Qed.

(** C9 (as amended): on one encoder, when every deflate stream delivers
    its events before the next operation is invoked (in particular when no
    send is compressed), the frames reach the transport in the order in
    which the operations were invoked.  The encoder itself does not
    serialize: a frame is written at the moment its payload is ready. *)
Theorem C9_call_order acts h :
  prompt_run isValidErrorCode random255 socket_throws acts (Sender h) →
  in_call_order (run acts (Sender h)).
Proof.
  intros Hp.
  by destruct (run_wire_invariant acts (Sender h) (Sender_wire_invariant h) Hp).
Qed.

End Turns.

(** ** The claims on concrete inputs *)

Lemma accepting_socket_accepts : ∀ ws b, accepting_socket ws b = None.
Proof. reflexivity. Defined.

Lemma C1_length_encoding_witness :
  (∀ ws b, accepting_socket ws b = None)
  ∧ valid_data sample_world (DBuffer 0)
  ∧ Z.of_nat (length (payload_octets sample_world (DBuffer 0))) < 2 ^ 32
  ∧ width_rule 2
      (emitted sample_world
         (send counting_random accepting_socket (DBuffer 0) None None sample_world)).
Proof.
  assert (valid_data sample_world (DBuffer 0)) as Hv by (vm_compute; eauto).
  assert (Z.of_nat (length (payload_octets sample_world (DBuffer 0))) < 2 ^ 32)
    as Hn by reflexivity.
  split; [exact accepting_socket_accepts|split; [exact Hv|split; [exact Hn|]]].
  apply (proj1 (C1_length_encoding counting_random accepting_socket
                accepting_socket_accepts) (DBuffer 0) None None sample_world Hv
           (or_introl eq_refl) Hn).
Defined.


(** A payload of 2^32 octets: the eight octets after the marker 127 are
    all zero, and the length decoded back is 0. *)
Lemma length_of_4GiB_lost d :
  Z.of_nat (length d) = 4294967296 →
  ¬ width_rule 4294967296
      (emitted (Sender {[0%nat := d]})
         (send counting_random accepting_socket (DBuffer 0) None None
            (Sender {[0%nat := d]}))).
Proof.
  intros Hlen.
  assert (heap (Sender {[0%nat := d]}) !! 0%nat = Some d) as Hd
    by apply lookup_singleton_eq.
  rewrite (send_emitted counting_random accepting_socket accepting_socket_accepts);
    [|exact (mk_is_Some _ _ Hd)|by left].
  cbn [falsy payload_octets]. unfold buf. rewrite (bufat_lookup _ _ _ Hd).
  intros (Hdec & _). rewrite decode_frame_octets in Hdec by (cbn; lia).
  cbn [fmap option_fmap option_map f_length] in Hdec. rewrite Hlen in Hdec.
  discriminate Hdec.
Qed.

Lemma length_replicate_4GiB :
  Z.of_nat (length (replicate (Z.to_nat 4294967296) 0)) = 4294967296.
Proof. rewrite length_replicate. apply Z2Nat.id. discriminate. Qed.

(** C1, as the claim states it, fails for a payload of 2^32 octets. *)
Lemma C1_counterexample :
  Z.of_nat (length (replicate (Z.to_nat 4294967296) 0)) = 4294967296
  ∧ ¬ width_rule 4294967296
        (emitted (Sender {[0%nat := replicate (Z.to_nat 4294967296) 0]})
           (send counting_random accepting_socket (DBuffer 0) None None
              (Sender {[0%nat := replicate (Z.to_nat 4294967296) 0]}))).
Proof.
  exact (conj length_replicate_4GiB
           (length_of_4GiB_lost _ length_replicate_4GiB)).
Qed.

Lemma sample_buffer_valid : valid_data sample_world (DBuffer 0).
Proof. exists [104; 105]. reflexivity. Defined.

Lemma sample_buffer_octets : octets (payload_octets sample_world (DBuffer 0)).
Proof. repeat constructor; discriminate. Defined.

Lemma mid_message_valid : valid_data mid_message_world (DString "one").
Proof. exact I. Defined.

(** A compressed binary send in the middle of a fragmented message: the
    frame written when its deflate stream ends, after another send, a ping
    and the events of another stream, is a continuation frame. *)
Lemma C2_fragmentation_state_witness :
  (∀ ws b, accepting_socket ws b = None)
  ∧ valid_data mid_message_world (DString "one")
  ∧ opt o_compress binary_compress_options = true
  ∧ falsy (DString "one") = false
  ∧ firstFragment mid_message_world = false
  ∧ f_opcode <$> decode_frame
      (emitted
         (run sample_isValidErrorCode counting_random accepting_socket interleaved
            (send counting_random accepting_socket (DString "one")
               binary_compress_options None mid_message_world))
         (deflate_on_end counting_random accepting_socket
            (fresh (dom (jobs mid_message_world)))
            (run sample_isValidErrorCode counting_random accepting_socket interleaved
               (send counting_random accepting_socket (DString "one")
                  binary_compress_options None mid_message_world))))
    = Some 0.
Proof.
  split; [exact accepting_socket_accepts|split; [exact mid_message_valid|]].
  split; [reflexivity|split; [reflexivity|split; [reflexivity|]]].
  exact (proj1 (proj2 (proj2
           (C2_fragmentation_state sample_isValidErrorCode counting_random
              accepting_socket accepting_socket_accepts (DString "one")
              binary_compress_options None mid_message_world mid_message_valid)))
           eq_refl eq_refl interleaved).
Defined.

Lemma C3_masking_roundtrip_witness :
  (∀ ws b, accepting_socket ws b = None)
  ∧ valid_data sample_world (DBuffer 0)
  ∧ opt o_mask masked_options = true
  ∧ octets (payload_octets sample_world (DBuffer 0))
  ∧ unmasks_to
      (emitted sample_world
         (send counting_random accepting_socket (DBuffer 0) masked_options None
            sample_world))
      (payload_octets sample_world (DBuffer 0)).
Proof.
  split; [exact accepting_socket_accepts|split; [exact sample_buffer_valid|]].
  split; [reflexivity|split; [exact sample_buffer_octets|]].
  exact (proj1 (C3_masking_roundtrip counting_random accepting_socket
                  accepting_socket_accepts) (DBuffer 0) masked_options None
           sample_world sample_buffer_valid eq_refl (or_introl eq_refl)
           sample_buffer_octets).
Defined.

Lemma C4_close_code_witness :
  (∀ ws b, accepting_socket ws b = None)
  ∧ sample_isValidErrorCode 999 = false
  ∧ sample_isValidErrorCode 1000 = true
  ∧ close sample_isValidErrorCode counting_random accepting_socket (CodeNumber 999)
      None false sample_world = Thrown InvalidCloseCode sample_world
  ∧ ∃ w' fr,
      close sample_isValidErrorCode counting_random accepting_socket (CodeNumber 1000)
        (Some "bye"%string) false sample_world = Returned w'
      ∧ decode_frame (emitted sample_world w') = Some fr
      ∧ f_opcode fr = 8
      ∧ received_payload fr = [0x03; 0xE8] ++ utf8 "bye"
      ∧ reports w' = reports sample_world.
Proof.
  split; [exact accepting_socket_accepts|split; [reflexivity|split; [reflexivity|]]].
  split.
  - apply (proj1 (C4_close_code sample_isValidErrorCode counting_random
                    accepting_socket accepting_socket_accepts)).
    right. exists 999. split; reflexivity.
  - exact (proj2 (C4_close_code sample_isValidErrorCode counting_random
                    accepting_socket accepting_socket_accepts) eq_refl false
             sample_world).
Defined.

(** C5, as the claim states it, fails: close() sends the two octets of the
    code 1000. *)
Lemma C5_counterexample :
  f_payload <$> decode_frame
    (emitted (Sender ∅)
       (world_of (close sample_isValidErrorCode counting_random accepting_socket
                    CodeUndefined None false (Sender ∅))))
  = Some [0x03; 0xE8]
  ∧ f_payload <$> decode_frame
      (emitted (Sender ∅)
         (world_of (close sample_isValidErrorCode counting_random accepting_socket
                      CodeUndefined None false (Sender ∅))))
    ≠ Some [].
Proof. split; [vm_compute; reflexivity|vm_compute; discriminate]. Qed.

Lemma C5_close_default_code_witness :
  (∀ ws b, accepting_socket ws b = None)
  ∧ ∃ w' fr,
      close sample_isValidErrorCode counting_random accepting_socket CodeUndefined
        None true sample_world = Returned w'
      ∧ decode_frame (emitted sample_world w') = Some fr
      ∧ f_opcode fr = 8
      ∧ received_payload fr = [0x03; 0xE8] ++ reason_octets None.
Proof.
  split; [exact accepting_socket_accepts|].
  exact (proj1 (C5_close_default_code sample_isValidErrorCode counting_random
                  accepting_socket accepting_socket_accepts None true sample_world)).
Defined.

(** C6 fails on the code: a send with a callback, compressed; its deflate
    stream reports an error.  The handler throws; the callback is not
    called, no error event is emitted, nothing is written. *)
Lemma C6_deflate_error_is_thrown :
  let w := send counting_random accepting_socket (DString "abc") compress_options
             (Some 7%nat) sample_world in
  step sample_isValidErrorCode counting_random accepting_socket
    (ADeflateError 0 "Z_MEM_ERROR") w
  = Thrown (Error "Z_MEM_ERROR") w
  ∧ reports w = [] ∧ wire w = [].
Proof.
  intros w. split; [|split; reflexivity].
  cbn [step]. unfold deflate_on_error.
  assert (is_Some (jobs w !! 0%nat)) as [job ->]; [|reflexivity].
  vm_compute. eauto.
Qed.

Lemma sample_string_valid : valid_data sample_world (DString "one").
Proof. exact I. Defined.

(** The chunks of stream 0 among the turns of [interleaved] end with the
    trailer; the payload is what comes before it. *)
Lemma C7_deflate_trailer_witness :
  valid_data sample_world (DString "one")
  ∧ opt o_compress compress_options = true
  ∧ falsy (DString "one") = false
  ∧ concat (chunks_of (fresh (dom (jobs sample_world))) interleaved)
    = [1; 1; 1] ++ [0; 0; 255; 255; 3; 0]
  ∧ remove_last 6 (concat (chunks_of (fresh (dom (jobs sample_world))) interleaved))
    = [1; 1; 1].
Proof.
  split; [exact sample_string_valid|split; [reflexivity|split; [reflexivity|]]].
  split; [reflexivity|].
  exact (proj2 (C7_deflate_trailer sample_isValidErrorCode counting_random
                  accepting_socket (DString "one") compress_options None
                  interleaved sample_world sample_string_valid eq_refl eq_refl)
           [1; 1; 1] [0; 0; 255; 255; 3; 0] eq_refl eq_refl).
Defined.

(** C8, as the claim states it, fails for an empty Buffer sent masked: the
    four octets after the header are the encoder's mask, not zeros. *)
Lemma C8_counterexample :
  buf sample_world 1 = []
  ∧ emitted sample_world
      (send counting_random accepting_socket (DBuffer 1) masked_options None
         sample_world)
    = [129; 128; 17; 18; 19; 20]
  ∧ emitted sample_world
      (send counting_random accepting_socket (DBuffer 1) masked_options None
         sample_world)
    ≠ [129; 128; 0; 0; 0; 0].
Proof.
  split; [reflexivity|]. split; [vm_compute; reflexivity|vm_compute; discriminate].
Qed.

Lemma C8_empty_payload_witness :
  (∀ ws b, accepting_socket ws b = None)
  ∧ falsy (DString "") = true
  ∧ wire (send counting_random accepting_socket (DString "") masked_options None
            sample_world)
    = wire sample_world
      ++ [{| wr_call := 0; wr_bytes := [129; 128; 0; 0; 0; 0]; wr_cb := None |}].
Proof.
  split; [exact accepting_socket_accepts|split; [reflexivity|]].
  exact (proj1 (proj1 (C8_empty_payload counting_random accepting_socket
                         accepting_socket_accepts masked_options None sample_world)
                  (DString "") eq_refl)).
Defined.

(** C9, as the claim states it, fails: two compressed sends whose deflate
    streams end in the opposite order are written in the opposite order. *)
Lemma C9_counterexample :
  wire_calls (run sample_isValidErrorCode counting_random accepting_socket overtaking
                sample_world) = [1; 0]%nat
  ∧ ¬ in_call_order (run sample_isValidErrorCode counting_random accepting_socket
                       overtaking sample_world).
Proof.
  assert (wire_calls (run sample_isValidErrorCode counting_random accepting_socket
                        overtaking sample_world) = [1; 0]%nat) as H
    by (vm_compute; reflexivity).
  split; [exact H|]. unfold in_call_order. rewrite H. intros Hs.
  apply Sorted_inv in Hs as [_ Hhd]. apply HdRel_inv in Hhd. lia.
Qed.

Lemma one_at_a_time_prompt :
  prompt_run sample_isValidErrorCode counting_random accepting_socket one_at_a_time
    (Sender ∅).
Proof.
  cbn [prompt_run one_at_a_time]. repeat split.
  all: intros job Hj; vm_compute in Hj; injection Hj as <-; reflexivity.
Defined.

Lemma C9_call_order_witness :
  prompt_run sample_isValidErrorCode counting_random accepting_socket one_at_a_time
    (Sender ∅)
  ∧ in_call_order (run sample_isValidErrorCode counting_random accepting_socket
                     one_at_a_time (Sender ∅)).
Proof.
  split; [exact one_at_a_time_prompt|].
  exact (C9_call_order sample_isValidErrorCode counting_random accepting_socket
           one_at_a_time ∅ one_at_a_time_prompt).
Defined.

Lemma C10_caller_buffer_unchanged_witness :
  heap sample_world !! 0%nat = Some [104; 105]
  ∧ ∀ options cb,
      heap (send counting_random accepting_socket (DBuffer 0) options cb sample_world)
        !! 0%nat = Some [104; 105].
Proof.
  split; [reflexivity|].
  exact (proj1 (C10_caller_buffer_unchanged sample_isValidErrorCode counting_random
                  accepting_socket 0%nat [104; 105] sample_world eq_refl)).
Defined.

(** * Beyond the specification *)

(** ** The integer writers *)

Lemma take_drop_2 (l : list Z) o a c :
  l !! o = Some a → l !! S o = Some c → take 2 (drop o l) = [a; c].
Proof.
  intros Ha Hc. rewrite (drop_S l a o Ha), (drop_S l c (S o) Hc). reflexivity.
Qed.

Lemma take_drop_4 (l : list Z) o a b c d :
  l !! o = Some a → l !! S o = Some b → l !! S (S o) = Some c →
  l !! S (S (S o)) = Some d → take 4 (drop o l) = [a; b; c; d].
Proof.
  intros Ha Hb Hc Hd.
  rewrite (drop_S l a o Ha), (drop_S l b (S o) Hb), (drop_S l c (S (S o)) Hc),
    (drop_S l d (S (S (S o))) Hd).
  reflexivity.
Qed.

(** X1: [writeUInt16BE] stores the two big-endian octets of the value
    modulo 2^16, whatever integer the value is, and changes nothing else
    of the Buffer. *)
Theorem X1_writeUInt16BE_round_trip value offset b :
  (offset + 2 ≤ length b)%nat →
  be_value (take 2 (drop offset (writeUInt16BE value offset b))) = value mod 2 ^ 16
  ∧ octets (take 2 (drop offset (writeUInt16BE value offset b)))
  ∧ length (writeUInt16BE value offset b) = length b
  ∧ ∀ i, i ≠ offset → i ≠ S offset →
      writeUInt16BE value offset b !! i = b !! i.
Proof.
  intros Hlen. unfold writeUInt16BE, buf_set.
  rewrite js_octet0, js_octet1. replace (offset + 1)%nat with (S offset) by lia.
  assert (take 2 (drop offset
            (<[S offset := value mod 256]> (<[offset := (value / 2 ^ 8) mod 256]> b)))
          = [(value / 2 ^ 8) mod 256; value mod 256]) as ->.
  { apply take_drop_2.
    - rewrite list_lookup_insert_ne by lia. apply list_lookup_insert_eq. lia.
    - apply list_lookup_insert_eq. rewrite length_insert. lia. }
  split; [|split; [|split]].
  - cbn [be_value fold_left]. change (2 ^ 16) with (2 ^ 8 * 256).
    rewrite (Z.rem_mul_r value (2 ^ 8) 256) by lia. change (2 ^ 8) with 256. lia.
  - repeat constructor; apply Z.mod_pos_bound; lia.
  - by rewrite !length_insert.
  - intros i H1 H2. by rewrite !list_lookup_insert_ne by lia.
Qed.

(** X2: [writeUInt32BE] stores the four big-endian octets of the value
    modulo 2^32, also for values from 2^31 on, where the bitwise operators
    of the source work on negative numbers, and changes nothing else of
    the Buffer. *)
Theorem X2_writeUInt32BE_round_trip value offset b :
  (offset + 4 ≤ length b)%nat →
  be_value (take 4 (drop offset (writeUInt32BE value offset b))) = value mod 2 ^ 32
  ∧ octets (take 4 (drop offset (writeUInt32BE value offset b)))
  ∧ length (writeUInt32BE value offset b) = length b
  ∧ ∀ i, (i < offset ∨ offset + 4 ≤ i)%nat →
      writeUInt32BE value offset b !! i = b !! i.
Proof.
  intros Hlen. unfold writeUInt32BE, buf_set.
  rewrite js_octet0, js_octet1, js_octet2, js_octet3.
  replace (offset + 1)%nat with (S offset) by lia.
  replace (offset + 2)%nat with (S (S offset)) by lia.
  replace (offset + 3)%nat with (S (S (S offset))) by lia.
  match goal with |- context [take 4 (drop offset ?l)] =>
    assert (take 4 (drop offset l)
            = [(value / 2 ^ 24) mod 256; (value / 2 ^ 16) mod 256;
               (value / 2 ^ 8) mod 256; value mod 256]) as ->
  end.
  { apply take_drop_4.
    - rewrite !list_lookup_insert_ne by lia. apply list_lookup_insert_eq. lia.
    - rewrite !list_lookup_insert_ne by lia. apply list_lookup_insert_eq.
      rewrite !length_insert. lia.
    - rewrite !list_lookup_insert_ne by lia. apply list_lookup_insert_eq.
      rewrite !length_insert. lia.
    - apply list_lookup_insert_eq. rewrite !length_insert. lia. }
  split; [|split; [|split]].
  - cbn [be_value fold_left]. rewrite <- be_octets32. lia.
  - repeat constructor; apply Z.mod_pos_bound; lia.
  - by rewrite !length_insert.
  - intros i Hi. by rewrite !list_lookup_insert_ne by lia.
Qed.

Lemma X1_writeUInt16BE_round_trip_witness :
  (0 + 2 ≤ length [7; 7; 7])%nat
  ∧ be_value (take 2 (drop 0 (writeUInt16BE 70000 0 [7; 7; 7]))) = 70000 mod 2 ^ 16.
Proof.
  assert (0 + 2 ≤ length [7; 7; 7])%nat as H by (cbn; lia).
  split; [exact H|].
  exact (proj1 (X1_writeUInt16BE_round_trip 70000 0 [7; 7; 7] H)).
Defined.

Lemma X2_writeUInt32BE_round_trip_witness :
  (1 + 4 ≤ length [7; 7; 7; 7; 7; 7])%nat
  ∧ be_value (take 4 (drop 1 (writeUInt32BE 4000000000 1 [7; 7; 7; 7; 7; 7])))
    = 4000000000 mod 2 ^ 32.
Proof.
  assert (1 + 4 ≤ length [7; 7; 7; 7; 7; 7])%nat as H by (cbn; lia).
  split; [exact H|].
  exact (proj1 (X2_writeUInt32BE_round_trip 4000000000 1 [7; 7; 7; 7; 7; 7] H)).
Defined.

(** ** ArrayBuffers and their views *)

Lemma getArrayBuffer_from_lookup n : ∀ i array o buffer (k : nat),
  getArrayBuffer_from i n array o buffer !! k =
  if bool_decide (i ≤ k < i + n ∧ k < length buffer)%nat
  then Some (ToUint8 (buf_get array (o + k))) else buffer !! k.
Proof.
  induction n as [|n IH]; intros i array o buffer k; cbn [getArrayBuffer_from].
  - rewrite bool_decide_eq_false_2 by lia. done.
  - rewrite IH. unfold buf_set. rewrite length_insert.
    destruct (decide (k = i)) as [->|Hk].
    + rewrite (bool_decide_eq_false_2 (_ ∧ _)) by lia.
      case_bool_decide as Hb.
      * rewrite list_lookup_insert_eq by lia. done.
      * rewrite list_insert_ge by lia. done.
    + rewrite list_lookup_insert_ne by lia.
      repeat case_bool_decide; try done; lia.
Qed.

Lemma getArrayBuffer_from_view v :
  view_in_range v → octets (ab_buffer v) →
  getArrayBuffer_from 0 (ab_byteLength v) (ab_buffer v) (ab_byteOffset v)
    (replicate (ab_byteLength v) 0)
  = view_octets v.
Proof.
  unfold view_in_range, view_octets. intros Hr Ho. apply list_eq. intros k.
  rewrite getArrayBuffer_from_lookup, length_replicate.
  case_bool_decide as Hk.
  - rewrite lookup_take_lt by lia. rewrite lookup_drop.
    destruct (lookup_lt_is_Some_2 (ab_buffer v) (ab_byteOffset v + k) ltac:(lia))
      as [x Hx].
    unfold buf_get. rewrite Hx. cbn. f_equal. unfold ToUint8.
    apply Z.mod_small. eapply (proj1 (Forall_lookup _ _) Ho); eauto.
  - rewrite !lookup_ge_None_2; [done| |].
    + rewrite length_take, length_drop. lia.
    + rewrite length_replicate. lia.
Qed.

Lemma byteLength_or_length_own v :
  ab_byteLength v ≠ 0%nat ∨ ab_length v = Some 0%nat →
  byteLength_or_length v = Some (ab_byteLength v).
Proof.
  unfold byteLength_or_length. intros [Hn|Hl].
  - by rewrite (proj2 (Nat.eqb_neq _ _) Hn).
  - destruct (Nat.eqb_spec (ab_byteLength v) 0) as [->|]; [exact Hl|done].
Qed.

(** X3: [getArrayBuffer] on a view that lies within its ArrayBuffer.  When
    the view has octets, or is a typed array without elements, the result
    is a Buffer that did not exist before and holds exactly the octets the
    view shows, from byteOffset on and byteLength many; no existing Buffer
    changes, and these are the octets a send of the view frames.  When the
    view has no octets and no length, as an empty ArrayBuffer or DataView
    has, [l] on line 250 is undefined and [getArrayBuffer] throws what
    [new Buffer(undefined)] throws. *)
Theorem X3_getArrayBuffer_copies_view v w :
  view_in_range v →
  octets (ab_buffer v) →
  (ab_byteLength v ≠ 0%nat ∨ ab_length v = Some 0%nat →
     ∃ l w',
       getArrayBuffer v w = inl (l, w')
       ∧ heap w !! l = None
       ∧ heap w' !! l = Some (view_octets v)
       ∧ (∀ l0 x, heap w !! l0 = Some x → heap w' !! l0 = Some x)
       ∧ payload_octets w (DView v) = view_octets v)
  ∧ (ab_byteLength v = 0%nat → ab_length v = None →
     getArrayBuffer v w = inr new_Buffer_undefined).
Proof.
  intros Hr Ho. split.
  - intros Hl. apply byteLength_or_length_own in Hl.
    unfold getArrayBuffer, new_Buffer. cbn [payload_octets]. rewrite Hl.
    cbn [default id]. rewrite getArrayBuffer_from_view by done.
    eexists _, _. split; [reflexivity|]. cbn [heap with_heap].
    split; [apply fresh_not_allocated|]. split; [apply lookup_insert_eq|].
    split; [|reflexivity].
    intros l x Hx. rewrite lookup_insert_ne; [done|]. apply fresh_ne. by rewrite Hx.
  - intros Hb Hl. unfold getArrayBuffer, byteLength_or_length. by rewrite Hb, Hl.
Qed.

Lemma sample_view_in_range : view_in_range sample_view.
Proof. unfold view_in_range. cbn. lia. Defined.

Lemma sample_view_octets : octets (ab_buffer sample_view).
Proof. repeat constructor; discriminate. Defined.

Lemma sample_view_has_octets :
  ab_byteLength sample_view ≠ 0%nat ∨ ab_length sample_view = Some 0%nat.
Proof. left. discriminate. Defined.

Lemma X3_getArrayBuffer_copies_view_witness :
  view_in_range sample_view
  ∧ octets (ab_buffer sample_view)
  ∧ (ab_byteLength sample_view ≠ 0%nat ∨ ab_length sample_view = Some 0%nat)
  ∧ ∃ l w',
      getArrayBuffer sample_view sample_world = inl (l, w')
      ∧ heap sample_world !! l = None
      ∧ heap w' !! l = Some (view_octets sample_view)
      ∧ (∀ l0 x, heap sample_world !! l0 = Some x → heap w' !! l0 = Some x)
      ∧ payload_octets sample_world (DView sample_view) = view_octets sample_view.
Proof.
  split; [exact sample_view_in_range|split; [exact sample_view_octets|]].
  split; [exact sample_view_has_octets|].
  exact (proj1 (X3_getArrayBuffer_copies_view sample_view sample_world
                  sample_view_in_range sample_view_octets) sample_view_has_octets).
Defined.

(** ** Frames read back *)

Lemma masked_octets_length mask d : length (masked_octets mask d) = length d.
Proof. unfold masked_octets. apply length_imap. Qed.

Lemma frame_octets_round_trip opcode finalFragment maskData compress mask d :
  0 <= opcode < 16 → octets d → Z.of_nat (length d) < 2 ^ 32 →
  ∃ fr,
    decode_frame (frame_octets opcode finalFragment maskData compress mask d) = Some fr
    ∧ f_fin fr = finalFragment ∧ f_rsv1 fr = compress ∧ f_opcode fr = opcode
    ∧ f_masked fr = maskData ∧ f_length fr = Z.of_nat (length d)
    ∧ length (f_payload fr) = length d
    ∧ received_payload fr = d.
Proof.
  intros Hop Hd Hlen. eexists. split; [by apply decode_frame_octets|].
  unfold received_payload.
  cbn [f_fin f_rsv1 f_opcode f_masked f_length f_payload f_mask_key].
  rewrite encoded_length_small by lia. repeat split.
  - destruct maskData; [apply masked_octets_length|done].
  - destruct maskData; [by apply unmask_masked_octets|done].
Qed.

Lemma empty_frame_round_trip opcode finalFragment maskData :
  0 <= opcode < 16 →
  ∃ fr,
    decode_frame (empty_frame_octets opcode finalFragment maskData) = Some fr
    ∧ f_fin fr = finalFragment ∧ f_rsv1 fr = false ∧ f_opcode fr = opcode
    ∧ f_masked fr = maskData ∧ f_length fr = 0
    ∧ length (f_payload fr) = 0%nat
    ∧ received_payload fr = [].
Proof.
  intros Hop. eexists. split; [by apply decode_empty_frame|].
  unfold received_payload. cbn. by destruct maskData.
Qed.

Section ReadBack.

Variable isValidErrorCode : Z → bool.
Variable random255 : nat → Z.
Variable socket_throws : list write → list Z → option js_error.
Hypothesis socket_accepts : ∀ ws b, socket_throws ws b = None.

(** X4: the frame of a send that does not go through the deflate stream
    reads back as sent: FIN is the fin option (true when absent), RSV1 is
    clear, the opcode is the one the fragmentation state asks for, MASK is
    the mask option, the length field and the length of the payload region
    are the number of octets of the message, and the payload, unmasked when
    MASK is set, is the message. *)
Theorem X4_send_round_trip data options cb w :
  valid_data w data →
  opt o_compress options = false ∨ falsy data = true →
  octets (payload_octets w data) →
  Z.of_nat (length (payload_octets w data)) < 2 ^ 32 →
  ∃ fr,
    decode_frame (emitted w (send random255 socket_throws data options cb w)) = Some fr
    ∧ f_fin fr = fin_of options
    ∧ f_rsv1 fr = false
    ∧ f_opcode fr = (if firstFragment w then data_opcode options else 0)
    ∧ f_masked fr = opt o_mask options
    ∧ f_length fr = Z.of_nat (length (payload_octets w data))
    ∧ length (f_payload fr) = length (payload_octets w data)
    ∧ received_payload fr = payload_octets w data.
Proof.
  intros Hv Hc Ho Hn.
  rewrite (send_emitted random255 socket_throws socket_accepts) by done.
  destruct (falsy data) eqn:Hf.
  - rewrite falsy_payload by done. apply empty_frame_round_trip, send_opcode_range.
  - apply frame_octets_round_trip; [apply send_opcode_range|done|done].
Qed.

Lemma or_empty_falsy data : falsy (or_empty data) = falsy data.
Proof. unfold or_empty. destruct (falsy data) eqn:Hf; [reflexivity|exact Hf]. Qed.

Lemma or_empty_payload w data : payload_octets w (or_empty data) = payload_octets w data.
Proof.
  unfold or_empty. destruct (falsy data) eqn:Hf; [|done].
  by rewrite (falsy_payload w data Hf).
Qed.

Lemma frameAndSend_plain_jobs call opcode data finalFragment maskData cb w :
  jobs (frameAndSend random255 socket_throws call opcode data finalFragment maskData
          false cb w) = jobs w.
Proof.
  unfold frameAndSend. destruct (falsy data).
  - unfold new_Buffer. cbn [world_of].
    match goal with |- context [try_write _ _ ?b _ ?W] =>
      destruct (try_write_fields socket_throws call b cb W) as (_ & _ & -> & _) end.
    reflexivity.
  - destruct data as [|s|l|v]; unfold getArrayBuffer, new_Buffer; cbv zeta;
      try destruct (byteLength_or_length v); cbn [world_of]; try reflexivity.
    all: match goal with |- context [_frame_and_send _ _ ?c ?op ?f ?m ?z ?k ?cm ?l ?W] =>
           destruct (frame_and_send_fields random255 socket_throws c op f m z k cm l W)
             as (_ & _ & -> & _) end.
    all: reflexivity.
Qed.

Lemma control_frame opcode data mask w w' :
  0 <= opcode < 16 →
  valid_data w data →
  octets (payload_octets w data) →
  wire w' = wire w → heap w' = heap w → _randomMask w' = _randomMask w →
  draws w' = draws w →
  ∃ fr,
    decode_frame
      (emitted w (frameAndSend random255 socket_throws (calls w) opcode (or_empty data)
                    true mask false None w')) = Some fr
    ∧ f_opcode fr = opcode ∧ f_fin fr = true ∧ f_rsv1 fr = false
    ∧ f_masked fr = mask
    ∧ received_payload fr = payload_octets w data.
Proof.
  intros Hop Hv Ho Hw Hh Hm Hd.
  assert (valid_data w' (or_empty data)) as Hv'.
  { unfold or_empty. destruct (falsy data); [done|].
    destruct data; try done. cbn in *. by rewrite Hh. }
  destruct (frameAndSend_emitted random255 socket_throws socket_accepts (calls w) opcode
              (or_empty data) true mask false None w' Hv' (or_introl eq_refl))
    as (He & _).
  rewrite (emitted_same_wire w w') by done. rewrite He.
  rewrite or_empty_falsy, or_empty_payload.
  rewrite (next_mask_eq random255 w w') by done.
  assert (payload_octets w' data = payload_octets w data) as ->.
  { destruct data; try done. cbn. unfold buf. by rewrite Hh. }
  destruct (falsy data) eqn:Hf.
  - rewrite falsy_payload by done.
    destruct (empty_frame_round_trip opcode true mask Hop)
      as (fr & ? & ? & ? & ? & ? & ? & ? & ?).
    exists fr. auto 12.
  - unfold unmasks_to.
    assert (∃ fr, decode_frame (frame_octets opcode true mask false
                                  (next_mask random255 w) (payload_octets w data))
                  = Some fr
                  ∧ f_opcode fr = opcode ∧ f_fin fr = true ∧ f_rsv1 fr = false
                  ∧ f_masked fr = mask
                  ∧ received_payload fr = payload_octets w data) as H; [|exact H].
    eexists. split; [by apply decode_frame_octets|].
    unfold received_payload. cbn [f_fin f_rsv1 f_opcode f_masked f_payload f_mask_key].
    repeat split. destruct mask; [by apply unmask_masked_octets|done].
Qed.

(** X6: a ping is one final frame with opcode 9, a pong one with opcode 10,
    RSV1 clear: control frames are never compressed, not even when the
    options ask for compression, and no deflate stream is started; MASK is
    the mask option and the payload is the data, whatever the
    fragmentation state is. *)
Theorem X6_ping_pong_frames data options w :
  valid_data w data →
  octets (payload_octets w data) →
  (∃ fr,
     decode_frame (emitted w (ping random255 socket_throws data options w)) = Some fr
     ∧ f_opcode fr = 9 ∧ f_fin fr = true ∧ f_rsv1 fr = false
     ∧ f_masked fr = opt o_mask options
     ∧ received_payload fr = payload_octets w data)
  ∧ jobs (ping random255 socket_throws data options w) = jobs w
  ∧ (∃ fr,
       decode_frame (emitted w (pong random255 socket_throws data options w)) = Some fr
       ∧ f_opcode fr = 10 ∧ f_fin fr = true ∧ f_rsv1 fr = false
       ∧ f_masked fr = opt o_mask options
       ∧ received_payload fr = payload_octets w data)
  ∧ jobs (pong random255 socket_throws data options w) = jobs w.
Proof.
  intros Hv Ho. unfold ping, pong, begin_call. split; [|split; [|split]].
  - apply control_frame; first [done | lia].
  - by rewrite frameAndSend_plain_jobs.
  - apply control_frame; first [done | lia].
  - by rewrite frameAndSend_plain_jobs.
Qed.

(** X8: when the deflate stream of a compressed send ends, the frame
    written has RSV1 set and carries the opcode, the fin flag and the mask
    flag of the send; its payload, unmasked when MASK is set, is the
    deflate output without its last 6 octets. *)
Theorem X8_compressed_frame j job w :
  jobs w !! j = Some job →
  0 <= j_opcode job < 16 →
  octets (j_cdata job) →
  Z.of_nat (length (j_cdata job)) < 2 ^ 32 →
  ∃ fr,
    decode_frame (emitted w (deflate_on_end random255 socket_throws j w)) = Some fr
    ∧ f_rsv1 fr = true
    ∧ f_fin fr = j_finalFragment job
    ∧ f_opcode fr = j_opcode job
    ∧ f_masked fr = j_maskData job
    ∧ f_length fr = Z.of_nat (length (remove_last 6 (j_cdata job)))
    ∧ received_payload fr = remove_last 6 (j_cdata job).
Proof.
  intros Hj Hop Ho Hn.
  rewrite (deflate_on_end_emitted random255 socket_throws socket_accepts j job w Hj).
  rewrite Buffer_slice_remove_last.
  assert (octets (remove_last 6 (j_cdata job))) as Ho'.
  { rewrite <- Buffer_slice_remove_last. by apply octets_slice. }
  assert (length (remove_last 6 (j_cdata job)) ≤ length (j_cdata job))%nat as Hle.
  { rewrite <- Buffer_slice_remove_last. unfold Buffer_slice.
    rewrite length_take, length_drop. lia. }
  destruct (frame_octets_round_trip (j_opcode job) (j_finalFragment job)
              (j_maskData job) true (next_mask random255 w)
              (remove_last 6 (j_cdata job)) Hop Ho' ltac:(lia))
    as (fr & ? & ? & ? & ? & ? & ? & ? & ?).
  exists fr. auto 12.
Qed.

End ReadBack.

(** X7: a compressed send of a payload that is not missing or empty writes
    nothing and reports nothing during the call; it leaves exactly one new
    deflate stream, whose input is the octets of the message and which
    keeps the opcode, the fin and mask flags and the callback of the
    call. *)
Theorem X7_compressed_send_defers random255 socket_throws data options cb w :
  valid_data w data →
  opt o_compress options = true →
  falsy data = false →
  let w' := send random255 socket_throws data options cb w in
  wire w' = wire w
  ∧ reports w' = reports w
  ∧ _randomMask w' = _randomMask w
  ∧ jobs w'
    = <[fresh (dom (jobs w)) :=
          {| j_call := calls w;
             j_opcode := if firstFragment w then data_opcode options else 0;
             j_finalFragment := fin_of options;
             j_maskData := opt o_mask options;
             j_cb := cb;
             j_canModifyData := can_modify data;
             j_input := payload_octets w data;
             j_cdata := [] |}]> (jobs w).
Proof.
  intros Hv Hc Hf w'.
  destruct (send_deflate_job random255 socket_throws data options cb w Hv Hc Hf)
    as (_ & Hw & Hr & Hm & _ & Hj).
  auto.
Qed.

(** ** The writes of a frame *)

Lemma header_octets_length opcode finalFragment maskData compress n mask :
  length (header_octets opcode finalFragment maskData compress n mask)
  = header_length n maskData.
Proof.
  unfold header_octets, header_length, extension_octets.
  rewrite length_field_octets.
  destruct (65536 <=? n); [|destruct (125 <? n)]; by destruct maskData.
Qed.

Section Writes.

Variable random255 : nat → Z.
Variable socket_throws : list write → list Z → option js_error.

(** The output buffer holds the header, and the payload region when the
    frame is merged; on the unmerged path the payload buffer holds the
    payload region. *)
Lemma frame_and_send_buffers call opcode finalFragment maskData compress cb
    canModifyData data w d :
  heap w !! data = Some d →
  let o := fresh (dom (heap w)) in
  let merge := mergeBuffers (Z.of_nat (length d)) maskData canModifyData in
  let mask := next_mask random255 w in
  ∃ h',
    _frame_and_send random255 socket_throws call opcode finalFragment maskData
      compress cb canModifyData data w
    = send_buffers socket_throws call merge o data cb
        (with_heap h' (mask_world random255 maskData w))
    ∧ bufat h' o
      = header_octets opcode finalFragment maskData compress (Z.of_nat (length d)) mask
        ++ (if merge then wire_payload maskData mask d else [])
    ∧ (merge = false → bufat h' data = wire_payload maskData mask d).
Proof.
  intros Hd o merge mask. unfold _frame_and_send, new_Buffer, store.
  assert (Hb : buf w data = d) by (apply bufat_lookup, Hd). rewrite !Hb.
  assert (Hfresh := fresh_ne (heap w) data (mk_is_Some _ _ Hd)).
  assert (Hnone := fresh_not_allocated (heap w)).
  fold o in Hfresh, Hnone |- *.
  assert (Hfresh' : data ≠ o) by (intros Heq; by apply Hfresh).
  unfold header_octets, length_field, second_byte, first_byte, wire_payload.
  remember (Z.of_nat (length d)) as n eqn:Hn.
  fold merge. subst mask. clearbody merge o.
  destruct (65536 <=? n) eqn:E1; [|destruct (125 <? n) eqn:E2].
  all: destruct maskData, merge, compress; cbv beta iota zeta.
  all: rewrite ?(proj2 (Z.eqb_neq n 126)), ?(proj2 (Z.eqb_neq n 127)) by lia.
  all: change (127 =? 126) with false; change (127 =? 127) with true;
       change (126 =? 126) with true; cbv beta iota zeta.
  all: repeat first [rewrite buf_new | rewrite update_buf_new
                    | rewrite the_mask_with_heap; cbv beta iota zeta
                    | rewrite buf_old by done ].
  all: rewrite ?bufferUtil_mask_with_heap.
  all: try (erewrite bufferUtil_mask_from_other by (done || exact Hd)).
  all: try (erewrite bufferUtil_mask_from_same
         by (rewrite lookup_insert_ne by done; exact Hd)).
  all: unfold mask_world, send_buffers; eexists; split; [reflexivity|].
  all: rewrite ?(bufat_insert_ne _ data o) by done.
  all: rewrite ?bufat_insert_eq, ?(bufat_insert_ne _ o data) by done.
  all: rewrite ?(bufat_lookup _ _ _ Hd).
  all: split; [|first [discriminate | intros _]].
  all: rewrite ?(Nat.add_comm (length d)).
  all: cbn [Nat.add replicate]; rewrite ?buf_get_set_0.
  all: rewrite ?app_nil_r, ?mask_in_place_all.
  all: try (rewrite mask_into_prefix;
         [| reflexivity
          | unfold writeUInt32BE, writeUInt16BE, buf_set; rewrite ?length_insert;
            cbn [length]; rewrite length_replicate; lia]).
  all: try (rewrite Buffer_copy_prefix;
         [| unfold writeUInt32BE, writeUInt16BE, buf_set; rewrite ?length_insert;
            cbn [length]; rewrite length_replicate; lia]).
  all: reflexivity.
Qed.

End Writes.

Section WritesOfSend.

Variable random255 : nat → Z.
Variable socket_throws : list write → list Z → option js_error.

Lemma report_error_of cb e w :
  report_error cb e w = with_reports (reports w ++ [report_of cb e]) w.
Proof. by destruct cb. Qed.

(** What the socket's answers make of the two ways a frame is written. *)
Lemma send_buffers_accepted call merge o data cb w :
  (∀ ws b, socket_throws ws b = None) →
  send_buffers socket_throws call merge o data cb w
  = with_wire (wire w ++ frame_writes call merge (buf w o)
                           (if merge then [] else buf w data) cb) w.
Proof.
  intros Hs. unfold send_buffers, frame_writes. destruct merge.
  - rewrite (try_write_ok _ Hs). by rewrite app_nil_r.
  - by rewrite (try_write2_ok _ Hs).
Qed.

Lemma send_buffers_refused call merge o data cb w e :
  (∀ b, socket_throws (wire w) b = Some e) →
  send_buffers socket_throws call merge o data cb w = report_error cb e w.
Proof.
  intros Hs. unfold send_buffers, try_write, try_write2, socket_write.
  rewrite !Hs. by destruct merge.
Qed.

Lemma send_buffers_cut call o data cb w e :
  (∀ b, socket_throws (wire w) b = None) →
  (∀ x b, socket_throws (wire w ++ [x]) b = Some e) →
  send_buffers socket_throws call false o data cb w
  = report_error cb e
      (with_wire (wire w ++ [{| wr_call := call; wr_bytes := buf w o; wr_cb := None |}]) w).
Proof.
  intros H1 H2. unfold send_buffers, try_write2, socket_write.
  rewrite H1. cbn [wire with_wire]. by rewrite H2.
Qed.

(** The frame of [frameAndSend] for a payload it does not compress, as it
    stands in the store when the writes begin. *)
Lemma frameAndSend_buffers call opcode data finalFragment maskData cb w :
  valid_data w data →
  falsy data = false →
  let d := payload_octets w data in
  let n := Z.of_nat (length d) in
  let merge := mergeBuffers n maskData (can_modify data) in
  let mask := next_mask random255 w in
  ∃ o l w1,
    frameAndSend random255 socket_throws call opcode data finalFragment maskData
      false cb w
    = Returned (send_buffers socket_throws call merge o l cb w1)
    ∧ wire w1 = wire w ∧ reports w1 = reports w
    ∧ buf w1 o = header_octets opcode finalFragment maskData false n mask
                 ++ (if merge then wire_payload maskData mask d else [])
    ∧ (merge = false → buf w1 l = wire_payload maskData mask d).
Proof.
  intros Hv Hf d n merge mask. unfold frameAndSend. rewrite Hf.
  assert (∀ c canModifyData,
    let '(l0, w0) := new_Buffer c w in
    let merge := mergeBuffers (Z.of_nat (length c)) maskData canModifyData in
    ∃ o l w1,
      _frame_and_send random255 socket_throws call opcode finalFragment maskData
        false cb canModifyData l0 w0
      = send_buffers socket_throws call merge o l cb w1
      ∧ wire w1 = wire w ∧ reports w1 = reports w
      ∧ buf w1 o = header_octets opcode finalFragment maskData false
                     (Z.of_nat (length c)) mask
                   ++ (if merge then wire_payload maskData mask c else [])
      ∧ (merge = false → buf w1 l = wire_payload maskData mask c)) as Hnew.
  { intros c canModifyData. unfold new_Buffer.
    match goal with |- context [_frame_and_send _ _ _ _ _ _ _ _ _ ?l0 ?w0] =>
      destruct (frame_and_send_buffers random255 socket_throws call opcode
                  finalFragment maskData false cb canModifyData l0 w0 c
                  (lookup_insert_eq _ _ _)) as (h' & Heq & Ho & Hl);
      destruct (mask_world_fields random255 maskData w0) as (Mw & _ & _ & _ & _ & Mr)
    end.
    rewrite next_mask_with_heap in Ho, Hl.
    eexists _, _, _. split; [exact Heq|]. cbn [wire reports with_heap].
    rewrite Mw, Mr. exact (conj eq_refl (conj eq_refl (conj Ho Hl))). }
  destruct data as [|s|l|v]; try discriminate; unfold getArrayBuffer; cbv zeta.
  - specialize (Hnew (utf8 s) true). destruct (new_Buffer (utf8 s) w).
    destruct Hnew as (o & l & w1 & -> & H). by eexists _, _, _.
  - destruct Hv as [x Hx].
    destruct (frame_and_send_buffers random255 socket_throws call opcode
                finalFragment maskData false cb false l w x Hx) as (h' & Heq & Ho & Hl).
    destruct (mask_world_fields random255 maskData w) as (Mw & _ & _ & _ & _ & Mr).
    subst d n merge mask. cbn [payload_octets can_modify].
    assert (buf w l = x) as Hb by apply (bufat_lookup _ _ _ Hx). rewrite !Hb.
    eexists _, _, _. split; [by rewrite Heq|]. cbn [wire reports with_heap].
    rewrite Mw, Mr. exact (conj eq_refl (conj eq_refl (conj Ho Hl))).
  - destruct Hv as [k Hk]. subst d n merge mask. cbn [payload_octets can_modify].
    rewrite Hk. cbn [default].
    match goal with |- context [new_Buffer ?c w] =>
      specialize (Hnew c true); destruct (new_Buffer c w) end.
    destruct Hnew as (o & l & w1 & -> & H). by eexists _, _, _.
Qed.

(** X5: on a socket that accepts, a send that is not compressed writes
    its frame in one piece when the payload is shorter than 32768 octets,
    or is masked and a Buffer of the caller; otherwise it writes the
    header and then the payload region.  The callback goes to the socket
    with the last write only, and the header has 2 octets, plus 2 or 8 of
    extended length, plus 4 of mask. *)
Theorem X5_writes_of_a_send data options cb w :
  (∀ ws b, socket_throws ws b = None) →
  valid_data w data →
  opt o_compress options = false →
  falsy data = false →
  let d := payload_octets w data in
  let n := Z.of_nat (length d) in
  let mask := next_mask random255 w in
  let header := header_octets (if firstFragment w then data_opcode options else 0)
                  (fin_of options) (opt o_mask options) false n mask in
  wire (send random255 socket_throws data options cb w)
  = wire w ++ frame_writes (calls w) (mergeBuffers n (opt o_mask options) (can_modify data))
                header (wire_payload (opt o_mask options) mask d) cb
  ∧ length header = header_length n (opt o_mask options).
Proof.
  intros Hs Hv Hc Hf d n mask header. split; [|apply header_octets_length].
  rewrite send_frameAndSend, Hc.
  match goal with |- context [frameAndSend _ _ ?c ?op _ ?f ?m _ _ ?W] =>
    destruct (frameAndSend_buffers c op data f m cb W Hv Hf)
      as (o & l & w1 & -> & Hw & _ & Ho & Hl)
  end.
  change (payload_octets (with_firstFragment _ (with_calls _ w)) data)
    with (payload_octets w data) in *.
  cbn [world_of].
  rewrite (send_buffers_accepted _ _ _ _ _ _ Hs). cbn [wire with_wire].
  rewrite Hw. cbn [wire with_firstFragment with_calls]. f_equal.
  rewrite (next_mask_eq random255 w) in Ho, Hl by reflexivity.
  fold d n mask in Ho, Hl |- *. fold header in Ho. unfold frame_writes.
  destruct (mergeBuffers n (opt o_mask options) (can_modify data)) eqn:Hm.
  - by rewrite Ho, app_nil_r.
  - by rewrite Ho, Hl, app_nil_r.
Qed.

(** X9: when the socket throws at the write of a frame, the send writes
    nothing and reports the error exactly once, to the callback of the
    call when there is one and as an error event of the encoder otherwise;
    the fragmentation state has moved on all the same. *)
Theorem X9_refused_write data options cb w e :
  (∀ b, socket_throws (wire w) b = Some e) →
  valid_data w data →
  opt o_compress options = false ∨ falsy data = true →
  let w' := send random255 socket_throws data options cb w in
  wire w' = wire w
  ∧ reports w' = reports w ++ [report_of cb e]
  ∧ firstFragment w' = fin_of options.
Proof.
  intros Hs Hv Hc w'. subst w'. split; [|split].
  3:{ rewrite send_frameAndSend.
      match goal with |- context [frameAndSend _ _ ?c ?o ?d ?f ?m ?z ?k ?W] =>
        destruct (frameAndSend_fields random255 socket_throws c o d f m z k W)
          as (_ & _ & Hf & _); rewrite Hf end.
      reflexivity. }
  all: rewrite send_frameAndSend; unfold frameAndSend.
  all: destruct (falsy data) eqn:Hf.
  all: try (destruct Hc as [Hc|Hc]; [rewrite Hc|discriminate]).
  all: try (unfold new_Buffer, try_write, socket_write;
            cbn [world_of wire with_heap with_firstFragment with_calls];
            rewrite Hs; by destruct cb).
  all: destruct data as [|s|l|v]; unfold getArrayBuffer, new_Buffer; cbv zeta;
         cbn [valid_data] in Hv;
         try match goal with H : is_Some (byteLength_or_length _) |- _ =>
               destruct H as [k Hk]; rewrite Hk end;
         cbn [world_of].
  all: match goal with |- context [_frame_and_send _ _ ?c ?op ?f ?m ?z ?k ?cm ?l ?W] =>
         destruct (frame_and_send_shape random255 socket_throws c op f m z k cm l W)
           as (w1 & merge & o & -> & Hw & _ & _ & _ & Hr)
       end.
  all: rewrite send_buffers_refused with (e := e) by (intros b; rewrite Hw; apply Hs).
  all: rewrite report_error_of; cbn [wire reports with_reports]; by rewrite ?Hw, ?Hr.
Qed.

(** X10: on the unmerged path the header and the payload are two writes
    in one [try] block: when the socket accepts the first and throws at
    the second, the header stays written without its payload, and the
    error is reported once. *)
Theorem X10_header_without_payload data options cb w e :
  (∀ b, socket_throws (wire w) b = None) →
  (∀ x b, socket_throws (wire w ++ [x]) b = Some e) →
  valid_data w data →
  opt o_compress options = false →
  falsy data = false →
  mergeBuffers (Z.of_nat (length (payload_octets w data))) (opt o_mask options)
    (can_modify data) = false →
  let w' := send random255 socket_throws data options cb w in
  wire w'
  = wire w ++ [{| wr_call := calls w;
                  wr_bytes := header_octets
                                (if firstFragment w then data_opcode options else 0)
                                (fin_of options) (opt o_mask options) false
                                (Z.of_nat (length (payload_octets w data)))
                                (next_mask random255 w);
                  wr_cb := None |}]
  ∧ reports w' = reports w ++ [report_of cb e].
Proof.
  intros H1 H2 Hv Hc Hf Hm w'. subst w'. rewrite send_frameAndSend, Hc.
  match goal with |- context [frameAndSend _ _ ?c ?op _ ?f ?m _ _ ?W] =>
    destruct (frameAndSend_buffers c op data f m cb W Hv Hf)
      as (o & l & w1 & -> & Hw & Hr & Ho & _)
  end.
  cbn [payload_octets] in Ho. cbn [world_of].
  change (payload_octets (with_firstFragment _ (with_calls _ w)) data)
    with (payload_octets w data) in *.
  rewrite Hm in *. rewrite app_nil_r in Ho.
  rewrite (next_mask_eq random255 w) in Ho by reflexivity.
  cbn [wire with_firstFragment with_calls] in Hw.
  rewrite send_buffers_cut with (e := e);
    [|intros b; rewrite Hw; apply H1|intros x b; rewrite Hw; apply H2].
  rewrite report_error_of. cbn [wire reports with_reports with_wire].
  by rewrite Hw, Hr, Ho.
Qed.

End WritesOfSend.

(** ** The mask and the fragmentation flag over many turns *)

Section Mask.

Variable isValidErrorCode : Z → bool.
Variable random255 : nat → Z.
Variable socket_throws : list write → list Z → option js_error.

Local Abbreviation step := (step isValidErrorCode random255 socket_throws).
Local Abbreviation run := (run isValidErrorCode random255 socket_throws).

Lemma send_buffers_mask call merge o data cb w :
  _randomMask (send_buffers socket_throws call merge o data cb w) = _randomMask w
  ∧ draws (send_buffers socket_throws call merge o data cb w) = draws w.
Proof.
  unfold send_buffers, try_write, try_write2, socket_write, report_error.
  repeat case_match; simplify_eq; done.
Qed.

(** Only a masked frame touches the mask: it leaves the mask it used in
    the cache, after four draws when the cache was empty. *)
Lemma frame_and_send_mask call opcode finalFragment maskData compress cb
    canModifyData data w :
  let w' := _frame_and_send random255 socket_throws call opcode finalFragment
              maskData compress cb canModifyData data w in
  _randomMask w' = (if maskData then Some (next_mask random255 w) else _randomMask w)
  ∧ draws w' = (if maskData
                then match _randomMask w with
                     | Some _ => draws w
                     | None => (draws w + 4)%nat
                     end
                else draws w).
Proof.
  assert (∃ w1 merge o,
    _frame_and_send random255 socket_throws call opcode finalFragment maskData
      compress cb canModifyData data w
    = send_buffers socket_throws call merge o data cb w1
    ∧ _randomMask w1
      = (if maskData then Some (next_mask random255 w) else _randomMask w)
    ∧ draws w1 = (if maskData
                  then match _randomMask w with
                       | Some _ => draws w
                       | None => (draws w + 4)%nat
                       end
                  else draws w)) as (w1 & merge & o & -> & <- & <-);
    [|apply send_buffers_mask].
  unfold _frame_and_send, new_Buffer, store.
  remember (Z.of_nat (length (buf w data))) as n eqn:Hn.
  remember (mergeBuffers n maskData canModifyData) as merge eqn:Hm.
  destruct (65536 <=? n) eqn:E1; [|destruct (125 <? n) eqn:E2].
  all: destruct maskData, merge, compress; cbv beta iota zeta.
  all: rewrite ?(proj2 (Z.eqb_neq n 126)), ?(proj2 (Z.eqb_neq n 127)) by lia.
  all: change (127 =? 126) with false; change (127 =? 127) with true;
       change (126 =? 126) with true; cbv beta iota zeta.
  all: unfold the_mask, getRandomMask.
  all: try match goal with
       | |- context [match _randomMask ?X with _ => _ end] =>
           change (_randomMask X) with (_randomMask w)
       end.
  all: unfold next_mask, the_mask, getRandomMask.
  all: destruct (_randomMask w) eqn:Hrm; cbv beta iota zeta; unfold send_buffers.
  all: first [ eexists _, true, _; split; [reflexivity|done]
             | eexists _, false, _; split; [reflexivity|done] ].
Qed.

Lemma frameAndSend_mask_cached call opcode data finalFragment maskData compress cb w m :
  _randomMask w = Some m →
  _randomMask (frameAndSend random255 socket_throws call opcode data finalFragment
                 maskData compress cb w) = Some m
  ∧ draws (frameAndSend random255 socket_throws call opcode data finalFragment
             maskData compress cb w) = draws w.
Proof.
  intros Hm. unfold frameAndSend. destruct (falsy data).
  - unfold new_Buffer, try_write, socket_write, report_error. cbn [world_of].
    repeat case_match; simplify_eq; done.
  - assert (∀ cm l w1, _randomMask w1 = Some m → draws w1 = draws w →
      let w' := if compress then
                  deflate_start call opcode finalFragment maskData cb cm l w1
                else _frame_and_send random255 socket_throws call opcode finalFragment
                       maskData compress cb cm l w1 in
      _randomMask w' = Some m ∧ draws w' = draws w) as Hgen.
    { intros cm l w1 H1 H2. destruct compress; [done|]. cbv zeta.
      destruct (frame_and_send_mask call opcode finalFragment maskData false cb cm l w1)
        as (-> & ->).
      unfold next_mask, the_mask. rewrite H1, H2. by destruct maskData. }
    destruct data as [|s|l|v]; unfold getArrayBuffer, new_Buffer; cbv zeta;
      try destruct (byteLength_or_length v); cbn [world_of]; try by apply Hgen.
    done.
Qed.

Lemma step_mask_cached a w m :
  _randomMask w = Some m →
  _randomMask (world_of (step a w)) = Some m ∧ draws (world_of (step a w)) = draws w.
Proof.
  intros Hm. destruct a as [d o cb|d o|d o|c d mk|j chunk|j|j err]; cbn [step world_of].
  - rewrite send_frameAndSend.
    match goal with |- context [frameAndSend _ _ ?c ?op ?dd ?f ?mk ?z ?k ?W] =>
      exact (frameAndSend_mask_cached c op dd f mk z k W m Hm) end.
  - unfold ping, begin_call.
    match goal with |- context [frameAndSend _ _ ?c ?op ?dd ?f ?mk ?z ?k ?W] =>
      exact (frameAndSend_mask_cached c op dd f mk z k W m Hm) end.
  - unfold pong, begin_call.
    match goal with |- context [frameAndSend _ _ ?c ?op ?dd ?f ?mk ?z ?k ?W] =>
      exact (frameAndSend_mask_cached c op dd f mk z k W m Hm) end.
  - destruct (close_cases isValidErrorCode c) as [Hc|Hc].
    + by rewrite close_invalid.
    + destruct (close_valid isValidErrorCode random255 socket_throws c d mk w Hc)
        as (w1 & -> & _ & _ & _ & _ & _ & Hm1 & Hd1 & _). cbn [world_of].
      rewrite <- Hd1. apply frameAndSend_mask_cached. by rewrite Hm1.
  - unfold deflate_on_data. by destruct (jobs w !! j).
  - unfold deflate_on_end. destruct (jobs w !! j) as [job|]; [|done].
    unfold new_Buffer.
    match goal with |- context [_frame_and_send _ _ ?c ?op ?f ?mk ?z ?k ?cm ?l ?W] =>
      destruct (frame_and_send_mask c op f mk z k cm l W) as (-> & ->)
    end.
    unfold next_mask, the_mask. cbn [_randomMask draws with_heap]. rewrite Hm.
    by destruct (j_maskData job).
  - unfold deflate_on_error. by destruct (jobs w !! j).
Qed.

(** X11: once the encoder has a mask it keeps it: after any sequence of
    operations and deflate events the cached mask is the same, no further
    random number has been drawn, and the next masked frame uses that
    mask again. *)
Theorem X11_mask_is_reused acts w m :
  _randomMask w = Some m →
  _randomMask (run acts w) = Some m
  ∧ draws (run acts w) = draws w
  ∧ next_mask random255 (run acts w) = m.
Proof.
  revert w. induction acts as [|a acts IH]; intros w Hm.
  - cbn [run]. repeat split; try done. unfold next_mask, the_mask. by rewrite Hm.
  - cbn [run]. destruct (step_mask_cached a w m Hm) as (Hm' & Hd').
    destruct (IH _ Hm') as (? & ? & ?). repeat split; try done. congruence.
Qed.

(** What one [frameAndSend] does to the mask: a frame it builds leaves
    [mask_world]; the fast path, a deflate stream it starts and a throw
    leave the mask alone. *)
Lemma frameAndSend_mask_world call opcode data finalFragment maskData cb w :
  valid_data w data →
  falsy data = false →
  let w' := frameAndSend random255 socket_throws call opcode data finalFragment
              maskData false cb w in
  _randomMask w' = _randomMask (mask_world random255 maskData w)
  ∧ draws w' = draws (mask_world random255 maskData w).
Proof.
  intros Hv Hf. unfold frameAndSend. rewrite Hf.
  assert (∀ cm l w1, _randomMask w1 = _randomMask w → draws w1 = draws w →
    let w' := _frame_and_send random255 socket_throws call opcode finalFragment
                maskData false cb cm l w1 in
    _randomMask w' = _randomMask (mask_world random255 maskData w)
    ∧ draws w' = draws (mask_world random255 maskData w)) as Hgen.
  { intros cm l w1 H1 H2. cbv zeta.
    destruct (frame_and_send_mask call opcode finalFragment maskData false cb cm l w1)
      as (-> & ->).
    unfold mask_world, next_mask, the_mask, getRandomMask. rewrite H1, H2.
    destruct maskData, (_randomMask w) eqn:E; cbn [fst snd]; by rewrite ?E. }
  destruct data as [|s|l|v]; try discriminate; unfold getArrayBuffer, new_Buffer;
    cbv zeta; cbn [valid_data] in Hv;
    try match goal with H : is_Some (byteLength_or_length _) |- _ =>
          destruct H as [k Hk]; rewrite Hk end;
    cbn [world_of]; by apply Hgen.
Qed.

Lemma frameAndSend_mask_kept call opcode data finalFragment maskData compress cb w :
  maskData = false ∨ falsy data = true ∨ compress = true →
  let w' := frameAndSend random255 socket_throws call opcode data finalFragment
              maskData compress cb w in
  _randomMask w' = _randomMask w ∧ draws w' = draws w.
Proof.
  intros Hcase. unfold frameAndSend. destruct (falsy data) eqn:Hf.
  - unfold new_Buffer, try_write, socket_write, report_error. cbn [world_of].
    repeat case_match; simplify_eq; done.
  - assert (∀ cm l w1, _randomMask w1 = _randomMask w → draws w1 = draws w →
      let w' := if compress then
                  deflate_start call opcode finalFragment maskData cb cm l w1
                else _frame_and_send random255 socket_throws call opcode finalFragment
                       maskData compress cb cm l w1 in
      _randomMask w' = _randomMask w ∧ draws w' = draws w) as Hgen.
    { intros cm l w1 H1 H2. destruct compress; [done|].
      destruct Hcase as [->|[?|?]]; try discriminate. cbv zeta.
      by destruct (frame_and_send_mask call opcode finalFragment false false cb cm l w1)
        as (-> & ->). }
    destruct data as [|s|l|v]; unfold getArrayBuffer, new_Buffer; cbv zeta;
      try destruct (byteLength_or_length v); cbn [world_of]; try by apply Hgen.
    done.
Qed.

Lemma key_octets_new_mask w :
  _randomMask w = None → key_octets (next_mask random255 w) = next_mask random255 w.
Proof.
  intros Hn. unfold next_mask, the_mask, getRandomMask. rewrite Hn. cbn [fst map].
  unfold key_octets, buf_get. cbn [fmap list_fmap lookup list_lookup default id].
  unfold ToUint8. by rewrite !Z.mod_mod.
Qed.

(** X12: on an encoder that has no mask yet, an uncompressed masked send
    of a payload that is not missing and not the empty string (an empty
    Buffer is such a payload) draws exactly four random numbers; their
    octets become the cached mask, and they are the masking key of the
    frame written.  A send that is not masked, or whose payload is missing
    or the empty string, or that is compressed, draws nothing during the
    call and leaves the cache as it is. *)
Theorem X12_first_mask data options cb w :
  let w' := send random255 socket_throws data options cb w in
  (valid_data w data → _randomMask w = None → opt o_mask options = true →
   opt o_compress options = false → falsy data = false →
     _randomMask w' = Some (next_mask random255 w)
     ∧ next_mask random255 w
       = ToUint8 <$> [random255 (draws w); random255 (draws w + 1)%nat;
                      random255 (draws w + 2)%nat; random255 (draws w + 3)%nat]
     ∧ draws w' = (draws w + 4)%nat
     ∧ ((∀ ws b, socket_throws ws b = None) →
        f_mask_key <$> decode_frame (emitted w w') = Some (next_mask random255 w)))
  ∧ (opt o_mask options = false ∨ falsy data = true ∨ opt o_compress options = true →
     _randomMask w' = _randomMask w ∧ draws w' = draws w).
Proof.
  intros w'. split.
  - intros Hv Hnone Hm Hc Hf.
    assert (_randomMask (mask_world random255 true w) = Some (next_mask random255 w)
            ∧ next_mask random255 w
              = ToUint8 <$> [random255 (draws w); random255 (draws w + 1)%nat;
                             random255 (draws w + 2)%nat; random255 (draws w + 3)%nat]
            ∧ draws (mask_world random255 true w) = (draws w + 4)%nat)
      as (Hmw & Hnm & Hdw).
    { unfold mask_world, next_mask, the_mask, getRandomMask. by rewrite Hnone. }
    assert (_randomMask w' = Some (next_mask random255 w)
            ∧ draws w' = (draws w + 4)%nat) as (Hm' & Hd').
    { subst w'. rewrite send_frameAndSend, Hc, Hm.
      match goal with |- context [frameAndSend _ _ ?c ?op _ ?f _ _ _ ?W] =>
        destruct (frameAndSend_mask_world c op data f true cb W Hv Hf) as (-> & ->) end.
      unfold mask_world, the_mask, getRandomMask in Hmw, Hdw |- *.
      cbn [_randomMask draws with_firstFragment with_calls].
      rewrite Hnone in Hmw, Hdw |- *. by rewrite <- Hmw, <- Hdw. }
    split; [exact Hm'|split; [exact Hnm|split; [exact Hd'|]]].
    intros Hs. subst w'.
    rewrite (send_emitted random255 socket_throws Hs) by auto.
    rewrite Hf, Hm, decode_frame_octets by apply send_opcode_range.
    cbn [fmap option_fmap option_map f_mask_key]. by rewrite key_octets_new_mask.
  - intros Hcase. subst w'. rewrite send_frameAndSend.
    match goal with |- context [frameAndSend _ _ ?c ?op _ ?f ?m ?z _ ?W] =>
      exact (frameAndSend_mask_kept c op data f m z cb W Hcase) end.
Qed.

End Mask.

Section Fragments.

Variable isValidErrorCode : Z → bool.
Variable random255 : nat → Z.
Variable socket_throws : list write → list Z → option js_error.

Local Abbreviation step := (step isValidErrorCode random255 socket_throws).
Local Abbreviation run := (run isValidErrorCode random255 socket_throws).
Local Abbreviation frames_of_run :=
  (frames_of_run isValidErrorCode random255 socket_throws).

Lemma step_firstFragment a w :
  firstFragment (world_of (step a w)) = fin_after a (firstFragment w).
Proof.
  destruct a as [d o cb|d o|d o|c d m|j chunk|j|j err]; cbn [step world_of fin_after].
  - rewrite send_frameAndSend.
    match goal with |- context [frameAndSend _ _ ?c ?op ?dd ?f ?mk ?z ?k ?W] =>
      destruct (frameAndSend_fields random255 socket_throws c op dd f mk z k W)
        as (_ & _ & -> & _) end.
    reflexivity.
  - apply (ping_firstFragment random255 socket_throws true).
  - apply (pong_firstFragment random255 socket_throws true).
  - apply (close_firstFragment isValidErrorCode random255 socket_throws true).
  - unfold deflate_on_data. by destruct (jobs w !! j).
  - unfold deflate_on_end. destruct (jobs w !! j) as [job|]; [|done].
    unfold new_Buffer.
    match goal with |- context [_frame_and_send _ _ ?c ?op ?f ?mk ?z ?k ?cm ?l ?W] =>
      destruct (frame_and_send_fields random255 socket_throws c op f mk z k cm l W)
        as (_ & _ & _ & ->) end.
    reflexivity.
  - unfold deflate_on_error. by destruct (jobs w !! j).
Qed.

Lemma run_firstFragment acts : ∀ w,
  firstFragment (run acts w) = last_fin acts (firstFragment w).
Proof.
  unfold last_fin. induction acts as [|a acts IH]; intros w; [done|].
  cbn [run fold_left]. rewrite IH. by rewrite step_firstFragment.
Qed.

(** X14: after any sequence of operations and deflate events,
    firstFragment is the fin flag of the last send of the sequence, and
    the value it had before when there was no send: pings, pongs, closes,
    also those that throw, and the frames of compressed sends written
    later do not disturb it. *)
Theorem X14_fragmentation_flag_over_runs acts w :
  firstFragment (run acts w) = last_fin acts (firstFragment w).
Proof. apply run_firstFragment. Qed.

Lemma valid_actions_step a acts w :
  valid_action a w → valid_actions acts w → valid_actions acts (world_of (step a w)).
Proof.
  intros Ha Hacts. unfold valid_actions in *.
  eapply Forall_impl; [exact Hacts|]. intros a' Ha'.
  assert (∀ d, valid_data w d → valid_data (world_of (step a w)) d) as Hd.
  { intros [|s|l|v]; try done. intros [x Hx]. exists x.
    by apply (step_heap isValidErrorCode random255 socket_throws). }
  destruct a'; try done; by apply Hd.
Qed.

Hypothesis socket_accepts : ∀ ws b, socket_throws ws b = None.

Lemma send_decoded data options cb w :
  valid_data w data →
  opt o_compress options = false ∨ falsy data = true →
  ∃ fr,
    decode_frame (emitted w (send random255 socket_throws data options cb w)) = Some fr
    ∧ f_opcode fr = (if firstFragment w then data_opcode options else 0)
    ∧ f_fin fr = fin_of options.
Proof.
  intros Hv Hc.
  rewrite (send_emitted random255 socket_throws socket_accepts) by done.
  destruct (falsy data).
  - eexists. split; [apply decode_empty_frame, send_opcode_range|done].
  - eexists. split; [apply decode_frame_octets, send_opcode_range|done].
Qed.

Lemma fragments_decoded binary mask pieces last : ∀ w,
  valid_actions (fragmented binary mask pieces last) w →
  (fun F => f_opcode <$> decode_frame F)
    <$> frames_of_run (fragmented binary mask pieces last) w
  = Some (if firstFragment w then (if binary then 2 else 1) else 0)
    :: replicate (length pieces) (Some 0)
  ∧ (fun F => f_fin <$> decode_frame F)
      <$> frames_of_run (fragmented binary mask pieces last) w
    = replicate (length pieces) (Some false) ++ [Some true].
Proof.
  unfold fragmented.
  induction pieces as [|d pieces IH]; intros w Hv;
    cbn [fmap list_fmap app frames_of_run length replicate step world_of].
  - apply Forall_cons in Hv as [Hv _]. cbn in Hv.
    destruct (send_decoded last (fragment_options binary mask true) None w Hv
                (or_introl eq_refl)) as (fr & -> & Hop & Hfin).
    cbn. by rewrite Hop, Hfin.
  - apply Forall_cons in Hv as [Hd Hv]. cbn in Hd.
    destruct (send_decoded d (fragment_options binary mask false) None w Hd
                (or_introl eq_refl)) as (fr & -> & Hop & Hfin).
    pose proof (valid_actions_step (ASend d (fragment_options binary mask false) None)
                  _ w Hd Hv) as Hv'.
    cbn [step world_of] in Hv'.
    destruct (IH _ Hv') as (IHop & IHfin).
    pose proof (step_firstFragment
                  (ASend d (fragment_options binary mask false) None) w) as Hff.
    cbn [step world_of fin_after] in Hff. rewrite Hff in IHop.
    cbn [fmap list_fmap app] in IHop, IHfin.
    split.
    + cbn [fmap option_fmap option_map]. rewrite Hop. f_equal. exact IHop.
    + cbn [fmap option_fmap option_map]. rewrite Hfin. f_equal. exact IHfin.
Qed.

(** X13: a message sent as fragments, every send but the last with
    fin false and the last with fin true, starting when no message is
    under way, goes out as one frame per send: the first carries the data
    opcode (1 for text, 2 for binary), all the others the continuation
    opcode 0; FIN is set on the last frame only; and firstFragment is true
    again afterwards. *)
Theorem X13_fragmented_message binary mask pieces last w :
  firstFragment w = true →
  valid_actions (fragmented binary mask pieces last) w →
  (fun F => f_opcode <$> decode_frame F)
    <$> frames_of_run (fragmented binary mask pieces last) w
  = Some (if binary then 2 else 1) :: replicate (length pieces) (Some 0)
  ∧ (fun F => f_fin <$> decode_frame F)
      <$> frames_of_run (fragmented binary mask pieces last) w
    = replicate (length pieces) (Some false) ++ [Some true]
  ∧ firstFragment (run (fragmented binary mask pieces last) w) = true.
Proof.
  intros Hf Hv. destruct (fragments_decoded binary mask pieces last w Hv) as (Hop & Hfin).
  rewrite Hf in Hop. split; [exact Hop|split; [exact Hfin|]].
  rewrite run_firstFragment. unfold last_fin, fragmented.
  rewrite fold_left_app. reflexivity.
Qed.

End Fragments.

(** ** The extras at concrete inputs *)

Lemma masked_options_plain :
  opt o_compress masked_options = false ∨ falsy (DBuffer 0) = true.
Proof. left. reflexivity. Defined.

Lemma sample_buffer_short :
  Z.of_nat (length (payload_octets sample_world (DBuffer 0))) < 2 ^ 32.
Proof. reflexivity. Defined.

Lemma X4_send_round_trip_witness :
  (∀ ws b, accepting_socket ws b = None)
  ∧ valid_data sample_world (DBuffer 0)
  ∧ (opt o_compress masked_options = false ∨ falsy (DBuffer 0) = true)
  ∧ octets (payload_octets sample_world (DBuffer 0))
  ∧ Z.of_nat (length (payload_octets sample_world (DBuffer 0))) < 2 ^ 32
  ∧ ∃ fr,
      decode_frame
        (emitted sample_world
           (send counting_random accepting_socket (DBuffer 0) masked_options None
              sample_world)) = Some fr
      ∧ f_fin fr = fin_of masked_options
      ∧ f_rsv1 fr = false
      ∧ f_opcode fr = (if firstFragment sample_world
                       then data_opcode masked_options else 0)
      ∧ f_masked fr = opt o_mask masked_options
      ∧ f_length fr = Z.of_nat (length (payload_octets sample_world (DBuffer 0)))
      ∧ length (f_payload fr) = length (payload_octets sample_world (DBuffer 0))
      ∧ received_payload fr = payload_octets sample_world (DBuffer 0).
Proof.
  split; [exact accepting_socket_accepts|split; [exact sample_buffer_valid|]].
  split; [exact masked_options_plain|split; [exact sample_buffer_octets|]].
  split; [exact sample_buffer_short|].
  exact (X4_send_round_trip counting_random accepting_socket accepting_socket_accepts
           (DBuffer 0) masked_options None sample_world sample_buffer_valid
           masked_options_plain sample_buffer_octets sample_buffer_short).
Defined.

Lemma X5_writes_of_a_send_witness :
  (∀ ws b, accepting_socket ws b = None)
  ∧ valid_data sample_world (DBuffer 0)
  ∧ opt o_compress masked_options = false
  ∧ falsy (DBuffer 0) = false
  ∧ wire (send counting_random accepting_socket (DBuffer 0) masked_options None
            sample_world)
    = wire sample_world
      ++ frame_writes (calls sample_world)
           (mergeBuffers (Z.of_nat (length (payload_octets sample_world (DBuffer 0))))
              (opt o_mask masked_options) (can_modify (DBuffer 0)))
           (header_octets
              (if firstFragment sample_world then data_opcode masked_options else 0)
              (fin_of masked_options) (opt o_mask masked_options) false
              (Z.of_nat (length (payload_octets sample_world (DBuffer 0))))
              (next_mask counting_random sample_world))
           (wire_payload (opt o_mask masked_options)
              (next_mask counting_random sample_world)
              (payload_octets sample_world (DBuffer 0)))
           None.
Proof.
  split; [exact accepting_socket_accepts|split; [exact sample_buffer_valid|]].
  split; [reflexivity|split; [reflexivity|]].
  exact (proj1 (X5_writes_of_a_send counting_random accepting_socket (DBuffer 0)
                  masked_options None sample_world accepting_socket_accepts
                  sample_buffer_valid eq_refl eq_refl)).
Defined.

Lemma X6_ping_pong_frames_witness :
  (∀ ws b, accepting_socket ws b = None)
  ∧ valid_data sample_world (DBuffer 0)
  ∧ octets (payload_octets sample_world (DBuffer 0))
  ∧ (∃ fr,
       decode_frame
         (emitted sample_world
            (ping counting_random accepting_socket (DBuffer 0) masked_options
               sample_world)) = Some fr
       ∧ f_opcode fr = 9 ∧ f_fin fr = true ∧ f_rsv1 fr = false
       ∧ f_masked fr = opt o_mask masked_options
       ∧ received_payload fr = payload_octets sample_world (DBuffer 0)).
Proof.
  split; [exact accepting_socket_accepts|split; [exact sample_buffer_valid|]].
  split; [exact sample_buffer_octets|].
  exact (proj1 (X6_ping_pong_frames counting_random accepting_socket
                  accepting_socket_accepts (DBuffer 0) masked_options sample_world
                  sample_buffer_valid sample_buffer_octets)).
Defined.

Lemma X7_compressed_send_defers_witness :
  valid_data sample_world (DString "one")
  ∧ opt o_compress compress_options = true
  ∧ falsy (DString "one") = false
  ∧ wire (send counting_random accepting_socket (DString "one") compress_options None
            sample_world)
    = wire sample_world.
Proof.
  split; [exact sample_string_valid|split; [reflexivity|split; [reflexivity|]]].
  exact (proj1 (X7_compressed_send_defers counting_random accepting_socket
                  (DString "one") compress_options None sample_world
                  sample_string_valid eq_refl eq_refl)).
Defined.

Lemma deflating_job_registered : jobs deflating_world !! 0%nat = Some deflating_job.
Proof. vm_compute. reflexivity. Defined.

Lemma deflating_job_opcode : 0 <= j_opcode deflating_job < 16.
Proof. cbn. lia. Defined.

Lemma deflating_job_octets : octets (j_cdata deflating_job).
Proof. repeat constructor; discriminate. Defined.

Lemma deflating_job_short : Z.of_nat (length (j_cdata deflating_job)) < 2 ^ 32.
Proof. reflexivity. Defined.

Lemma X8_compressed_frame_witness :
  (∀ ws b, accepting_socket ws b = None)
  ∧ jobs deflating_world !! 0%nat = Some deflating_job
  ∧ 0 <= j_opcode deflating_job < 16
  ∧ octets (j_cdata deflating_job)
  ∧ Z.of_nat (length (j_cdata deflating_job)) < 2 ^ 32
  ∧ ∃ fr,
      decode_frame
        (emitted deflating_world
           (deflate_on_end counting_random accepting_socket 0 deflating_world))
      = Some fr
      ∧ f_rsv1 fr = true
      ∧ f_fin fr = j_finalFragment deflating_job
      ∧ f_opcode fr = j_opcode deflating_job
      ∧ f_masked fr = j_maskData deflating_job
      ∧ f_length fr = Z.of_nat (length (remove_last 6 (j_cdata deflating_job)))
      ∧ received_payload fr = remove_last 6 (j_cdata deflating_job).
Proof.
  split; [exact accepting_socket_accepts|split; [exact deflating_job_registered|]].
  split; [exact deflating_job_opcode|split; [exact deflating_job_octets|]].
  split; [exact deflating_job_short|].
  exact (X8_compressed_frame counting_random accepting_socket accepting_socket_accepts
           0%nat deflating_job deflating_world deflating_job_registered
           deflating_job_opcode deflating_job_octets deflating_job_short).
Defined.

Lemma throwing_socket_throws e : ∀ b, throwing_socket e (wire sample_world) b = Some e.
Proof. intros b. reflexivity. Defined.

Lemma X9_refused_write_witness :
  (∀ b, throwing_socket (Error "EPIPE") (wire sample_world) b = Some (Error "EPIPE"))
  ∧ valid_data sample_world (DBuffer 0)
  ∧ (opt o_compress masked_options = false ∨ falsy (DBuffer 0) = true)
  ∧ wire (send counting_random (throwing_socket (Error "EPIPE")) (DBuffer 0)
            masked_options (Some 5%nat) sample_world)
    = wire sample_world
  ∧ reports (send counting_random (throwing_socket (Error "EPIPE")) (DBuffer 0)
               masked_options (Some 5%nat) sample_world)
    = reports sample_world ++ [report_of (Some 5%nat) (Error "EPIPE")]
  ∧ firstFragment (send counting_random (throwing_socket (Error "EPIPE")) (DBuffer 0)
                     masked_options (Some 5%nat) sample_world)
    = fin_of masked_options.
Proof.
  split; [exact (throwing_socket_throws (Error "EPIPE"))|].
  split; [exact sample_buffer_valid|split; [exact masked_options_plain|]].
  exact (X9_refused_write counting_random (throwing_socket (Error "EPIPE")) (DBuffer 0)
           masked_options (Some 5%nat) sample_world (Error "EPIPE")
           (throwing_socket_throws (Error "EPIPE")) sample_buffer_valid
           masked_options_plain).
Defined.

Lemma large_buffer_valid : valid_data large_world (DBuffer 0).
Proof. exists (replicate (Z.to_nat 40000) 0). reflexivity. Defined.

Lemma first_write_accepted e :
  ∀ b, socket_failing_after 1 e (wire large_world) b = None.
Proof. intros b. reflexivity. Defined.

Lemma second_write_refused e :
  ∀ x b, socket_failing_after 1 e (wire large_world ++ [x]) b = Some e.
Proof. intros x b. reflexivity. Defined.

Lemma large_buffer_not_merged :
  mergeBuffers (Z.of_nat (length (payload_octets large_world (DBuffer 0))))
    (opt o_mask None) (can_modify (DBuffer 0)) = false.
Proof. vm_compute. reflexivity. Defined.

Lemma X10_header_without_payload_witness :
  (∀ b, socket_failing_after 1 (Error "EPIPE") (wire large_world) b = None)
  ∧ (∀ x b, socket_failing_after 1 (Error "EPIPE") (wire large_world ++ [x]) b
            = Some (Error "EPIPE"))
  ∧ valid_data large_world (DBuffer 0)
  ∧ opt o_compress None = false
  ∧ falsy (DBuffer 0) = false
  ∧ mergeBuffers (Z.of_nat (length (payload_octets large_world (DBuffer 0))))
      (opt o_mask None) (can_modify (DBuffer 0)) = false
  ∧ reports (send counting_random (socket_failing_after 1 (Error "EPIPE")) (DBuffer 0)
               None None large_world)
    = reports large_world ++ [report_of None (Error "EPIPE")].
Proof.
  split; [exact (first_write_accepted (Error "EPIPE"))|].
  split; [exact (second_write_refused (Error "EPIPE"))|].
  split; [exact large_buffer_valid|split; [reflexivity|split; [reflexivity|]]].
  split; [exact large_buffer_not_merged|].
  exact (proj2 (X10_header_without_payload counting_random
                  (socket_failing_after 1 (Error "EPIPE")) (DBuffer 0) None None
                  large_world (Error "EPIPE")
                  (first_write_accepted (Error "EPIPE"))
                  (second_write_refused (Error "EPIPE"))
                  large_buffer_valid eq_refl eq_refl large_buffer_not_merged)).
Defined.

Lemma masked_world_mask : _randomMask masked_world = Some [17; 18; 19; 20].
Proof. vm_compute. reflexivity. Defined.

Lemma X11_mask_is_reused_witness :
  _randomMask masked_world = Some [17; 18; 19; 20]
  ∧ _randomMask
      (run sample_isValidErrorCode counting_random accepting_socket
         [ASend (DString "again") masked_options None; APing DUndefined masked_options]
         masked_world)
    = Some [17; 18; 19; 20].
Proof.
  split; [exact masked_world_mask|].
  exact (proj1 (X11_mask_is_reused sample_isValidErrorCode counting_random
                  accepting_socket
                  [ASend (DString "again") masked_options None;
                   APing DUndefined masked_options]
                  masked_world [17; 18; 19; 20] masked_world_mask)).
Defined.

Lemma empty_buffer_valid : valid_data sample_world (DBuffer 1).
Proof. exists []. reflexivity. Defined.

(** The first masked send of an encoder, of an empty Buffer: four draws. *)
Lemma X12_first_mask_witness :
  valid_data sample_world (DBuffer 1)
  ∧ _randomMask sample_world = None
  ∧ opt o_mask masked_options = true
  ∧ opt o_compress masked_options = false
  ∧ falsy (DBuffer 1) = false
  ∧ (∀ ws b, accepting_socket ws b = None)
  ∧ draws (send counting_random accepting_socket (DBuffer 1) masked_options None
             sample_world)
    = (draws sample_world + 4)%nat
  ∧ f_mask_key <$> decode_frame
      (emitted sample_world
         (send counting_random accepting_socket (DBuffer 1) masked_options None
            sample_world))
    = Some (next_mask counting_random sample_world).
Proof.
  split; [exact empty_buffer_valid|].
  split; [reflexivity|split; [reflexivity|split; [reflexivity|split; [reflexivity|]]]].
  split; [exact accepting_socket_accepts|].
  pose proof (proj1 (X12_first_mask counting_random accepting_socket (DBuffer 1)
                       masked_options None sample_world)
                empty_buffer_valid eq_refl eq_refl eq_refl eq_refl) as H.
  exact (conj (proj1 (proj2 (proj2 H)))
              (proj2 (proj2 (proj2 H)) accepting_socket_accepts)).
Defined.

Lemma sample_pieces_valid :
  valid_actions (fragmented false true sample_pieces (DString "llo")) sample_world.
Proof.
  repeat constructor. exact sample_buffer_valid.
Defined.

Lemma X13_fragmented_message_witness :
  (∀ ws b, accepting_socket ws b = None)
  ∧ firstFragment sample_world = true
  ∧ valid_actions (fragmented false true sample_pieces (DString "llo")) sample_world
  ∧ (fun F => f_opcode <$> decode_frame F)
      <$> frames_of_run sample_isValidErrorCode counting_random accepting_socket
            (fragmented false true sample_pieces (DString "llo")) sample_world
    = [Some 1; Some 0; Some 0].
Proof.
  split; [exact accepting_socket_accepts|split; [reflexivity|]].
  split; [exact sample_pieces_valid|].
  exact (proj1 (X13_fragmented_message sample_isValidErrorCode counting_random
                  accepting_socket accepting_socket_accepts false true sample_pieces
                  (DString "llo") sample_world eq_refl sample_pieces_valid)).
Defined.

(** ** Close frames, compressed messages and error reports *)

Section Composition.

Variable isValidErrorCode : Z → bool.
Variable random255 : nat → Z.
Variable socket_throws : list write → list Z → option js_error.

Local Abbreviation step := (step isValidErrorCode random255 socket_throws).
Local Abbreviation run := (run isValidErrorCode random255 socket_throws).

Lemma run_data_wire j chunks : ∀ w, wire (run (ADeflateData j <$> chunks) w) = wire w.
Proof.
  induction chunks as [|c chunks IH]; intros w; cbn [fmap list_fmap run]; [done|].
  rewrite IH. cbn [step world_of]. unfold deflate_on_data. by destruct (jobs w !! j).
Qed.

Lemma chunks_of_own j chunks : chunks_of j (ADeflateData j <$> chunks) = chunks.
Proof.
  induction chunks as [|c chunks IH]; [done|].
  unfold chunks_of in *. cbn [fmap list_fmap omap list_omap].
  rewrite decide_True by done. by rewrite IH.
Qed.

Hypothesis socket_accepts : ∀ ws b, socket_throws ws b = None.

(** X15: close with a code the table accepts, or without a code, writes
    one final frame with opcode 8, RSV1 clear and MASK as asked; its
    payload starts with the code as a 16-bit big-endian number (the code
    modulo 65536; 1000 when the code is missing or 0) and goes on with the
    octets of the reason, when there is one.  The call reports no error
    and leaves the fragmentation state and the deflate streams as they
    were. *)
Theorem X15_close_frame code data mask w :
  code = CodeUndefined ∨ (∃ n, code = CodeNumber n ∧ isValidErrorCode n = true) →
  ∃ w' fr,
    close isValidErrorCode random255 socket_throws code data mask w = Returned w'
    ∧ decode_frame (emitted w w') = Some fr
    ∧ f_opcode fr = 8 ∧ f_fin fr = true ∧ f_rsv1 fr = false ∧ f_masked fr = mask
    ∧ be_value (take 2 (received_payload fr)) = sent_code code mod 2 ^ 16
    ∧ drop 2 (received_payload fr) = reason_octets data
    ∧ reports w' = reports w
    ∧ firstFragment w' = firstFragment w
    ∧ jobs w' = jobs w.
Proof.
  intros Hcode.
  destruct (close_valid isValidErrorCode random255 socket_throws code data mask w Hcode)
    as (w1 & -> & Hh & Hw & Hff & _ & Hj & _ & _ & Hrp).
  set (l := fresh (dom (heap w))) in *.
  set (p := [(sent_code code / 2 ^ 8) mod 256; sent_code code mod 256]
            ++ reason_octets data) in *.
  assert (heap w1 !! l = Some p) as Hl by (rewrite Hh; apply lookup_insert_eq).
  destruct (frameAndSend_emitted random255 socket_throws socket_accepts (calls w) 8
              (DBuffer l) true mask false None w1 (mk_is_Some _ _ Hl) (or_introl eq_refl))
    as (He & Hr).
  destruct (frameAndSend_fields random255 socket_throws (calls w) 8 (DBuffer l) true
              mask false None w1) as (_ & _ & Hf' & _).
  cbn [falsy payload_octets] in He. unfold buf in He.
  rewrite (bufat_lookup _ _ _ Hl) in He.
  rewrite (emitted_same_wire w1 w) in He by done.
  pose proof (frameAndSend_plain_jobs random255 socket_throws (calls w) 8 (DBuffer l)
                true mask None w1) as Hj'.
  rewrite frameAndSend_Buffer in He, Hr, Hf', Hj' |- *. cbn [world_of] in He, Hr, Hf', Hj'.
  assert (octets p) as Hp.
  { unfold octets, p. apply Forall_app. split; [|destruct data; [apply utf8_octets|done]].
    repeat constructor; apply Z.mod_pos_bound; lia. }
  assert (received_payload
            {| f_fin := true; f_rsv1 := false; f_opcode := 8; f_masked := mask;
               f_length := encoded_length (Z.of_nat (length p));
               f_mask_key := if mask then key_octets (next_mask random255 w1) else [];
               f_payload := if mask then masked_octets (next_mask random255 w1) p
                            else p |} = p) as Hrec.
  { unfold received_payload. cbn [f_masked f_mask_key f_payload].
    destruct mask; [by apply unmask_masked_octets|done]. }
  eexists _, _. split; [reflexivity|]. rewrite He.
  split; [by apply decode_frame_octets|].
  cbn [f_opcode f_fin f_rsv1 f_masked]. rewrite Hrec.
  split; [done|split; [done|split; [done|split; [done|]]]].
  split; [|split; [done|split; [by rewrite Hr|split]]].
  - unfold p, be_value. cbn [app take firstn fold_left]. rewrite take_0.
    cbn [fold_left]. change (2 ^ 8) with 256. change (2 ^ 16) with 65536.
    generalize (sent_code code). intros c.
    pose proof (Z.div_mod c 256 ltac:(lia)).
    pose proof (Z.div_mod (c / 256) 256 ltac:(lia)).
    pose proof (Z.mod_pos_bound c 256 ltac:(lia)).
    pose proof (Z.mod_pos_bound (c / 256) 256 ltac:(lia)).
    apply (Z.mod_unique_pos _ _ (c / 256 / 256)); lia.
  - by rewrite Hf'.
  - by rewrite Hj'.
Qed.

(** X16: a compressed message from the call to the wire.  While the
    deflate stream delivers its chunks nothing is written; when it ends,
    one frame is written with RSV1 set, whose opcode, FIN and MASK are
    those the send fixed when it was called, and whose payload, unmasked
    when MASK is set, is the concatenation of the chunks without its last
    6 octets. *)
Theorem X16_compressed_message data options cb chunks w :
  valid_data w data →
  opt o_compress options = true →
  falsy data = false →
  octets (concat chunks) →
  Z.of_nat (length (concat chunks)) < 2 ^ 32 →
  let j := fresh (dom (jobs w)) in
  let w1 := run (ADeflateData j <$> chunks)
              (send random255 socket_throws data options cb w) in
  wire w1 = wire w
  ∧ ∃ fr,
      decode_frame (emitted w1 (deflate_on_end random255 socket_throws j w1)) = Some fr
      ∧ f_rsv1 fr = true
      ∧ f_fin fr = fin_of options
      ∧ f_opcode fr = (if firstFragment w then data_opcode options else 0)
      ∧ f_masked fr = opt o_mask options
      ∧ received_payload fr = remove_last 6 (concat chunks).
Proof.
  intros Hv Hc Hf Ho Hn j w1.
  destruct (send_deflate_job random255 socket_throws data options cb w Hv Hc Hf)
    as (Hj & Hw & _).
  pose proof (run_job isValidErrorCode random255 socket_throws
                (ADeflateData j <$> chunks) _ _ _ Hj) as Hj1.
  fold j w1 in Hj1. rewrite chunks_of_own in Hj1. cbn [j_cdata app] in Hj1.
  split; [subst w1; by rewrite run_data_wire|].
  rewrite (deflate_on_end_emitted random255 socket_throws socket_accepts j _ w1 Hj1).
  cbn [with_cdata j_opcode j_finalFragment j_maskData j_cdata].
  rewrite Buffer_slice_remove_last.
  assert (octets (remove_last 6 (concat chunks))) as Ho'.
  { rewrite <- Buffer_slice_remove_last. by apply octets_slice. }
  assert (length (remove_last 6 (concat chunks)) ≤ length (concat chunks))%nat as Hle.
  { rewrite <- Buffer_slice_remove_last. unfold Buffer_slice.
    rewrite length_take, length_drop. lia. }
  destruct (frame_octets_round_trip
              (if firstFragment w then data_opcode options else 0) (fin_of options)
              (opt o_mask options) true (next_mask random255 w1)
              (remove_last 6 (concat chunks)) (send_opcode_range options w) Ho'
              ltac:(lia))
    as (fr & ? & ? & ? & ? & ? & ? & ? & ?).
  exists fr. auto 12.
Qed.

Lemma frameAndSend_reports call opcode data finalFragment maskData compress cb w :
  valid_data w data →
  reports (frameAndSend random255 socket_throws call opcode data finalFragment
             maskData compress cb w) = reports w.
Proof.
  intros Hv. destruct compress, (falsy data) eqn:Hf.
  - by destruct (frameAndSend_emitted random255 socket_throws socket_accepts call opcode
                   data finalFragment maskData true cb w Hv (or_intror Hf)) as (_ & ?).
  - unfold frameAndSend. rewrite Hf.
    destruct data as [|s|l|v]; try discriminate;
      unfold getArrayBuffer, new_Buffer, deflate_start; cbv zeta;
      try destruct (byteLength_or_length v); reflexivity.
  - by destruct (frameAndSend_emitted random255 socket_throws socket_accepts call opcode
                   data finalFragment maskData false cb w Hv (or_introl eq_refl))
      as (_ & ?).
  - by destruct (frameAndSend_emitted random255 socket_throws socket_accepts call opcode
                   data finalFragment maskData false cb w Hv (or_introl eq_refl))
      as (_ & ?).
Qed.

Lemma step_reports a w :
  valid_action a w → reports (world_of (step a w)) = reports w.
Proof.
  intros Hv. destruct a as [d o cb|d o|d o|c d m|j chunk|j|j err]; cbn [step world_of].
  - rewrite send_frameAndSend. by rewrite frameAndSend_reports.
  - unfold ping, begin_call. rewrite frameAndSend_reports; [done|].
    by apply (valid_or_empty (with_calls (S (calls w)) w)).
  - unfold pong, begin_call. rewrite frameAndSend_reports; [done|].
    by apply (valid_or_empty (with_calls (S (calls w)) w)).
  - destruct (close_cases isValidErrorCode c) as [Hc|Hc].
    + by rewrite close_invalid.
    + destruct (close_valid isValidErrorCode random255 socket_throws c d m w Hc)
        as (w1 & -> & Hh & _ & _ & _ & _ & _ & _ & Hrp).
      rewrite frameAndSend_reports; [done|].
      cbn [valid_data]. rewrite Hh, lookup_insert_eq. eauto.
  - unfold deflate_on_data. by destruct (jobs w !! j).
  - unfold deflate_on_end. destruct (jobs w !! j) as [job|]; [|done].
    unfold new_Buffer.
    match goal with |- context [_frame_and_send _ _ ?c ?op ?f ?mk ?z ?k ?cm ?l ?W] =>
      destruct (frame_and_send_emitted random255 socket_throws socket_accepts c op f mk
                  z k cm l W _ (lookup_insert_eq _ _ _)) as (_ & ->) end.
    reflexivity.
  - unfold deflate_on_error. by destruct (jobs w !! j).
Qed.

(** X17: on a socket that accepts every write, no sequence of operations
    and deflate events makes the encoder report an error, through a
    callback or as an error event: the catch blocks around the writes are
    the only places that report. *)
Theorem X17_no_report_without_socket_error acts : ∀ w,
  valid_actions acts w →
  reports (run acts w) = reports w.
Proof.
  induction acts as [|a acts IH]; intros w Hv; [done|].
  apply Forall_cons in Hv as [Ha Hv]. cbn [run].
  rewrite IH; [by apply step_reports|].
  by apply (valid_actions_step isValidErrorCode random255 socket_throws).
Qed.

End Composition.

Lemma accepted_code : 
  CodeNumber 1001 = CodeUndefined
  ∨ (∃ n, CodeNumber 1001 = CodeNumber n ∧ sample_isValidErrorCode n = true).
Proof. right. exists 1001. split; reflexivity. Defined.

Lemma X15_close_frame_witness :
  (∀ ws b, accepting_socket ws b = None)
  ∧ (CodeNumber 1001 = CodeUndefined
     ∨ (∃ n, CodeNumber 1001 = CodeNumber n ∧ sample_isValidErrorCode n = true))
  ∧ ∃ w' fr,
      close sample_isValidErrorCode counting_random accepting_socket (CodeNumber 1001)
        (Some "bye"%string) true sample_world = Returned w'
      ∧ decode_frame (emitted sample_world w') = Some fr
      ∧ f_opcode fr = 8 ∧ f_fin fr = true ∧ f_rsv1 fr = false ∧ f_masked fr = true
      ∧ be_value (take 2 (received_payload fr)) = sent_code (CodeNumber 1001) mod 2 ^ 16
      ∧ drop 2 (received_payload fr) = reason_octets (Some "bye"%string)
      ∧ reports w' = reports sample_world
      ∧ firstFragment w' = firstFragment sample_world
      ∧ jobs w' = jobs sample_world.
Proof.
  split; [exact accepting_socket_accepts|split; [exact accepted_code|]].
  exact (X15_close_frame sample_isValidErrorCode counting_random accepting_socket
           accepting_socket_accepts (CodeNumber 1001) (Some "bye"%string) true
           sample_world accepted_code).
Defined.

Lemma sample_chunks_octets : octets (concat [[1; 1; 1; 0]; [0; 255; 255; 3; 0]]).
Proof. repeat constructor; discriminate. Defined.

Lemma sample_chunks_short :
  Z.of_nat (length (concat [[1; 1; 1; 0]; [0; 255; 255; 3; 0]])) < 2 ^ 32.
Proof. reflexivity. Defined.

Lemma X16_compressed_message_witness :
  (∀ ws b, accepting_socket ws b = None)
  ∧ valid_data sample_world (DString "one")
  ∧ opt o_compress compress_options = true
  ∧ falsy (DString "one") = false
  ∧ octets (concat [[1; 1; 1; 0]; [0; 255; 255; 3; 0]])
  ∧ Z.of_nat (length (concat [[1; 1; 1; 0]; [0; 255; 255; 3; 0]])) < 2 ^ 32
  ∧ wire (run sample_isValidErrorCode counting_random accepting_socket
            (ADeflateData (fresh (dom (jobs sample_world)))
               <$> [[1; 1; 1; 0]; [0; 255; 255; 3; 0]])
            (send counting_random accepting_socket (DString "one") compress_options
               None sample_world))
    = wire sample_world.
Proof.
  split; [exact accepting_socket_accepts|split; [exact sample_string_valid|]].
  split; [reflexivity|split; [reflexivity|]].
  split; [exact sample_chunks_octets|split; [exact sample_chunks_short|]].
  exact (proj1 (X16_compressed_message sample_isValidErrorCode counting_random
                  accepting_socket accepting_socket_accepts (DString "one")
                  compress_options None [[1; 1; 1; 0]; [0; 255; 255; 3; 0]]
                  sample_world sample_string_valid eq_refl eq_refl sample_chunks_octets
                  sample_chunks_short)).
Defined.

Lemma X17_no_report_without_socket_error_witness :
  (∀ ws b, accepting_socket ws b = None)
  ∧ valid_actions (fragmented false true sample_pieces (DString "llo")) sample_world
  ∧ reports (run sample_isValidErrorCode counting_random accepting_socket
               (fragmented false true sample_pieces (DString "llo")) sample_world)
    = reports sample_world.
Proof.
  split; [exact accepting_socket_accepts|split; [exact sample_pieces_valid|]].
  exact (X17_no_report_without_socket_error sample_isValidErrorCode counting_random
           accepting_socket accepting_socket_accepts
           (fragmented false true sample_pieces (DString "llo")) sample_world
           sample_pieces_valid).
Defined.

(** ** A view without octets *)



